(** * avs_commons persistence engine: a shallow embedding of
      [persistence/src/persistence.c] and the properties of its
      store / restore / ignore codecs.

    Integers are [Z] with the wrap-around of the C types written out, bytes
    are [Z] in [0, 256), memory obtained from [malloc] lives in a finite map
    from addresses to blocks, streams live in a finite map from stream handles
    to FIFO byte queues, and the C functions become actions of a small state
    monad over that world. *)

From stdpp Require Import gmap list.
From Stdlib Require Import ZArith Lia.
From Equations Require Import Equations.

Open Scope Z_scope.

(** ** Fixed-width integers and their bytes *)

Module Bytes.

Definition is_byte (b : Z) : Prop := 0 <= b < 256.

(** [(uintN_t) v] for an [N]-bit unsigned type. *)
Definition cast_unsigned (bits : Z) (v : Z) : Z := v mod 2 ^ bits.

(** Reinterpretation of an [N]-bit pattern as a two's-complement signed
    value: what reading an [intN_t] through a [uintN_t *] undoes. *)
Definition to_signed (bits : Z) (u : Z) : Z :=
  if u <? 2 ^ (bits - 1) then u else u - 2 ^ bits.

(** The [n] bytes of [v], least significant first. *)
Fixpoint le_bytes (n : nat) (v : Z) : list Z :=
  match n with
  | O => []
  | S k => Z.land v 255 :: le_bytes k (Z.shiftr v 8)
  end.

(** The unsigned integer whose bytes, least significant first, are [bs]. *)
Fixpoint of_le_bytes (bs : list Z) : Z :=
  match bs with
  | [] => 0
  | b :: rest => Z.lor b (Z.shiftl (of_le_bytes rest) 8)
  end.

(** Canonical big-endian layout of an [n]-byte unsigned integer. *)
Definition be_bytes (n : nat) (v : Z) : list Z := rev (le_bytes n v).

Definition of_be_bytes (bs : list Z) : Z := of_le_bytes (rev bs).

(** Byte order of the host the library was compiled for. *)
Inductive byte_order := LittleEndian | BigEndian.

(** Object representation: the bytes [&v] points to, for an [n]-byte
    unsigned integer [v] on a host of the given byte order. *)
Definition object_bytes (host : byte_order) (n : nat) (v : Z) : list Z :=
  match host with
  | LittleEndian => le_bytes n v
  | BigEndian => be_bytes n v
  end.

(** The integer a host reads back from the bytes of an object. *)
Definition object_value (host : byte_order) (bs : list Z) : Z :=
  match host with
  | LittleEndian => of_le_bytes bs
  | BigEndian => of_be_bytes bs
  end.

(** Modelled from the spec: [avs_convert_be16/32/64] (declared in utils.h,
    not part of this source tree) convert between host byte order and the
    canonical big-endian wire order: the identity on a big-endian host, a
    byte swap of the [n]-byte value on a little-endian host. *)
Definition avs_convert_be (host : byte_order) (n : nat) (v : Z) : Z :=
  match host with
  | BigEndian => v
  | LittleEndian => of_le_bytes (rev (le_bytes n v))
  end.

Definition avs_convert_be16 (host : byte_order) := avs_convert_be host 2.
Definition avs_convert_be32 (host : byte_order) := avs_convert_be host 4.
Definition avs_convert_be64 (host : byte_order) := avs_convert_be host 8.

(** Modelled from the spec: [avs_htonf] / [avs_ntohf] and [avs_htond] /
    [avs_ntohd] (utils.h, not part of this source tree) are the canonical
    bit-pattern transform: a [float] (resp. [double]) is handled as its
    32-bit (resp. 64-bit) IEEE pattern, which is converted like an unsigned
    integer of that width.  Floating-point values are therefore bit patterns
    here. *)
Definition avs_htonf (host : byte_order) (f : Z) : Z := avs_convert_be32 host f.
Definition avs_ntohf (host : byte_order) (u : Z) : Z := avs_convert_be32 host u.
Definition avs_htond (host : byte_order) (d : Z) : Z := avs_convert_be64 host d.
Definition avs_ntohd (host : byte_order) (u : Z) : Z := avs_convert_be64 host u.

End Bytes.

Export Bytes.

(** ** The world the engine runs in *)

(** Handles of streams ([avs_stream_abstract_t *]) and addresses of heap
    blocks. *)
Definition stream_id := nat.
Definition loc := nat.

(** A stream is a FIFO byte queue: [pending] holds the bytes written and not
    yet read, [room] the number of further bytes the sink accepts. *)
Record stream := Stream { pending : list Z; room : Z }.

(** The C functions are actions on a state returning a value. *)
Definition state_m (S A : Type) : Type := S -> A * S.

Definition ret {S A : Type} (a : A) : state_m S A := fun w => (a, w).

Definition bind {S A B : Type} (m : state_m S A) (k : A -> state_m S B)
    : state_m S B :=
  fun w => let (a, w') := m w in k a w'.

Notation "'let*' p ':=' c1 'in' c2" := (bind c1 (fun p => c2))
  (at level 10, p pattern, c1 at level 100, c2 at level 200).
Notation "c1 ;; c2" := (bind c1 (fun _ => c2))
  (at level 100, right associativity).

(** Modelled from the spec: [avs_persistence_direction_t], an enum declared
    in persistence.h, which is not part of this source tree.  The source
    names [AVS_PERSISTENCE_UNKNOWN], [AVS_PERSISTENCE_STORE] and
    [AVS_PERSISTENCE_RESTORE]; the fourth value stands for the Ignore
    direction of the spec's data model, which no line of the source names. *)
Inductive avs_persistence_direction_t :=
| AVS_PERSISTENCE_UNKNOWN
| AVS_PERSISTENCE_STORE
| AVS_PERSISTENCE_RESTORE
| AVS_PERSISTENCE_IGNORE.

(** The function-pointer types of the operation table: a value is the address
    of one of the three static functions of that signature. *)
Inductive persistence_handler_u16_t :=
  ptr_persist_u16 | ptr_restore_u16 | ptr_ignore_u16.
Inductive persistence_handler_u32_t :=
  ptr_persist_u32 | ptr_restore_u32 | ptr_ignore_u32.
Inductive persistence_handler_u64_t :=
  ptr_persist_u64 | ptr_restore_u64 | ptr_ignore_u64.
Inductive persistence_handler_bool_t :=
  ptr_persist_bool | ptr_restore_bool | ptr_ignore_bool.
Inductive persistence_handler_bytes_t :=
  ptr_persist_bytes | ptr_restore_bytes | ptr_ignore_bytes.
Inductive persistence_handler_float_t :=
  ptr_persist_float | ptr_restore_float | ptr_ignore_float.
Inductive persistence_handler_double_t :=
  ptr_persist_double | ptr_restore_double | ptr_ignore_double.
Inductive persistence_handler_sized_buffer_t :=
  ptr_persist_sized_buffer | ptr_restore_sized_buffer | ptr_ignore_sized_buffer.
Inductive persistence_handler_string_t :=
  ptr_persist_string | ptr_restore_string | ptr_ignore_string.
Inductive persistence_handler_list_t :=
  ptr_persist_list | ptr_restore_list | ptr_ignore_list.
Inductive persistence_handler_tree_t :=
  ptr_persist_tree | ptr_restore_tree | ptr_ignore_tree.

(** A non-null [avs_persistence_context_t *]: the address [calloc] returned
    ([ctx_addr]) and the fields of [struct avs_persistence_context_struct]
    found there.  A possibly null pointer is an [option]. *)
Record avs_persistence_context_t := Context {
  ctx_addr : loc;
  direction : avs_persistence_direction_t;
  handle_u16 : persistence_handler_u16_t;
  handle_u32 : persistence_handler_u32_t;
  handle_u64 : persistence_handler_u64_t;
  handle_bool : persistence_handler_bool_t;
  handle_bytes : persistence_handler_bytes_t;
  handle_float : persistence_handler_float_t;
  handle_double : persistence_handler_double_t;
  handle_sized_buffer : persistence_handler_sized_buffer_t;
  handle_string : persistence_handler_string_t;
  handle_list : persistence_handler_list_t;
  handle_tree : persistence_handler_tree_t;
  stream_of : stream_id
}.

(** [sizeof (avs_persistence_context_t)] on an LP64 host: an enum padded to
    8 bytes and twelve pointers. *)
Definition sizeof_context : Z := 104.

(** [AVS_RBTREE(void)]: the comparator given when the tree was created and
    its elements in ascending order. *)
Record avs_rbtree := RBTree {
  rb_cmp : list Z -> list Z -> Z;
  rb_elems : list loc
}.

Section Engine.

(** Byte order of the host, fixed at compile time. *)
Variable host : byte_order.

(** State reachable from [handler_user_ptr]: whatever the caller's element
    handler and cleanup callback keep besides the element itself. *)
Context {U : Type}.

(** Everything the engine and the callbacks can read or change. *)
Record world := World {
  streams : gmap stream_id stream;   (* every stream, by handle *)
  heap : gmap loc (list Z);          (* blocks obtained from malloc/calloc *)
  heap_room : Z;                     (* bytes the allocator can still hand out *)
  user : U;                          (* state behind handler_user_ptr *)
  cleaned : list (list Z)            (* elements passed to the cleanup callback *)
}.

(** The world with its streams changed by [f]. *)
Definition set_streams (f : gmap stream_id stream -> gmap stream_id stream)
    (w : world) : world :=
  World (f (streams w)) (heap w) (heap_room w) (user w) (cleaned w).

(** The world with its blocks changed by [f] and [d] more bytes for the
    allocator to hand out. *)
Definition set_heap (f : gmap loc (list Z) -> gmap loc (list Z)) (d : Z)
    (w : world) : world :=
  World (streams w) (f (heap w)) (heap_room w + d) (user w) (cleaned w).

(** Actions on the world. *)
Definition M (A : Type) : Type := state_m world A.

(** *** Streams *)

(** Modelled from the spec: [avs_stream_write] (stream.h, not part of this
    source tree) is all-or-nothing: the first [buffer_length] bytes of
    [buffer] are appended to the stream, or nothing is and the call fails. *)
Definition avs_stream_write (s : stream_id) (buffer : list Z)
    (buffer_length : Z) : M Z :=
  fun w =>
    match streams w !! s with
    | None => (-1, w)
    | Some st =>
        if decide (buffer_length <= room st)
        then (0, set_streams
                   <[s := Stream (pending st ++ take (Z.to_nat buffer_length) buffer)
                                 (room st - buffer_length)]> w)
        else (-1, w)
    end.

(** Modelled from the spec: [avs_stream_read_reliably] (stream.h, not part of
    this source tree) reads exactly [buffer_length] bytes into [buffer] or
    fails: a short read is a failure, never a partial-length success.  The
    spec leaves the stream position after a failure open; here the bytes that
    were available have been consumed into the front of [buffer].  The action
    returns the status and the new contents of [buffer]. *)
Definition avs_stream_read_reliably (s : stream_id) (buffer : list Z)
    (buffer_length : Z) : M (Z * list Z) :=
  fun w =>
    match streams w !! s with
    | None => ((-1, buffer), w)
    | Some st =>
        let got := take (Z.to_nat buffer_length) (pending st) in
        let rest := drop (Z.to_nat buffer_length) (pending st) in
        let buffer' := got ++ drop (length got) buffer in
        ((if decide (buffer_length <= Z.of_nat (length (pending st)))
          then 0 else -1, buffer'),
         set_streams <[s := Stream rest (room st)]> w)
    end.

(** *** The heap *)

(** [malloc (size)]: a fresh block of [size] bytes (modelled as zeroed, which
    is also what [calloc] gives), or [NULL] when the allocator has fewer than
    [size] bytes left. *)
Definition malloc (size : Z) : M (option loc) :=
  fun w =>
    if decide (size <= heap_room w)
    then let l := fresh (dom (heap w)) in
         (Some l, set_heap <[l := replicate (Z.to_nat size) 0]> (- size) w)
    else (None, w).

(** [free (ptr)]; [free (NULL)] does nothing. *)
Definition free (ptr : option loc) : M unit :=
  fun w =>
    match ptr with
    | None => (tt, w)
    | Some l =>
        match heap w !! l with
        | None => (tt, w)
        | Some block => (tt, set_heap (delete l) (Z.of_nat (length block)) w)
        end
    end.

(** The bytes a pointer points to ([NULL] has none). *)
Definition load (ptr : option loc) : M (list Z) :=
  fun w => (default [] (ptr ≫= (heap w !!.)), w).

(** Overwrites the bytes of a block. *)
Definition store (l : loc) (block : list Z) : M unit :=
  fun w => (tt, World (streams w) (<[l := block]> (heap w)) (heap_room w)
                      (user w) (cleaned w)).

(** *** Caller-supplied callbacks *)

(** [avs_persistence_handler_collection_element_t]: the element handler sees
    the context, the bytes of the element ([None] for a null element) and,
    through the context and [handler_user_ptr], the streams and the user
    state; it returns a status, the new bytes of the element and the new
    streams and user state.  The [handler_user_ptr] argument itself is the
    address of the [user] component and is left implicit.  What a handler
    allocates for an element (a restored string, say) and what the cleanup
    callback releases is part of the user state; [heap] holds the blocks the
    engine itself allocates. *)
Definition avs_persistence_handler_collection_element_t : Type :=
  avs_persistence_context_t -> option (list Z) ->
  gmap stream_id stream * U ->
  Z * option (list Z) * (gmap stream_id stream * U).

(** [avs_persistence_cleanup_collection_element_t]: releases what an element
    owns; a null callback is [None]. *)
Definition avs_persistence_cleanup_collection_element_t : Type :=
  list Z -> U -> U.

(** [handler (ctx, element, handler_user_ptr)]: the element memory keeps its
    size whatever the handler returns for it. *)
Definition call_handler (handler : avs_persistence_handler_collection_element_t)
    (ctx : avs_persistence_context_t) (element : option loc) : M Z :=
  fun w =>
    let '(retval, bytes', (ss, u)) :=
      handler ctx (element ≫= (heap w !!.)) (streams w, user w) in
    (retval,
     World ss
           (match element, bytes' with
            | Some l, Some b =>
                match heap w !! l with
                | Some old => <[l := resize (length old) 0 b]> (heap w)
                | None => heap w
                end
            | _, _ => heap w
            end)
           (heap_room w) u (cleaned w)).

(** [cleanup (element)], with the call recorded in [cleaned]. *)
Definition call_cleanup (cleanup : avs_persistence_cleanup_collection_element_t)
    (element : loc) : M unit :=
  fun w =>
    let bytes := default [] (heap w !! element) in
    (tt, World (streams w) (heap w) (heap_room w) (cleanup bytes (user w))
               (cleaned w ++ [bytes])).

(** *** AVS_LIST and AVS_RBTREE primitives *)

(** The list macros of list.h and the tree macros of rbtree.h are not part
    of this source tree.  An [AVS_LIST(void)] is the sequence of its element
    addresses, and a pointer to one of its links is a position in it; an
    [AVS_RBTREE(void)] is an [avs_rbtree]. *)

(** Modelled from the spec: [AVS_LIST_SIZE (list)], the current element
    count. *)
Definition AVS_LIST_SIZE (lst : list loc) : Z := Z.of_nat (length lst).

(** Modelled from the spec: [AVS_LIST_NEW_BUFFER (size)] allocates one fresh
    zeroed element of the declared size, or gives null. *)
Definition AVS_LIST_NEW_BUFFER (size : Z) : M (option loc) := malloc size.

(** Modelled from the spec: [AVS_LIST_INSERT (insert_ptr, element)] links
    the element in at the position [insert_ptr] points to; with [insert_ptr]
    at the tail link, it appends. *)
Definition AVS_LIST_INSERT (insert_ptr : nat) (element : loc)
    (lst : list loc) : list loc :=
  take insert_ptr lst ++ element :: drop insert_ptr lst.

(** Modelled from the spec: [AVS_LIST_NEXT_PTR (insert_ptr)], the link after
    the element [insert_ptr] points to. *)
Definition AVS_LIST_NEXT_PTR (insert_ptr : nat) : nat := S insert_ptr.

(** Modelled from the spec: [AVS_LIST_CLEAR (list_ptr) { body }] releases
    the entire sequence: while the list is not empty, it runs the body on the
    head, then unlinks and frees the head. *)
Fixpoint AVS_LIST_CLEAR (body : loc -> M unit) (lst : list loc)
    : M (list loc) :=
  match lst with
  | [] => ret []
  | head :: rest => body head ;; free (Some head) ;; AVS_LIST_CLEAR body rest
  end.

(** Modelled from the spec: [AVS_RBTREE_SIZE (tree)], the current element
    count. *)
Definition AVS_RBTREE_SIZE (tree : avs_rbtree) : Z :=
  Z.of_nat (length (rb_elems tree)).

(** Modelled from the spec: [AVS_RBTREE_ELEM_NEW_BUFFER (size)] allocates one
    fresh element of the declared size, or gives null. *)
Definition AVS_RBTREE_ELEM_NEW_BUFFER (size : Z) : M (option loc) := malloc size.

(** Modelled from the spec: [AVS_RBTREE_ELEM_DELETE_DETACHED (&element)]
    discards an element that is not in a tree. *)
Definition AVS_RBTREE_ELEM_DELETE_DETACHED (element : loc) : M unit :=
  free (Some element).

(** The bytes of the element at an address. *)
Definition bytes_at (h : gmap loc (list Z)) (l : loc) : list Z :=
  default [] (h !! l).

(** Sorted position of a new key: before the first element that compares
    greater. *)
Fixpoint insert_sorted (h : gmap loc (list Z)) (cmp : list Z -> list Z -> Z)
    (element : loc) (elems : list loc) : list loc :=
  match elems with
  | [] => [element]
  | x :: rest =>
      if cmp (bytes_at h element) (bytes_at h x) <? 0
      then element :: x :: rest
      else x :: insert_sorted h cmp element rest
  end.

(** Modelled from the spec: [AVS_RBTREE_INSERT (tree, element)] attempts a
    unique ordered insertion.  When the tree holds an element with an equal
    key, the insertion fails: the tree is unchanged and that element is
    returned; otherwise [element] is linked in at its sorted position and
    returned. *)
Definition AVS_RBTREE_INSERT (tree : avs_rbtree) (element : loc)
    : M (loc * avs_rbtree) :=
  fun w =>
    match List.find (fun x => rb_cmp tree (bytes_at (heap w) element)
                                           (bytes_at (heap w) x) =? 0)
                    (rb_elems tree) with
    | Some existing => ((existing, tree), w)
    | None =>
        ((element,
          RBTree (rb_cmp tree)
                 (insert_sorted (heap w) (rb_cmp tree) element (rb_elems tree))),
         w)
    end.

(** Modelled from the spec: [AVS_RBTREE_CLEAR (tree) { body }] clears the
    whole collection: it runs the body on every element and frees it, leaving
    the tree empty.  The elements are visited in ascending order here. *)
Definition AVS_RBTREE_CLEAR (body : loc -> M unit) (tree : avs_rbtree)
    : M avs_rbtree :=
  let* _ := AVS_LIST_CLEAR body (rb_elems tree) in
  ret (RBTree (rb_cmp tree) []).

(** *** PERSIST *)

(** The handlers of the operation table take what their pointer arguments
    point to ([value] for [*value], [buffer] for the bytes at [buffer]) and
    return, after the status, what those pointers point to when the function
    returns. *)

Definition persist_bool (ctx : avs_persistence_context_t) (value : Z)
    : M (Z * Z) :=
  let* retval := avs_stream_write (stream_of ctx) [value] 1 in
  ret (retval, value).

Definition persist_bytes (ctx : avs_persistence_context_t) (buffer : list Z)
    (buffer_size : Z) : M (Z * list Z) :=
  let* retval := avs_stream_write (stream_of ctx) buffer buffer_size in
  ret (retval, buffer).

Definition persist_u16 (ctx : avs_persistence_context_t) (value : Z)
    : M (Z * Z) :=
  let tmp := avs_convert_be16 host value in
  let* retval := avs_stream_write (stream_of ctx) (object_bytes host 2 tmp) 2 in
  ret (retval, value).

Definition persist_u32 (ctx : avs_persistence_context_t) (value : Z)
    : M (Z * Z) :=
  let tmp := avs_convert_be32 host value in
  let* retval := avs_stream_write (stream_of ctx) (object_bytes host 4 tmp) 4 in
  ret (retval, value).

Definition persist_u64 (ctx : avs_persistence_context_t) (value : Z)
    : M (Z * Z) :=
  let tmp := avs_convert_be64 host value in
  let* retval := avs_stream_write (stream_of ctx) (object_bytes host 8 tmp) 8 in
  ret (retval, value).

Definition persist_float (ctx : avs_persistence_context_t) (value : Z)
    : M (Z * Z) :=
  let value_be := avs_htonf host value in
  let* retval :=
    avs_stream_write (stream_of ctx) (object_bytes host 4 value_be) 4 in
  ret (retval, value).

Definition persist_double (ctx : avs_persistence_context_t) (value : Z)
    : M (Z * Z) :=
  let value_be := avs_htond host value in
  let* retval :=
    avs_stream_write (stream_of ctx) (object_bytes host 8 value_be) 8 in
  ret (retval, value).

(** [data] and [size] are [*data_ptr] and [*size_ptr]; their final values are
    returned after the status.  The [LOG] call has no effect on the world. *)
Definition persist_sized_buffer (ctx : avs_persistence_context_t)
    (data : option loc) (size : Z) : M (Z * option loc * Z) :=
  let size32 := cast_unsigned 32 size in
  let* (retval, _) := persist_u32 ctx size32 in
  if (retval =? 0) && (0 <? size32)
  then let* buffer := load data in
       let* (retval, _) := persist_bytes ctx buffer size in
       ret (retval, data, size)
  else ret (retval, data, size).

(** [strlen]: the number of bytes before the first NUL. *)
Fixpoint strlen (s : list Z) : Z :=
  match s with
  | [] => 0
  | c :: rest => if c =? 0 then 0 else 1 + strlen rest
  end.

(** [string] is [*string_ptr]. *)
Definition persist_string (ctx : avs_persistence_context_t)
    (string : option loc) : M (Z * option loc) :=
  let* chars := load string in
  let size := match string with Some _ => strlen chars + 1 | None => 0 end in
  let* (retval, _, _) := persist_sized_buffer ctx string size in
  ret (retval, string).

(** [AVS_LIST_FOREACH] / [AVS_RBTREE_FOREACH] with the body of the two
    store loops: stops at the first handler failure. *)
Fixpoint persist_foreach (ctx : avs_persistence_context_t)
    (handler : avs_persistence_handler_collection_element_t)
    (elements : list loc) : M Z :=
  match elements with
  | [] => ret 0
  | element :: rest =>
      let* retval := call_handler handler ctx (Some element) in
      if retval =? 0 then persist_foreach ctx handler rest else ret retval
  end.

Definition persist_list (ctx : avs_persistence_context_t)
    (lst : list loc) (element_size : Z)
    (handler : avs_persistence_handler_collection_element_t)
    (cleanup : option avs_persistence_cleanup_collection_element_t)
    : M (Z * list loc) :=
  let count := AVS_LIST_SIZE lst in
  let count32 := cast_unsigned 32 count in
  if negb (count =? count32) then ret (-1, lst)
  else
    let* (retval, _) := persist_u32 ctx count32 in
    if retval =? 0
    then let* retval := persist_foreach ctx handler lst in ret (retval, lst)
    else ret (retval, lst).

Definition persist_tree (ctx : avs_persistence_context_t)
    (tree : avs_rbtree) (element_size : Z)
    (handler : avs_persistence_handler_collection_element_t)
    (cleanup : option avs_persistence_cleanup_collection_element_t)
    : M (Z * avs_rbtree) :=
  let count := AVS_RBTREE_SIZE tree in
  let count32 := cast_unsigned 32 count in
  if negb (count =? count32) then ret (-1, tree)
  else
    let* (retval, _) := persist_u32 ctx count32 in
    if retval =? 0
    then let* retval := persist_foreach ctx handler (rb_elems tree) in
         ret (retval, tree)
    else ret (retval, tree).

(** [INIT_STORE_CONTEXT (Stream)], stored at address [this]. *)
Definition INIT_STORE_CONTEXT (this : loc) (Stream : stream_id)
    : avs_persistence_context_t :=
  Context this
          AVS_PERSISTENCE_STORE
          ptr_persist_u16
          ptr_persist_u32
          ptr_persist_u64
          ptr_persist_bool
          ptr_persist_bytes
          ptr_persist_float
          ptr_persist_double
          ptr_persist_sized_buffer
          ptr_persist_string
          ptr_persist_list
          ptr_persist_tree
          Stream.

(** *** RESTORE *)

Definition restore_bool (ctx : avs_persistence_context_t) (out : Z)
    : M (Z * Z) :=
  let* (retval, buffer) := avs_stream_read_reliably (stream_of ctx) [out] 1 in
  ret (retval, hd out buffer).

Definition restore_bytes (ctx : avs_persistence_context_t) (buffer : list Z)
    (buffer_size : Z) : M (Z * list Z) :=
  avs_stream_read_reliably (stream_of ctx) buffer buffer_size.

(** The source also tests [out] for null here; [out] is the value behind a
    non-null pointer in this model. *)
Definition restore_u16 (ctx : avs_persistence_context_t) (out : Z)
    : M (Z * Z) :=
  let* (retval, tmp) :=
    avs_stream_read_reliably (stream_of ctx) (replicate 2 0) 2 in
  if retval =? 0
  then ret (retval, avs_convert_be16 host (object_value host tmp))
  else ret (retval, out).

Definition restore_u32 (ctx : avs_persistence_context_t) (out : Z)
    : M (Z * Z) :=
  let* (retval, tmp) :=
    avs_stream_read_reliably (stream_of ctx) (replicate 4 0) 4 in
  if retval =? 0
  then ret (retval, avs_convert_be32 host (object_value host tmp))
  else ret (retval, out).

Definition restore_u64 (ctx : avs_persistence_context_t) (out : Z)
    : M (Z * Z) :=
  let* (retval, tmp) :=
    avs_stream_read_reliably (stream_of ctx) (replicate 8 0) 8 in
  if retval =? 0
  then ret (retval, avs_convert_be64 host (object_value host tmp))
  else ret (retval, out).

Definition restore_float (ctx : avs_persistence_context_t) (out : Z)
    : M (Z * Z) :=
  let* (retval, tmp) :=
    avs_stream_read_reliably (stream_of ctx) (replicate 4 0) 4 in
  if retval =? 0
  then ret (retval, avs_ntohf host (object_value host tmp))
  else ret (retval, out).

Definition restore_double (ctx : avs_persistence_context_t) (out : Z)
    : M (Z * Z) :=
  let* (retval, tmp) :=
    avs_stream_read_reliably (stream_of ctx) (replicate 8 0) 8 in
  if retval =? 0
  then ret (retval, avs_ntohd host (object_value host tmp))
  else ret (retval, out).

(** The two assertions ([*data_ptr] null, [*size_ptr] zero) are preconditions
    of the theorems below. *)
Definition restore_sized_buffer (ctx : avs_persistence_context_t)
    (data : option loc) (size : Z) : M (Z * option loc * Z) :=
  let* (retval, size32) := restore_u32 ctx 0 in
  if negb (retval =? 0) then ret (retval, data, size)
  else if size32 =? 0 then ret (0, data, size)
  else
    let* data := malloc size32 in
    match data with
    | None => ret (-1, data, size)
    | Some l =>
        let* buffer := load data in
        let* (retval, buffer) := restore_bytes ctx buffer size32 in
        store l buffer ;;
        if negb (retval =? 0)
        then free data ;; ret (retval, None, size)
        else ret (retval, data, size32)
    end.

Definition restore_string (ctx : avs_persistence_context_t)
    (string : option loc) : M (Z * option loc) :=
  let size := 0 in
  let* (retval, string, size) := restore_sized_buffer ctx string size in
  if negb (retval =? 0) then ret (retval, string)
  else
    let* chars := load string in
    if (0 <? size) && negb (nth (Z.to_nat (size - 1)) chars 0 =? 0)
    then free string ;; ret (-1, None)
    else ret (0, string).

(** The loop [while (count--)] of [restore_list]; [insert_ptr] is the
    position of the link the next element goes to. *)
Fixpoint restore_list_loop (ctx : avs_persistence_context_t)
    (element_size : Z)
    (handler : avs_persistence_handler_collection_element_t)
    (count : nat) (insert_ptr : nat) (lst : list loc) : M (Z * list loc) :=
  match count with
  | O => ret (0, lst)
  | S count =>
      let* element := AVS_LIST_NEW_BUFFER element_size in
      match element with
      | None => ret (-1, lst)
      | Some e =>
          let lst := AVS_LIST_INSERT insert_ptr e lst in
          let insert_ptr := AVS_LIST_NEXT_PTR insert_ptr in
          let* retval := call_handler handler ctx (Some e) in
          if retval =? 0
          then restore_list_loop ctx element_size handler count insert_ptr lst
          else ret (retval, lst)
      end
  end.

(** The assertion (the list is empty on entry) is a precondition of the
    theorems below. *)
Definition restore_list (ctx : avs_persistence_context_t)
    (lst : list loc) (element_size : Z)
    (handler : avs_persistence_handler_collection_element_t)
    (cleanup : option avs_persistence_cleanup_collection_element_t)
    : M (Z * list loc) :=
  let* (retval, count) := restore_u32 ctx 0 in
  let* (retval, lst) :=
    if retval =? 0
    then restore_list_loop ctx element_size handler (Z.to_nat count) 0 lst
    else ret (retval, lst) in
  match retval =? 0, cleanup with
  | false, Some cleanup =>
      let* lst := AVS_LIST_CLEAR (call_cleanup cleanup) lst in
      ret (retval, lst)
  | _, _ => ret (retval, lst)
  end.

(** [cleanup (element)] in [restore_tree], where [assert (cleanup)] excludes a
    null callback; nothing is called for one here. *)
Definition tree_cleanup
    (cleanup : option avs_persistence_cleanup_collection_element_t)
    (element : loc) : M unit :=
  match cleanup with
  | Some cleanup => call_cleanup cleanup element
  | None => ret tt
  end.

(** The loop [while (count--)] of [restore_tree]. *)
Fixpoint restore_tree_loop (ctx : avs_persistence_context_t)
    (element_size : Z)
    (handler : avs_persistence_handler_collection_element_t)
    (cleanup : option avs_persistence_cleanup_collection_element_t)
    (count : nat) (tree : avs_rbtree) : M (Z * avs_rbtree) :=
  match count with
  | O => ret (0, tree)
  | S count =>
      let* element := AVS_RBTREE_ELEM_NEW_BUFFER element_size in
      match element with
      | None => ret (-1, tree)
      | Some e =>
          let* retval := call_handler handler ctx (Some e) in
          let* (retval, tree) :=
            if retval =? 0
            then let* (inserted, tree) := AVS_RBTREE_INSERT tree e in
                 if negb (Nat.eqb inserted e) then ret (-1, tree)
                 else ret (retval, tree)
            else ret (retval, tree) in
          if negb (retval =? 0)
          then tree_cleanup cleanup e ;;
               AVS_RBTREE_ELEM_DELETE_DETACHED e ;;
               ret (retval, tree)
          else restore_tree_loop ctx element_size handler cleanup count tree
      end
  end.

(** The assertions (the tree is empty on entry, [cleanup] is not null) are
    preconditions of the theorems below. *)
Definition restore_tree (ctx : avs_persistence_context_t)
    (tree : avs_rbtree) (element_size : Z)
    (handler : avs_persistence_handler_collection_element_t)
    (cleanup : option avs_persistence_cleanup_collection_element_t)
    : M (Z * avs_rbtree) :=
  let* (retval, count) := restore_u32 ctx 0 in
  let* (retval, tree) :=
    if retval =? 0
    then restore_tree_loop ctx element_size handler cleanup (Z.to_nat count) tree
    else ret (retval, tree) in
  if negb (retval =? 0)
  then let* tree := AVS_RBTREE_CLEAR (tree_cleanup cleanup) tree in
       ret (retval, tree)
  else ret (retval, tree).

(** [INIT_RESTORE_CONTEXT (Stream)], stored at address [this]. *)
Definition INIT_RESTORE_CONTEXT (this : loc) (Stream : stream_id)
    : avs_persistence_context_t :=
  Context this
          AVS_PERSISTENCE_RESTORE
          ptr_restore_u16
          ptr_restore_u32
          ptr_restore_u64
          ptr_restore_bool
          ptr_restore_bytes
          ptr_restore_float
          ptr_restore_double
          ptr_restore_sized_buffer
          ptr_restore_string
          ptr_restore_list
          ptr_restore_tree
          Stream.

(** *** IGNORE *)

Definition ignore_bool (ctx : avs_persistence_context_t) (out : Z)
    : M (Z * Z) :=
  let* (retval, _) := avs_stream_read_reliably (stream_of ctx) [0] 1 in
  ret (retval, out).

Definition PERSISTENCE_IGNORE_BYTES_BUFSIZE : Z := 512.

(** The loop [while (buffer_size > 0)] of [ignore_bytes]; [buf] is the
    scratch array. *)
Equations? ignore_bytes_loop (ctx : avs_persistence_context_t)
    (buffer_size : Z) (w : world) : Z * world
    by wf (Z.to_nat buffer_size) lt :=
  ignore_bytes_loop ctx buffer_size w with Z_lt_dec 0 buffer_size := {
    | right _ => (0, w)
    | left _ =>
        let buf := replicate (Z.to_nat PERSISTENCE_IGNORE_BYTES_BUFSIZE) 0 in
        match avs_stream_read_reliably (stream_of ctx) buf
                (if buffer_size <? PERSISTENCE_IGNORE_BYTES_BUFSIZE
                 then buffer_size else PERSISTENCE_IGNORE_BYTES_BUFSIZE) w with
        | (retval, _, w') =>
            if retval =? 0
            then ignore_bytes_loop ctx
                   (buffer_size -
                    (if buffer_size <? PERSISTENCE_IGNORE_BYTES_BUFSIZE
                     then buffer_size else PERSISTENCE_IGNORE_BYTES_BUFSIZE)) w'
            else (retval, w')
        end }.
Proof.
  unfold PERSISTENCE_IGNORE_BYTES_BUFSIZE.
  destruct (buffer_size <? 512); lia.
Qed.

Definition ignore_bytes (ctx : avs_persistence_context_t) (buffer : list Z)
    (buffer_size : Z) : M (Z * list Z) :=
  let* retval := ignore_bytes_loop ctx buffer_size in
  ret (retval, buffer).

Definition ignore_u16 (ctx : avs_persistence_context_t) (out : Z)
    : M (Z * Z) :=
  let* (retval, _) :=
    avs_stream_read_reliably (stream_of ctx) (replicate 2 0) 2 in
  ret (retval, out).

Definition ignore_u32 (ctx : avs_persistence_context_t) (out : Z)
    : M (Z * Z) :=
  let* (retval, _) :=
    avs_stream_read_reliably (stream_of ctx) (replicate 4 0) 4 in
  ret (retval, out).

Definition ignore_u64 (ctx : avs_persistence_context_t) (out : Z)
    : M (Z * Z) :=
  let* (retval, _) :=
    avs_stream_read_reliably (stream_of ctx) (replicate 8 0) 8 in
  ret (retval, out).

Definition ignore_float (ctx : avs_persistence_context_t) (out : Z)
    : M (Z * Z) :=
  let* (retval, _) :=
    avs_stream_read_reliably (stream_of ctx) (replicate 4 0) 4 in
  ret (retval, out).

Definition ignore_double (ctx : avs_persistence_context_t) (out : Z)
    : M (Z * Z) :=
  let* (retval, _) :=
    avs_stream_read_reliably (stream_of ctx) (replicate 8 0) 8 in
  ret (retval, out).

(** The loop [while (!retval && count--)] of [ignore_collection]. *)
Fixpoint ignore_collection_loop (ctx : avs_persistence_context_t)
    (handler : avs_persistence_handler_collection_element_t)
    (count : nat) (retval : Z) : M Z :=
  if retval =? 0
  then match count with
       | O => ret retval
       | S count =>
           let* retval := call_handler handler ctx None in
           ignore_collection_loop ctx handler count retval
       end
  else ret retval.

Definition ignore_collection (ctx : avs_persistence_context_t)
    (handler : avs_persistence_handler_collection_element_t) : M Z :=
  let* (retval, count) := restore_u32 ctx 0 in
  ignore_collection_loop ctx handler (Z.to_nat count) retval.

Definition ignore_sized_buffer (ctx : avs_persistence_context_t)
    (data : option loc) (size : Z) : M (Z * option loc * Z) :=
  let* (retval, size32) := restore_u32 ctx 0 in
  if retval =? 0
  then let* (retval, _) := ignore_bytes ctx [] size32 in
       ret (retval, data, size)
  else ret (retval, data, size).

(** [ignore_sized_buffer (ctx, NULL, NULL)]: there is nothing behind the two
    null pointers, so what the callee returns for them is dropped. *)
Definition ignore_string (ctx : avs_persistence_context_t)
    (string : option loc) : M (Z * option loc) :=
  let* (retval, _, _) := ignore_sized_buffer ctx None 0 in
  ret (retval, string).

Definition ignore_list (ctx : avs_persistence_context_t)
    (lst : list loc) (element_size : Z)
    (handler : avs_persistence_handler_collection_element_t)
    (cleanup : option avs_persistence_cleanup_collection_element_t)
    : M (Z * list loc) :=
  let* retval := ignore_collection ctx handler in
  ret (retval, lst).

Definition ignore_tree (ctx : avs_persistence_context_t)
    (tree : avs_rbtree) (element_size : Z)
    (handler : avs_persistence_handler_collection_element_t)
    (cleanup : option avs_persistence_cleanup_collection_element_t)
    : M (Z * avs_rbtree) :=
  let* retval := ignore_collection ctx handler in
  ret (retval, tree).

(** [INIT_IGNORE_CONTEXT (Stream)], stored at address [this]; its direction
    field is [AVS_PERSISTENCE_RESTORE], as in the source. *)
Definition INIT_IGNORE_CONTEXT (this : loc) (Stream : stream_id)
    : avs_persistence_context_t :=
  Context this
          AVS_PERSISTENCE_RESTORE
          ptr_ignore_u16
          ptr_ignore_u32
          ptr_ignore_u64
          ptr_ignore_bool
          ptr_ignore_bytes
          ptr_ignore_float
          ptr_ignore_double
          ptr_ignore_sized_buffer
          ptr_ignore_string
          ptr_ignore_list
          ptr_ignore_tree
          Stream.

(** *** Context life cycle *)

Definition avs_persistence_store_context_new (stream : option stream_id)
    : M (option avs_persistence_context_t) :=
  match stream with
  | None => ret None
  | Some s =>
      let* ctx := malloc sizeof_context in
      match ctx with
      | Some this => ret (Some (INIT_STORE_CONTEXT this s))
      | None => ret None
      end
  end.

Definition avs_persistence_restore_context_new (stream : option stream_id)
    : M (option avs_persistence_context_t) :=
  match stream with
  | None => ret None
  | Some s =>
      let* ctx := malloc sizeof_context in
      match ctx with
      | Some this => ret (Some (INIT_RESTORE_CONTEXT this s))
      | None => ret None
      end
  end.

Definition avs_persistence_ignore_context_new (stream : option stream_id)
    : M (option avs_persistence_context_t) :=
  match stream with
  | None => ret None
  | Some s =>
      let* ctx := malloc sizeof_context in
      match ctx with
      | Some this => ret (Some (INIT_IGNORE_CONTEXT this s))
      | None => ret None
      end
  end.

Definition avs_persistence_context_delete
    (ctx : option avs_persistence_context_t) : M unit :=
  free (ctx_addr <$> ctx).

Definition avs_persistence_direction (ctx : option avs_persistence_context_t)
    : avs_persistence_direction_t :=
  match ctx with
  | None => AVS_PERSISTENCE_UNKNOWN
  | Some c => direction c
  end.

(** *** Calls through the operation table *)

Definition call_u16 (f : persistence_handler_u16_t) :=
  match f with
  | ptr_persist_u16 => persist_u16
  | ptr_restore_u16 => restore_u16
  | ptr_ignore_u16 => ignore_u16
  end.

Definition call_u32 (f : persistence_handler_u32_t) :=
  match f with
  | ptr_persist_u32 => persist_u32
  | ptr_restore_u32 => restore_u32
  | ptr_ignore_u32 => ignore_u32
  end.

Definition call_u64 (f : persistence_handler_u64_t) :=
  match f with
  | ptr_persist_u64 => persist_u64
  | ptr_restore_u64 => restore_u64
  | ptr_ignore_u64 => ignore_u64
  end.

Definition call_bool (f : persistence_handler_bool_t) :=
  match f with
  | ptr_persist_bool => persist_bool
  | ptr_restore_bool => restore_bool
  | ptr_ignore_bool => ignore_bool
  end.

Definition call_bytes (f : persistence_handler_bytes_t) :=
  match f with
  | ptr_persist_bytes => persist_bytes
  | ptr_restore_bytes => restore_bytes
  | ptr_ignore_bytes => ignore_bytes
  end.

Definition call_float (f : persistence_handler_float_t) :=
  match f with
  | ptr_persist_float => persist_float
  | ptr_restore_float => restore_float
  | ptr_ignore_float => ignore_float
  end.

Definition call_double (f : persistence_handler_double_t) :=
  match f with
  | ptr_persist_double => persist_double
  | ptr_restore_double => restore_double
  | ptr_ignore_double => ignore_double
  end.

Definition call_sized_buffer (f : persistence_handler_sized_buffer_t) :=
  match f with
  | ptr_persist_sized_buffer => persist_sized_buffer
  | ptr_restore_sized_buffer => restore_sized_buffer
  | ptr_ignore_sized_buffer => ignore_sized_buffer
  end.

Definition call_string (f : persistence_handler_string_t) :=
  match f with
  | ptr_persist_string => persist_string
  | ptr_restore_string => restore_string
  | ptr_ignore_string => ignore_string
  end.

Definition call_list (f : persistence_handler_list_t) :=
  match f with
  | ptr_persist_list => persist_list
  | ptr_restore_list => restore_list
  | ptr_ignore_list => ignore_list
  end.

Definition call_tree (f : persistence_handler_tree_t) :=
  match f with
  | ptr_persist_tree => persist_tree
  | ptr_restore_tree => restore_tree
  | ptr_ignore_tree => ignore_tree
  end.

(** *** The typed operations *)

Definition avs_persistence_u8 (ctx : option avs_persistence_context_t)
    (value : Z) : M (Z * Z) :=
  match ctx with
  | None => ret (-1, value)
  | Some c =>
      let* (retval, buffer) := call_bytes (handle_bytes c) c [value] 1 in
      ret (retval, hd value buffer)
  end.

Definition avs_persistence_u16 (ctx : option avs_persistence_context_t)
    (value : Z) : M (Z * Z) :=
  match ctx with
  | None => ret (-1, value)
  | Some c => call_u16 (handle_u16 c) c value
  end.

Definition avs_persistence_u32 (ctx : option avs_persistence_context_t)
    (value : Z) : M (Z * Z) :=
  match ctx with
  | None => ret (-1, value)
  | Some c => call_u32 (handle_u32 c) c value
  end.

Definition avs_persistence_u64 (ctx : option avs_persistence_context_t)
    (value : Z) : M (Z * Z) :=
  match ctx with
  | None => ret (-1, value)
  | Some c => call_u64 (handle_u64 c) c value
  end.

(** The signed operations pass the same object through a pointer to the
    unsigned type of its width: [value] is reinterpreted on the way in and on
    the way out. *)
Definition avs_persistence_i8 (ctx : option avs_persistence_context_t)
    (value : Z) : M (Z * Z) :=
  match ctx with
  | None => ret (-1, value)
  | Some c =>
      let* (retval, buffer) :=
        call_bytes (handle_bytes c) c [cast_unsigned 8 value] 1 in
      ret (retval, to_signed 8 (hd (cast_unsigned 8 value) buffer))
  end.

Definition avs_persistence_i16 (ctx : option avs_persistence_context_t)
    (value : Z) : M (Z * Z) :=
  let* (retval, u) := avs_persistence_u16 ctx (cast_unsigned 16 value) in
  ret (retval, to_signed 16 u).

Definition avs_persistence_i32 (ctx : option avs_persistence_context_t)
    (value : Z) : M (Z * Z) :=
  let* (retval, u) := avs_persistence_u32 ctx (cast_unsigned 32 value) in
  ret (retval, to_signed 32 u).

Definition avs_persistence_i64 (ctx : option avs_persistence_context_t)
    (value : Z) : M (Z * Z) :=
  let* (retval, u) := avs_persistence_u64 ctx (cast_unsigned 64 value) in
  ret (retval, to_signed 64 u).

Definition avs_persistence_bool (ctx : option avs_persistence_context_t)
    (value : Z) : M (Z * Z) :=
  match ctx with
  | None => ret (-1, value)
  | Some c => call_bool (handle_bool c) c value
  end.

Definition avs_persistence_bytes (ctx : option avs_persistence_context_t)
    (buffer : list Z) (buffer_size : Z) : M (Z * list Z) :=
  match ctx with
  | None => ret (-1, buffer)
  | Some c => call_bytes (handle_bytes c) c buffer buffer_size
  end.

Definition avs_persistence_float (ctx : option avs_persistence_context_t)
    (value : Z) : M (Z * Z) :=
  match ctx with
  | None => ret (-1, value)
  | Some c => call_float (handle_float c) c value
  end.

Definition avs_persistence_double (ctx : option avs_persistence_context_t)
    (value : Z) : M (Z * Z) :=
  match ctx with
  | None => ret (-1, value)
  | Some c => call_double (handle_double c) c value
  end.

Definition avs_persistence_sized_buffer
    (ctx : option avs_persistence_context_t) (data : option loc) (size : Z)
    : M (Z * option loc * Z) :=
  match ctx with
  | None => ret (-1, data, size)
  | Some c => call_sized_buffer (handle_sized_buffer c) c data size
  end.

Definition avs_persistence_string (ctx : option avs_persistence_context_t)
    (string : option loc) : M (Z * option loc) :=
  match ctx with
  | None => ret (-1, string)
  | Some c => call_string (handle_string c) c string
  end.

Definition avs_persistence_list (ctx : option avs_persistence_context_t)
    (lst : list loc) (element_size : Z)
    (handler : avs_persistence_handler_collection_element_t)
    (cleanup : option avs_persistence_cleanup_collection_element_t)
    : M (Z * list loc) :=
  match ctx with
  | None => ret (-1, lst)
  | Some c => call_list (handle_list c) c lst element_size handler cleanup
  end.

Definition avs_persistence_tree (ctx : option avs_persistence_context_t)
    (tree : avs_rbtree) (element_size : Z)
    (handler : avs_persistence_handler_collection_element_t)
    (cleanup : option avs_persistence_cleanup_collection_element_t)
    : M (Z * avs_rbtree) :=
  match ctx with
  | None => ret (-1, tree)
  | Some c => call_tree (handle_tree c) c tree element_size handler cleanup
  end.

End Engine.

Arguments world : clear implicits.
Arguments World {U} _ _ _ _ _.

(** * Vocabulary of the statements *)

(** The scalar types of the typed operations. *)
Inductive scalar_type :=
| T_u8 | T_u16 | T_u32 | T_u64
| T_i8 | T_i16 | T_i32 | T_i64
| T_bool | T_float | T_double.

(** Declared width, in bytes. *)
Definition scalar_width (ty : scalar_type) : nat :=
  match ty with
  | T_u8 | T_i8 | T_bool => 1
  | T_u16 | T_i16 => 2
  | T_u32 | T_i32 | T_float => 4
  | T_u64 | T_i64 | T_double => 8
  end%nat.

(** The types held in two's complement. *)
Definition scalar_signed (ty : scalar_type) : bool :=
  match ty with
  | T_i8 | T_i16 | T_i32 | T_i64 => true
  | _ => false
  end.

(** The values of a scalar type: two's-complement range for the signed
    types, unsigned range (object bytes, bit patterns) for the others. *)
Definition scalar_value (ty : scalar_type) (v : Z) : Prop :=
  let bits := 8 * Z.of_nat (scalar_width ty) in
  if scalar_signed ty then - 2 ^ (bits - 1) <= v < 2 ^ (bits - 1)
  else 0 <= v < 2 ^ bits.

(** The typed operation of a scalar type. *)
Definition avs_persistence_scalar (host : byte_order) {U : Type}
    (ty : scalar_type) (ctx : option avs_persistence_context_t) (value : Z)
    : M (U := U) (Z * Z) :=
  match ty with
  | T_u8 => avs_persistence_u8 ctx value
  | T_u16 => avs_persistence_u16 host ctx value
  | T_u32 => avs_persistence_u32 host ctx value
  | T_u64 => avs_persistence_u64 host ctx value
  | T_i8 => avs_persistence_i8 ctx value
  | T_i16 => avs_persistence_i16 host ctx value
  | T_i32 => avs_persistence_i32 host ctx value
  | T_i64 => avs_persistence_i64 host ctx value
  | T_bool => avs_persistence_bool ctx value
  | T_float => avs_persistence_float host ctx value
  | T_double => avs_persistence_double host ctx value
  end.

(** ** Concrete worlds for the examples *)

Module Example.

(** One stream, handle 0, holding [bytes], with room for 64 more bytes; an
    empty heap with 4096 bytes to hand out; no user state. *)
Definition world_with (bytes : list Z) : world unit :=
  World {[ 0%nat := Stream bytes 64 ]} ∅ 4096 tt [].

(** A store, a restore and an ignore context bound to stream 0. *)
Definition store_ctx : avs_persistence_context_t :=
  INIT_STORE_CONTEXT 100%nat 0%nat.
Definition restore_ctx : avs_persistence_context_t :=
  INIT_RESTORE_CONTEXT 101%nat 0%nat.
Definition ignore_ctx : avs_persistence_context_t :=
  INIT_IGNORE_CONTEXT 102%nat 0%nat.

(** A world whose heap holds a 4 GiB buffer at address 5. *)
Definition world_4GiB : world unit :=
  World {[ 0%nat := Stream [] 64 ]}
        {[ 5%nat := replicate (Z.to_nat 4294967296) 0 ]} 4096 tt [].

(** The same world with an allocator that has [heap_bytes] bytes left. *)
Definition world_with_heap (bytes : list Z) (heap_bytes : Z) : world unit :=
  World {[ 0%nat := Stream bytes 64 ]} ∅ heap_bytes tt [].

(** A world whose heap holds two one-byte elements, 0x11 at address 0 and
    0xEE at address 1, and whose stream is empty. *)
Definition world_two_elements : world unit :=
  World {[ 0%nat := Stream [] 64 ]}
        {[ 0%nat := [0x11]; 1%nat := [0xEE] ]} 4096 tt [].

(** An element handler for restore and ignore mode: the element is one byte,
    read from the stream of the context; the byte 0xFF is not a valid
    element, and neither is the end of the stream. *)
Definition read_byte
    : avs_persistence_handler_collection_element_t (U := unit) :=
  fun ctx element env =>
    match env.1 !! stream_of ctx with
    | Some (Stream (b :: rest) rm) =>
        let env' := (<[stream_of ctx := Stream rest rm]> env.1, env.2) in
        if b =? 255 then (-1, element, env')
        else (0, (fun _ => [b]) <$> element, env')
    | _ => (-1, element, env)
    end.

(** An element handler for store mode: it writes the byte of the element,
    then a second field that cannot be written when the byte is 0xEE. *)
Definition write_byte
    : avs_persistence_handler_collection_element_t (U := unit) :=
  fun ctx element env =>
    match env.1 !! stream_of ctx, element with
    | Some (Stream bytes rm), Some (b :: _) =>
        let env' := (<[stream_of ctx := Stream (bytes ++ [b]) (rm - 1)]> env.1,
                     env.2) in
        if b =? 238 then (-1, element, env') else (0, element, env')
    | _, _ => (-1, element, env)
    end.

(** A comparator for one-byte elements: the key is the byte. *)
Definition byte_cmp (a b : list Z) : Z := hd 0 a - hd 0 b.

(** A cleanup callback that owns nothing. *)
Definition no_cleanup : avs_persistence_cleanup_collection_element_t (U := unit) :=
  fun _ u => u.

End Example.

(** ** Running an element handler in a row *)

Section HandlerRuns.

Context {U : Type}.

(** What the element handler does when it is called [count] times in a row
    in restore mode, each time on a fresh zeroed element of [element_size]
    bytes, up to its first failure: the last status, the bytes of the
    elements it was given (the last one being the element it failed on, if it
    failed) and the streams and user state it leaves. *)
Fixpoint handler_run
    (handler : avs_persistence_handler_collection_element_t (U := U))
    (ctx : avs_persistence_context_t) (element_size : Z) (count : nat)
    (env : gmap stream_id stream * U)
    : Z * list (list Z) * (gmap stream_id stream * U) :=
  match count with
  | O => (0, [], env)
  | S count =>
      let zero := replicate (Z.to_nat element_size) 0 in
      let '(retval, bytes, env1) := handler ctx (Some zero) env in
      let element :=
        match bytes with
        | Some b => resize (Z.to_nat element_size) 0 b
        | None => zero
        end in
      if retval =? 0
      then let '(retval, elements, env2) :=
             handler_run handler ctx element_size count env1 in
           (retval, element :: elements, env2)
      else (retval, [element], env1)
  end.

(** Two of the elements have equal keys under the comparator of the tree. *)
Definition has_duplicate_key (cmp : list Z -> list Z -> Z)
    (elements : list (list Z)) : Prop :=
  exists (i j : nat) (a b : list Z),
    (i < j)%nat /\ elements !! i = Some a /\ elements !! j = Some b
    /\ cmp b a = 0.

(** A handler that behaves in ignore mode, on a null element, as it does in
    restore mode on an element: same status, same effect on the streams and
    on the user state. *)
Definition skips_like_restore
    (handler : avs_persistence_handler_collection_element_t (U := U))
    (ignore_ctx restore_ctx : avs_persistence_context_t)
    : Prop :=
  forall element env,
    (handler ignore_ctx None env).1.1 = (handler restore_ctx (Some element) env).1.1
    /\ (handler ignore_ctx None env).2 = (handler restore_ctx (Some element) env).2.

(** No element has the key of an element of [seen] or of an earlier
    element. *)
Fixpoint distinct_keys (cmp : list Z -> list Z -> Z)
    (seen elements : list (list Z)) : Prop :=
  match elements with
  | [] => True
  | e :: rest =>
      Forall (fun x => cmp e x <> 0) seen /\ distinct_keys cmp (e :: seen) rest
  end.

End HandlerRuns.

(** ** Element handlers that encode and decode *)

Section Codecs.

Context {U : Type}.

(** In store mode the handler writes an element of [element_size] bytes as
    [enc element]: given an element of that size and a stream with room for
    its encoding, it appends the encoding to the stream of the context and
    succeeds, leaving the element and the user state as they are. *)
Definition stores_as
    (handler : avs_persistence_handler_collection_element_t (U := U))
    (ctx : avs_persistence_context_t) (element_size : Z)
    (enc : list Z -> list Z) : Prop :=
  forall element ss u st,
    length element = Z.to_nat element_size ->
    ss !! stream_of ctx = Some st ->
    Z.of_nat (length (enc element)) <= room st ->
    handler ctx (Some element) (ss, u) =
      (0, Some element,
       (<[stream_of ctx := Stream (pending st ++ enc element)
                                  (room st - Z.of_nat (length (enc element)))]> ss,
        u)).

(** In restore mode the handler reads back what [enc] wrote: given a fresh
    zeroed element and a stream that starts with the encoding of an element
    of [element_size] bytes, it consumes that encoding, fills the element in
    and succeeds, leaving the user state as it is. *)
Definition restores_as
    (handler : avs_persistence_handler_collection_element_t (U := U))
    (ctx : avs_persistence_context_t) (element_size : Z)
    (enc : list Z -> list Z) : Prop :=
  forall element ss u st rest,
    length element = Z.to_nat element_size ->
    ss !! stream_of ctx = Some st ->
    pending st = enc element ++ rest ->
    handler ctx (Some (replicate (Z.to_nat element_size) 0)) (ss, u) =
      (0, Some element, (<[stream_of ctx := Stream rest (room st)]> ss, u)).

End Codecs.

(** ** More concrete worlds and handlers for the examples *)

Module Sample.

(** An element handler for a one-byte element, written as handlers are: it
    passes the byte of the element to the byte operation of the context it is
    given, so it writes the byte in store mode, reads it in restore mode and
    skips it in ignore mode. *)
Definition byte_field
    : avs_persistence_handler_collection_element_t (U := unit) :=
  fun ctx element env =>
    match env.1 !! stream_of ctx with
    | None => (-1, element, env)
    | Some (Stream bytes rm) =>
        match handle_bytes ctx, element, bytes with
        | ptr_persist_bytes, Some (b :: _), _ =>
            if decide (1 <= rm)
            then (0, element,
                  (<[stream_of ctx := Stream (bytes ++ [b]) (rm - 1)]> env.1,
                   env.2))
            else (-1, element, env)
        | ptr_restore_bytes, Some _, b :: rest =>
            (0, Some [b], (<[stream_of ctx := Stream rest rm]> env.1, env.2))
        | ptr_ignore_bytes, _, b :: rest =>
            (0, element, (<[stream_of ctx := Stream rest rm]> env.1, env.2))
        | _, _, _ => (-1, element, env)
        end
    end.

(** A world whose heap holds, at address 7, the block "Hi", a NUL and two
    more bytes, and whose stream is empty with room for 64 bytes. *)
Definition world_with_block : world unit :=
  World {[ 0%nat := Stream [] 64 ]}
        {[ 7%nat := [0x48; 0x69; 0; 0x21; 0x21] ]} 4096 tt [].

(** The same world with a stream that has room for [rm] bytes only. *)
Definition world_with_room (rm : Z) : world unit :=
  World {[ 0%nat := Stream [] rm ]}
        {[ 7%nat := [0x48; 0x69; 0; 0x21; 0x21] ]} 4096 tt [].

(** A world whose heap holds three one-byte elements, 0x30 at address 0, 0x10
    at address 1 and 0x20 at address 2, and whose stream is empty. *)
Definition world_three_elements : world unit :=
  World {[ 0%nat := Stream [] 64 ]}
        {[ 0%nat := [0x30]; 1%nat := [0x10]; 2%nat := [0x20] ]} 4096 tt [].

End Sample.

(** * Facts *)

(** Widths of the scalar types, as literals. *)
Ltac norm_width :=
  change (Z.of_nat 1) with 1 in *; change (Z.of_nat 2) with 2 in *;
  change (Z.of_nat 4) with 4 in *; change (Z.of_nat 8) with 8 in *;
  change (8 * 1) with 8 in *; change (8 * 2) with 16 in *;
  change (8 * 4) with 32 in *; change (8 * 8) with 64 in *.

(** ** Bytes of fixed-width integers *)

Section BytesFacts.

Lemma testbit_255 (i : Z) : 0 <= i -> Z.testbit 255 i = (i <? 8).
Proof.
  intros Hi. change 255 with (Z.ones 8).
  destruct (Z.ltb_spec i 8).
  - apply Z.ones_spec_low; lia.
  - apply Z.ones_spec_high; lia.
Qed.

Lemma land_255_mod (v : Z) : Z.land v 255 = v mod 256.
Proof. change 255 with (Z.ones 8). rewrite Z.land_ones by lia. reflexivity. Qed.

Lemma land_255_is_byte (v : Z) : is_byte (Z.land v 255).
Proof. rewrite land_255_mod. unfold is_byte. apply Z.mod_pos_bound. lia. Qed.

Lemma byte_cons_low (b x : Z) :
  is_byte b -> Z.land (Z.lor b (Z.shiftl x 8)) 255 = b.
Proof.
  intros Hb. rewrite land_255_mod.
  rewrite <- (Z.mod_small b 256) at 2 by exact Hb.
  rewrite <- !land_255_mod.
  apply Z.bits_inj'. intros i Hi.
  rewrite !Z.land_spec, Z.lor_spec, testbit_255 by lia.
  destruct (Z.ltb_spec i 8).
  - rewrite Z.shiftl_spec_low by lia. rewrite orb_false_r. reflexivity.
  - rewrite !andb_false_r. reflexivity.
Qed.

Lemma byte_cons_high (b x : Z) :
  is_byte b -> Z.shiftr (Z.lor b (Z.shiftl x 8)) 8 = x.
Proof.
  intros Hb. rewrite Z.shiftr_lor, Z.shiftr_shiftl_l by lia.
  rewrite Z.shiftr_div_pow2 by lia. change (2 ^ 8) with 256.
  rewrite Z.div_small by exact Hb. simpl. apply Z.shiftl_0_r.
Qed.

Lemma le_bytes_length (n : nat) (v : Z) : length (le_bytes n v) = n.
Proof. revert v. induction n as [|n IH]; intros v; simpl; [|rewrite IH]; reflexivity. Qed.

Lemma le_bytes_is_byte (n : nat) (v : Z) : Forall is_byte (le_bytes n v).
Proof.
  revert v. induction n as [|n IH]; intros v; simpl; constructor.
  - apply land_255_is_byte.
  - apply IH.
Qed.

Lemma le_bytes_of_le_bytes (bs : list Z) :
  Forall is_byte bs -> le_bytes (length bs) (of_le_bytes bs) = bs.
Proof.
  induction 1 as [|b bs Hb _ IH]; simpl; [reflexivity|].
  rewrite byte_cons_low, byte_cons_high, IH by exact Hb. reflexivity.
Qed.

Lemma of_le_bytes_le_bytes (n : nat) (v : Z) :
  of_le_bytes (le_bytes n v) = v mod 2 ^ (8 * Z.of_nat n).
Proof.
  revert v. induction n as [|n IH]; intros v; simpl le_bytes; simpl of_le_bytes.
  - simpl. rewrite Z.mod_1_r. reflexivity.
  - rewrite IH. apply Z.bits_inj'. intros i Hi.
    rewrite Z.lor_spec, Z.land_spec, testbit_255 by lia.
    destruct (Z.ltb_spec i 8).
    + rewrite Z.shiftl_spec_low by lia.
      rewrite Z.mod_pow2_bits_low by lia.
      rewrite andb_true_r, orb_false_r. reflexivity.
    + rewrite Z.shiftl_spec by lia. rewrite andb_false_r. simpl.
      destruct (Z.ltb_spec i (8 * Z.of_nat (S n))).
      * rewrite !Z.mod_pow2_bits_low by lia.
        rewrite Z.shiftr_spec by lia. f_equal. lia.
      * rewrite !Z.mod_pow2_bits_high by lia. reflexivity.
Qed.

Lemma of_le_bytes_range (n : nat) (v : Z) :
  0 <= v < 2 ^ (8 * Z.of_nat n) -> of_le_bytes (le_bytes n v) = v.
Proof. intros Hv. rewrite of_le_bytes_le_bytes. apply Z.mod_small. exact Hv. Qed.

(** What the store side puts on the wire for an n-byte integer. *)
Lemma object_bytes_convert_be (host : byte_order) (n : nat) (v : Z) :
  object_bytes host n (avs_convert_be host n v) = be_bytes n v.
Proof.
  destruct host; simpl; [|reflexivity].
  unfold be_bytes.
  rewrite <- (le_bytes_length n v) at 1. rewrite <- length_rev.
  apply le_bytes_of_le_bytes. apply Forall_rev, le_bytes_is_byte.
Qed.

(** What the restore side makes of n wire bytes. *)
Lemma convert_be_object_value (host : byte_order) (bs : list Z) :
  Forall is_byte bs ->
  avs_convert_be host (length bs) (object_value host bs) = of_be_bytes bs.
Proof.
  intros Hbs. destruct host; simpl; [|reflexivity].
  rewrite le_bytes_of_le_bytes by exact Hbs. reflexivity.
Qed.

Lemma be_bytes_length (n : nat) (v : Z) : length (be_bytes n v) = n.
Proof. unfold be_bytes. rewrite length_rev. apply le_bytes_length. Qed.

Lemma be_bytes_is_byte (n : nat) (v : Z) : Forall is_byte (be_bytes n v).
Proof. apply Forall_rev, le_bytes_is_byte. Qed.

Lemma of_be_bytes_be_bytes (n : nat) (v : Z) :
  of_be_bytes (be_bytes n v) = v mod 2 ^ (8 * Z.of_nat n).
Proof.
  unfold of_be_bytes, be_bytes. rewrite rev_involutive.
  apply of_le_bytes_le_bytes.
Qed.

Lemma le_bytes_nth (n : nat) (v : Z) (i : nat) :
  (i < n)%nat ->
  nth i (le_bytes n v) 0 = (v / 2 ^ (8 * Z.of_nat i)) mod 256.
Proof.
  revert v i. induction n as [|n IH]; intros v i Hi; [lia|].
  destruct i as [|i]; simpl le_bytes; cbn [nth].
  - rewrite land_255_mod. change (2 ^ (8 * Z.of_nat 0)) with 1.
    rewrite Z.div_1_r. reflexivity.
  - rewrite IH by lia. rewrite Z.shiftr_div_pow2 by lia.
    rewrite Z.div_div by lia. rewrite <- Z.pow_add_r by lia.
    do 3 f_equal. lia.
Qed.

(** Byte [i] of the big-endian layout is the [i]-th most significant byte. *)
Lemma be_bytes_nth (n : nat) (v : Z) (i : nat) :
  (i < n)%nat ->
  nth i (be_bytes n v) 0 = (v / 2 ^ (8 * Z.of_nat (n - 1 - i))) mod 256.
Proof.
  intros Hi. unfold be_bytes.
  rewrite rev_nth by (rewrite le_bytes_length; exact Hi).
  rewrite le_bytes_length, le_bytes_nth by lia.
  do 4 f_equal. lia.
Qed.

End BytesFacts.

(** ** Streams *)

Section StreamFacts.

Context {U : Type}.
Implicit Types (w : world U) (s : stream_id) (st : stream).

Lemma write_success s buffer n w st :
  streams w !! s = Some st -> n <= room st ->
  avs_stream_write s buffer n w =
    (0, set_streams <[s := Stream (pending st ++ take (Z.to_nat n) buffer)
                                  (room st - n)]> w).
Proof.
  intros Hs Hn. unfold avs_stream_write. rewrite Hs.
  destruct (decide (n <= room st)); [reflexivity | contradiction].
Qed.

Lemma write_full s buffer n w st :
  streams w !! s = Some st -> room st < n ->
  avs_stream_write s buffer n w = (-1, w).
Proof.
  intros Hs Hn. unfold avs_stream_write. rewrite Hs.
  destruct (decide (n <= room st)); [lia | reflexivity].
Qed.

Lemma read_success s buffer n w st bs rest :
  streams w !! s = Some st -> pending st = bs ++ rest ->
  Z.of_nat (length bs) = n ->
  avs_stream_read_reliably s buffer n w =
    ((0, bs ++ drop (length bs) buffer),
     set_streams <[s := Stream rest (room st)]> w).
Proof.
  intros Hs Hp Hn. unfold avs_stream_read_reliably. rewrite Hs, Hp.
  assert (Hlen : Z.to_nat n = length bs) by lia.
  rewrite Hlen, take_app_length, drop_app_length.
  destruct (decide _) as [_|Hno]; [reflexivity|].
  exfalso. apply Hno. rewrite length_app. lia.
Qed.

Lemma streams_set_streams f w : streams (set_streams f w) = f (streams w).
Proof. reflexivity. Qed.

Lemma set_streams_set_streams f g w :
  set_streams f (set_streams g w) = set_streams (fun m => f (g m)) w.
Proof. reflexivity. Qed.

End StreamFacts.

(** ** Scalars on the wire *)

Section ScalarFacts.

Context {U : Type}.
Variable host : byte_order.
Implicit Types (w : world U) (c : avs_persistence_context_t) (st : stream).

Lemma take_be_bytes (n : nat) (v : Z) : take n (be_bytes n v) = be_bytes n v.
Proof. apply take_ge. rewrite be_bytes_length. lia. Qed.

Lemma le_bytes_mod (n : nat) (v : Z) :
  le_bytes n (v mod 2 ^ (8 * Z.of_nat n)) = le_bytes n v.
Proof.
  rewrite <- of_le_bytes_le_bytes.
  rewrite <- (le_bytes_length n v) at 1.
  apply le_bytes_of_le_bytes, le_bytes_is_byte.
Qed.

Lemma be_bytes_mod (n : nat) (v : Z) :
  be_bytes n (v mod 2 ^ (8 * Z.of_nat n)) = be_bytes n v.
Proof. unfold be_bytes. rewrite le_bytes_mod. reflexivity. Qed.

Lemma to_signed_cast (bits v : Z) :
  0 < bits -> - 2 ^ (bits - 1) <= v < 2 ^ (bits - 1) ->
  to_signed bits (cast_unsigned bits v) = v.
Proof.
  intros Hb Hv. unfold to_signed, cast_unsigned.
  assert (H2 : 2 ^ bits = 2 * 2 ^ (bits - 1)).
  { rewrite <- Z.pow_succ_r by lia. f_equal. lia. }
  destruct (Z_lt_dec v 0) as [Hneg|Hpos].
  - assert (Hm : v mod 2 ^ bits = v + 2 ^ bits).
    { symmetry. apply (Z.mod_unique _ _ (-1)); lia. }
    rewrite Hm. destruct (Z.ltb_spec (v + 2 ^ bits) (2 ^ (bits - 1))); lia.
  - rewrite Z.mod_small by lia.
    destruct (Z.ltb_spec v (2 ^ (bits - 1))); lia.
Qed.

(** Store side: an n-byte integer goes out as its big-endian bytes. *)
Lemma write_be s (n : nat) v w st :
  streams w !! s = Some st -> Z.of_nat n <= room st ->
  avs_stream_write s (object_bytes host n (avs_convert_be host n v))
                   (Z.of_nat n) w =
    (0, set_streams <[s := Stream (pending st ++ be_bytes n v)
                                  (room st - Z.of_nat n)]> w).
Proof.
  intros Hs Hn. rewrite (write_success _ _ _ _ st Hs Hn).
  rewrite object_bytes_convert_be, Nat2Z.id, take_be_bytes. reflexivity.
Qed.

Lemma persist_u16_ok c v w st :
  streams w !! stream_of c = Some st -> 2 <= room st ->
  persist_u16 host c v w =
    ((0, v), set_streams <[stream_of c := Stream (pending st ++ be_bytes 2 v)
                                                 (room st - 2)]> w).
Proof.
  intros Hs Hn. unfold persist_u16, bind, ret, avs_convert_be16.
  rewrite (write_be _ 2 _ _ st Hs Hn). reflexivity.
Qed.

Lemma persist_u32_ok c v w st :
  streams w !! stream_of c = Some st -> 4 <= room st ->
  persist_u32 host c v w =
    ((0, v), set_streams <[stream_of c := Stream (pending st ++ be_bytes 4 v)
                                                 (room st - 4)]> w).
Proof.
  intros Hs Hn. unfold persist_u32, bind, ret, avs_convert_be32.
  rewrite (write_be _ 4 _ _ st Hs Hn). reflexivity.
Qed.

Lemma persist_u64_ok c v w st :
  streams w !! stream_of c = Some st -> 8 <= room st ->
  persist_u64 host c v w =
    ((0, v), set_streams <[stream_of c := Stream (pending st ++ be_bytes 8 v)
                                                 (room st - 8)]> w).
Proof.
  intros Hs Hn. unfold persist_u64, bind, ret, avs_convert_be64.
  rewrite (write_be _ 8 _ _ st Hs Hn). reflexivity.
Qed.

Lemma persist_float_ok c v w st :
  streams w !! stream_of c = Some st -> 4 <= room st ->
  persist_float host c v w =
    ((0, v), set_streams <[stream_of c := Stream (pending st ++ be_bytes 4 v)
                                                 (room st - 4)]> w).
Proof.
  intros Hs Hn. unfold persist_float, bind, ret, avs_htonf, avs_convert_be32.
  rewrite (write_be _ 4 _ _ st Hs Hn). reflexivity.
Qed.

Lemma persist_double_ok c v w st :
  streams w !! stream_of c = Some st -> 8 <= room st ->
  persist_double host c v w =
    ((0, v), set_streams <[stream_of c := Stream (pending st ++ be_bytes 8 v)
                                                 (room st - 8)]> w).
Proof.
  intros Hs Hn. unfold persist_double, bind, ret, avs_htond, avs_convert_be64.
  rewrite (write_be _ 8 _ _ st Hs Hn). reflexivity.
Qed.

Lemma persist_byte_ok c b w st :
  streams w !! stream_of c = Some st -> 1 <= room st ->
  persist_bytes c [b] 1 w =
    ((0, [b]), set_streams <[stream_of c := Stream (pending st ++ [b])
                                                   (room st - 1)]> w).
Proof.
  intros Hs Hn. unfold persist_bytes, bind, ret.
  rewrite (write_success _ _ _ _ st Hs Hn). reflexivity.
Qed.

Lemma persist_bool_ok c b w st :
  streams w !! stream_of c = Some st -> 1 <= room st ->
  persist_bool c b w =
    ((0, b), set_streams <[stream_of c := Stream (pending st ++ [b])
                                                 (room st - 1)]> w).
Proof.
  intros Hs Hn. unfold persist_bool, bind, ret.
  rewrite (write_success _ _ _ _ st Hs Hn). reflexivity.
Qed.

(** Restore side: n wire bytes come back as the integer they spell. *)
Lemma read_be s (n : nat) w st bs rest :
  streams w !! s = Some st -> pending st = bs ++ rest -> length bs = n ->
  avs_stream_read_reliably s (replicate n 0) (Z.of_nat n) w =
    ((0, bs), set_streams <[s := Stream rest (room st)]> w).
Proof.
  intros Hs Hp Hn.
  rewrite (read_success _ _ _ _ st bs rest Hs Hp) by lia.
  rewrite drop_ge, app_nil_r by (rewrite length_replicate; lia).
  reflexivity.
Qed.

Lemma restore_u16_ok c out w st bs rest :
  streams w !! stream_of c = Some st -> pending st = bs ++ rest ->
  length bs = 2%nat -> Forall is_byte bs ->
  restore_u16 host c out w =
    ((0, of_be_bytes bs), set_streams <[stream_of c := Stream rest (room st)]> w).
Proof.
  intros Hs Hp Hn Hb. unfold restore_u16, bind, ret.
  pose proof (read_be _ 2 _ st bs rest Hs Hp Hn) as Hr.
  change (Z.of_nat 2) with 2 in Hr.
  rewrite Hr. simpl.
  unfold avs_convert_be16. rewrite <- Hn, convert_be_object_value by exact Hb.
  reflexivity.
Qed.

Lemma restore_u32_ok c out w st bs rest :
  streams w !! stream_of c = Some st -> pending st = bs ++ rest ->
  length bs = 4%nat -> Forall is_byte bs ->
  restore_u32 host c out w =
    ((0, of_be_bytes bs), set_streams <[stream_of c := Stream rest (room st)]> w).
Proof.
  intros Hs Hp Hn Hb. unfold restore_u32, bind, ret.
  pose proof (read_be _ 4 _ st bs rest Hs Hp Hn) as Hr.
  change (Z.of_nat 4) with 4 in Hr.
  rewrite Hr. simpl.
  unfold avs_convert_be32. rewrite <- Hn, convert_be_object_value by exact Hb.
  reflexivity.
Qed.

Lemma restore_u64_ok c out w st bs rest :
  streams w !! stream_of c = Some st -> pending st = bs ++ rest ->
  length bs = 8%nat -> Forall is_byte bs ->
  restore_u64 host c out w =
    ((0, of_be_bytes bs), set_streams <[stream_of c := Stream rest (room st)]> w).
Proof.
  intros Hs Hp Hn Hb. unfold restore_u64, bind, ret.
  pose proof (read_be _ 8 _ st bs rest Hs Hp Hn) as Hr.
  change (Z.of_nat 8) with 8 in Hr.
  rewrite Hr. simpl.
  unfold avs_convert_be64. rewrite <- Hn, convert_be_object_value by exact Hb.
  reflexivity.
Qed.

Lemma restore_float_ok c out w st bs rest :
  streams w !! stream_of c = Some st -> pending st = bs ++ rest ->
  length bs = 4%nat -> Forall is_byte bs ->
  restore_float host c out w =
    ((0, of_be_bytes bs), set_streams <[stream_of c := Stream rest (room st)]> w).
Proof.
  intros Hs Hp Hn Hb. unfold restore_float, bind, ret.
  pose proof (read_be _ 4 _ st bs rest Hs Hp Hn) as Hr.
  change (Z.of_nat 4) with 4 in Hr.
  rewrite Hr. simpl.
  unfold avs_ntohf, avs_convert_be32.
  rewrite <- Hn, convert_be_object_value by exact Hb.
  reflexivity.
Qed.

Lemma restore_double_ok c out w st bs rest :
  streams w !! stream_of c = Some st -> pending st = bs ++ rest ->
  length bs = 8%nat -> Forall is_byte bs ->
  restore_double host c out w =
    ((0, of_be_bytes bs), set_streams <[stream_of c := Stream rest (room st)]> w).
Proof.
  intros Hs Hp Hn Hb. unfold restore_double, bind, ret.
  pose proof (read_be _ 8 _ st bs rest Hs Hp Hn) as Hr.
  change (Z.of_nat 8) with 8 in Hr.
  rewrite Hr. simpl.
  unfold avs_ntohd, avs_convert_be64.
  rewrite <- Hn, convert_be_object_value by exact Hb.
  reflexivity.
Qed.

Lemma restore_byte_ok c old b w st rest :
  streams w !! stream_of c = Some st -> pending st = b :: rest ->
  restore_bytes c [old] 1 w =
    ((0, [b]), set_streams <[stream_of c := Stream rest (room st)]> w).
Proof.
  intros Hs Hp. unfold restore_bytes.
  rewrite (read_success _ _ _ _ st [b] rest Hs Hp) by reflexivity.
  reflexivity.
Qed.

Lemma restore_bool_ok c old b w st rest :
  streams w !! stream_of c = Some st -> pending st = b :: rest ->
  restore_bool c old w =
    ((0, b), set_streams <[stream_of c := Stream rest (room st)]> w).
Proof.
  intros Hs Hp. unfold restore_bool, bind, ret.
  rewrite (read_success _ _ _ _ st [b] rest Hs Hp) by reflexivity.
  reflexivity.
Qed.

End ScalarFacts.

(** ** Round trip of the scalar types *)

Section RoundTrip.

Context {U : Type}.
Variable host : byte_order.
Implicit Types (w : world U) (st : stream).

Lemma be_bytes_1 (v : Z) : be_bytes 1 v = [v mod 256].
Proof. unfold be_bytes. simpl. rewrite land_255_mod. reflexivity. Qed.

Lemma scalar_store_ok ty v this s w st :
  scalar_value ty v ->
  streams w !! s = Some st ->
  Z.of_nat (scalar_width ty) <= room st ->
  avs_persistence_scalar host ty (Some (INIT_STORE_CONTEXT this s)) v w =
    ((0, v),
     set_streams <[s := Stream (pending st ++ be_bytes (scalar_width ty) v)
                               (room st - Z.of_nat (scalar_width ty))]> w).
Proof.
  intros Hv Hs Hroom.
  destruct ty; unfold scalar_value in Hv; simpl in Hv, Hroom;
    unfold avs_persistence_scalar, avs_persistence_u8, avs_persistence_i8,
      avs_persistence_i16, avs_persistence_i32, avs_persistence_i64,
      avs_persistence_u16, avs_persistence_u32, avs_persistence_u64,
      avs_persistence_bool, avs_persistence_float, avs_persistence_double;
    cbn [INIT_STORE_CONTEXT handle_bytes handle_u16 handle_u32
         handle_u64 handle_bool handle_float handle_double call_bytes
         call_u16 call_u32 call_u64 call_bool call_float call_double
         scalar_width];
    unfold bind, ret; norm_width.
  - rewrite (persist_byte_ok _ _ _ st) by assumption. cbn [hd].
    rewrite be_bytes_1, Z.mod_small by lia. reflexivity.
  - rewrite (persist_u16_ok host _ _ _ st) by assumption. reflexivity.
  - rewrite (persist_u32_ok host _ _ _ st) by assumption. reflexivity.
  - rewrite (persist_u64_ok host _ _ _ st) by assumption. reflexivity.
  - rewrite (persist_byte_ok _ _ _ st) by assumption. cbn [hd].
    rewrite (to_signed_cast 8) by lia. rewrite be_bytes_1. reflexivity.
  - rewrite (persist_u16_ok host _ _ _ st) by assumption.
    rewrite (to_signed_cast 16) by lia.
    unfold cast_unsigned. rewrite (be_bytes_mod 2). reflexivity.
  - rewrite (persist_u32_ok host _ _ _ st) by assumption.
    rewrite (to_signed_cast 32) by lia.
    unfold cast_unsigned. rewrite (be_bytes_mod 4). reflexivity.
  - rewrite (persist_u64_ok host _ _ _ st) by assumption.
    rewrite (to_signed_cast 64) by lia.
    unfold cast_unsigned. rewrite (be_bytes_mod 8). reflexivity.
  - rewrite (persist_bool_ok _ _ _ st) by assumption.
    rewrite be_bytes_1, Z.mod_small by lia. reflexivity.
  - rewrite (persist_float_ok host _ _ _ st) by assumption. reflexivity.
  - rewrite (persist_double_ok host _ _ _ st) by assumption. reflexivity.
Qed.

Lemma scalar_restore_ok ty v this s w st rest out :
  scalar_value ty v ->
  streams w !! s = Some st ->
  pending st = be_bytes (scalar_width ty) v ++ rest ->
  avs_persistence_scalar host ty (Some (INIT_RESTORE_CONTEXT this s)) out w =
    ((0, v), set_streams <[s := Stream rest (room st)]> w).
Proof.
  intros Hv Hs Hp.
  pose proof (be_bytes_length (scalar_width ty) v) as Hlen.
  pose proof (be_bytes_is_byte (scalar_width ty) v) as Hbytes.
  pose proof (of_be_bytes_be_bytes (scalar_width ty) v) as Hval.
  destruct ty; unfold scalar_value in Hv; simpl in Hv;
    unfold avs_persistence_scalar, avs_persistence_u8, avs_persistence_i8,
      avs_persistence_i16, avs_persistence_i32, avs_persistence_i64,
      avs_persistence_u16, avs_persistence_u32, avs_persistence_u64,
      avs_persistence_bool, avs_persistence_float, avs_persistence_double;
    cbn [INIT_RESTORE_CONTEXT handle_bytes handle_u16 handle_u32
         handle_u64 handle_bool handle_float handle_double call_bytes
         call_u16 call_u32 call_u64 call_bool call_float call_double
         scalar_width] in *;
    unfold bind, ret; norm_width.
  - rewrite be_bytes_1 in Hp.
    rewrite (restore_byte_ok (INIT_RESTORE_CONTEXT this s) _ _ _ st rest Hs Hp). cbn [hd].
    rewrite Z.mod_small by lia. reflexivity.
  - rewrite (restore_u16_ok host (INIT_RESTORE_CONTEXT this s) _ _ st _ rest Hs Hp Hlen Hbytes).
    rewrite Hval, Z.mod_small by lia. reflexivity.
  - rewrite (restore_u32_ok host (INIT_RESTORE_CONTEXT this s) _ _ st _ rest Hs Hp Hlen Hbytes).
    rewrite Hval, Z.mod_small by lia. reflexivity.
  - rewrite (restore_u64_ok host (INIT_RESTORE_CONTEXT this s) _ _ st _ rest Hs Hp Hlen Hbytes).
    rewrite Hval, Z.mod_small by lia. reflexivity.
  - rewrite be_bytes_1 in Hp.
    rewrite (restore_byte_ok (INIT_RESTORE_CONTEXT this s) _ _ _ st rest Hs Hp). cbn [hd].
    rewrite <- (to_signed_cast 8 v) at 2 by lia. reflexivity.
  - rewrite (restore_u16_ok host (INIT_RESTORE_CONTEXT this s) _ _ st _ rest Hs Hp Hlen Hbytes).
    rewrite Hval. rewrite <- (to_signed_cast 16 v) at 2 by lia. reflexivity.
  - rewrite (restore_u32_ok host (INIT_RESTORE_CONTEXT this s) _ _ st _ rest Hs Hp Hlen Hbytes).
    rewrite Hval. rewrite <- (to_signed_cast 32 v) at 2 by lia. reflexivity.
  - rewrite (restore_u64_ok host (INIT_RESTORE_CONTEXT this s) _ _ st _ rest Hs Hp Hlen Hbytes).
    rewrite Hval. rewrite <- (to_signed_cast 64 v) at 2 by lia. reflexivity.
  - rewrite be_bytes_1 in Hp.
    rewrite (restore_bool_ok (INIT_RESTORE_CONTEXT this s) _ _ _ st rest Hs Hp).
    rewrite Z.mod_small by lia. reflexivity.
  - rewrite (restore_float_ok host (INIT_RESTORE_CONTEXT this s) _ _ st _ rest Hs Hp Hlen Hbytes).
    rewrite Hval, Z.mod_small by lia. reflexivity.
  - rewrite (restore_double_ok host (INIT_RESTORE_CONTEXT this s) _ _ st _ rest Hs Hp Hlen Hbytes).
    rewrite Hval, Z.mod_small by lia. reflexivity.
Qed.

(** C4. For every scalar type and every value [v] of it, on either host
    byte order: storing [v] succeeds when the stream has room and appends
    exactly the wire bytes [be_bytes width v], the big-endian layout of the
    declared width, whose byte [i] is the [i]-th most significant byte of
    [v]; restoring from a stream that starts with those bytes succeeds,
    yields [v] and consumes exactly them; storing to an empty stream and
    restoring from it gives [v] back; and the wire bytes of the u32 value
    0xDEADBEEF are DE AD BE EF. *)
Theorem scalar_round_trip ty v this this' s w w' st st' rest out :
  scalar_value ty v ->
  streams w !! s = Some st ->
  Z.of_nat (scalar_width ty) <= room st ->
  streams w' !! s = Some st' ->
  pending st' = be_bytes (scalar_width ty) v ++ rest ->
  let store_ctx := Some (INIT_STORE_CONTEXT this s) in
  let restore_ctx := Some (INIT_RESTORE_CONTEXT this' s) in
  avs_persistence_scalar host ty store_ctx v w =
    ((0, v),
     set_streams <[s := Stream (pending st ++ be_bytes (scalar_width ty) v)
                               (room st - Z.of_nat (scalar_width ty))]> w)
  /\ avs_persistence_scalar host ty restore_ctx out w' =
       ((0, v), set_streams <[s := Stream rest (room st')]> w')
  /\ (pending st = [] ->
      fst (avs_persistence_scalar host ty restore_ctx out
             (snd (avs_persistence_scalar host ty store_ctx v w))) = (0, v))
  /\ (forall i : nat,
        (i < scalar_width ty)%nat ->
        nth i (be_bytes (scalar_width ty) v) 0 =
          (v / 2 ^ (8 * Z.of_nat (scalar_width ty - 1 - i))) mod 256)
  /\ be_bytes (scalar_width T_u32) 0xDEADBEEF = [0xDE; 0xAD; 0xBE; 0xEF].
Proof.
  intros Hv Hs Hroom Hs' Hp store_ctx restore_ctx.
  pose proof (scalar_store_ok ty v this s w st Hv Hs Hroom) as Hstore.
  split; [exact Hstore|].
  split; [exact (scalar_restore_ok ty v this' s w' st' rest out Hv Hs' Hp)|].
  split.
  - intros Hempty. subst store_ctx restore_ctx. rewrite Hstore. simpl snd.
    erewrite scalar_restore_ok with (rest := []); [reflexivity|exact Hv| |].
    + rewrite streams_set_streams. apply lookup_insert_eq.
    + simpl. rewrite Hempty, app_nil_r. reflexivity.
  - split; [|reflexivity]. intros i Hi. apply be_bytes_nth, Hi.
Qed.

End RoundTrip.

(** The u32 value 0xDEADBEEF on a little-endian host. *)
Lemma scalar_round_trip_witness :
  let w := Example.world_with [] in
  let w' := Example.world_with [0xDE; 0xAD; 0xBE; 0xEF; 0x01] in
  (scalar_value T_u32 0xDEADBEEF
   /\ streams w !! 0%nat = Some (Stream [] 64)
   /\ Z.of_nat (scalar_width T_u32) <= 64
   /\ streams w' !! 0%nat = Some (Stream [0xDE; 0xAD; 0xBE; 0xEF; 0x01] 64))
  /\ avs_persistence_scalar LittleEndian T_u32 (Some Example.store_ctx)
       0xDEADBEEF w =
     ((0, 0xDEADBEEF),
      set_streams <[0%nat := Stream [0xDE; 0xAD; 0xBE; 0xEF] 60]> w)
  /\ avs_persistence_scalar LittleEndian T_u32 (Some Example.restore_ctx) 0 w' =
     ((0, 0xDEADBEEF), set_streams <[0%nat := Stream [0x01] 64]> w').
Proof.
  intros w w'.
  assert (H1 : scalar_value T_u32 0xDEADBEEF) by (unfold scalar_value; simpl; lia).
  assert (H2 : streams w !! 0%nat = Some (Stream [] 64)) by reflexivity.
  assert (H3 : Z.of_nat (scalar_width T_u32) <= 64) by (simpl; lia).
  assert (H4 : streams w' !! 0%nat =
               Some (Stream [0xDE; 0xAD; 0xBE; 0xEF; 0x01] 64)) by reflexivity.
  split; [repeat split; assumption|].
  destruct (scalar_round_trip LittleEndian T_u32 0xDEADBEEF 100%nat 101%nat
              0%nat w w' _ _ [0x01] 0 H1 H2 H3 H4 eq_refl) as (Hs & Hr & _).
  split; [exact Hs | exact Hr].
Defined.

(** ** Contexts: direction and the null context *)

Section ContextFacts.

Context {U : Type}.
Variable host : byte_order.
Implicit Types (w : world U) (st : stream).

(** C9 (as amended). A context made by the store constructor reports
    [AVS_PERSISTENCE_STORE] and one made by the restore constructor reports
    [AVS_PERSISTENCE_RESTORE]; a context made by the ignore constructor also
    reports [AVS_PERSISTENCE_RESTORE], and is told apart from a restore
    context by its operation table only. *)
Theorem constructor_direction (stream : option stream_id) w ctx :
  (fst (avs_persistence_store_context_new stream w) = Some ctx ->
   avs_persistence_direction (Some ctx) = AVS_PERSISTENCE_STORE)
  /\ (fst (avs_persistence_restore_context_new stream w) = Some ctx ->
      avs_persistence_direction (Some ctx) = AVS_PERSISTENCE_RESTORE)
  /\ (fst (avs_persistence_ignore_context_new stream w) = Some ctx ->
      avs_persistence_direction (Some ctx) = AVS_PERSISTENCE_RESTORE
      /\ handle_u32 ctx = ptr_ignore_u32
      /\ handle_list ctx = ptr_ignore_list
      /\ handle_tree ctx = ptr_ignore_tree).
Proof.
  unfold avs_persistence_store_context_new, avs_persistence_restore_context_new,
    avs_persistence_ignore_context_new, bind, ret.
  destruct stream as [s|]; simpl; [|split; [|split]; intros [=]].
  destruct (malloc sizeof_context w) as [[this|] w1]; simpl;
    (split; [|split]); intros H; cbv [fst] in H; try discriminate H;
    injection H as <-; repeat split.
Qed.

(** C7. With a null context every typed operation returns -1, hands every
    argument back as it was and leaves the world, so every stream in it,
    exactly as it found it. *)
Theorem null_context_fails w ty v buffer buffer_size data size string lst
    tree element_size handler cleanup :
  scalar_value ty v ->
  avs_persistence_scalar host ty None v w = ((-1, v), w)
  /\ avs_persistence_bytes None buffer buffer_size w = ((-1, buffer), w)
  /\ avs_persistence_sized_buffer host None data size w = ((-1, data, size), w)
  /\ avs_persistence_string host None string w = ((-1, string), w)
  /\ avs_persistence_list host None lst element_size handler cleanup w =
       ((-1, lst), w)
  /\ avs_persistence_tree host None tree element_size handler cleanup w =
       ((-1, tree), w).
Proof.
  intros Hv. split; [|repeat split].
  destruct ty; unfold scalar_value in Hv; simpl in Hv; try reflexivity;
    unfold avs_persistence_scalar, avs_persistence_i16, avs_persistence_i32,
      avs_persistence_i64, avs_persistence_u16, avs_persistence_u32,
      avs_persistence_u64, bind, ret.
  - rewrite (to_signed_cast 16) by lia. reflexivity.
  - rewrite (to_signed_cast 32) by lia. reflexivity.
  - rewrite (to_signed_cast 64) by lia. reflexivity.
Qed.

End ContextFacts.

(** A context for stream 0 in a world whose allocator has room for it. *)
Lemma constructor_direction_witness :
  let w := Example.world_with [] in
  (fst (avs_persistence_store_context_new (Some 0%nat) w) =
     Some (INIT_STORE_CONTEXT 0%nat 0%nat)
   /\ avs_persistence_direction (Some (INIT_STORE_CONTEXT 0%nat 0%nat)) =
        AVS_PERSISTENCE_STORE)
  /\ (fst (avs_persistence_ignore_context_new (Some 0%nat) w) =
        Some (INIT_IGNORE_CONTEXT 0%nat 0%nat)
      /\ avs_persistence_direction (Some (INIT_IGNORE_CONTEXT 0%nat 0%nat)) =
           AVS_PERSISTENCE_RESTORE).
Proof.
  intros w.
  assert (H1 : fst (avs_persistence_store_context_new (Some 0%nat) w) =
               Some (INIT_STORE_CONTEXT 0%nat 0%nat)) by reflexivity.
  assert (H2 : fst (avs_persistence_ignore_context_new (Some 0%nat) w) =
               Some (INIT_IGNORE_CONTEXT 0%nat 0%nat)) by reflexivity.
  split; (split; [assumption|]).
  - exact (proj1 (constructor_direction (Some 0%nat) w _) H1).
  - exact (proj1 (proj2 (proj2 (constructor_direction (Some 0%nat) w _)) H2)).
Defined.

(** The direction accessor does not return the Ignore direction for a
    context made by the ignore constructor. *)
Lemma ignore_direction_counterexample :
  avs_persistence_direction
    (fst (avs_persistence_ignore_context_new (Some 0%nat)
            (Example.world_with []))) <> AVS_PERSISTENCE_IGNORE.
Proof. vm_compute. discriminate. Qed.

(** The i16 value -2 and a null context. *)
Lemma null_context_fails_witness :
  scalar_value T_i16 (-2)
  /\ avs_persistence_scalar LittleEndian T_i16 None (-2)
       (Example.world_with [1; 2]) = ((-1, -2), Example.world_with [1; 2]).
Proof.
  assert (H : scalar_value T_i16 (-2)) by (unfold scalar_value; simpl; lia).
  split; [exact H|].
  exact (proj1 (null_context_fails LittleEndian (Example.world_with [1; 2])
                  T_i16 (-2) [] 0 None 0 None [] (RBTree (fun _ _ => 0) []) 0
                  (fun _ e env => (0, e, env)) None H)).
Defined.

(** ** Storing a sized buffer *)

Section SizedBufferStore.

Context {U : Type}.
Variable host : byte_order.
Implicit Types (w : world U) (st : stream) (c : avs_persistence_context_t).

Lemma set_streams_insert_insert s (a b : stream) w :
  set_streams <[s := a]> (set_streams <[s := b]> w) = set_streams <[s := a]> w.
Proof.
  unfold set_streams. simpl. rewrite insert_insert_eq. reflexivity.
Qed.

(** A size that needs more than 32 bits: the low 32 bits of the size go out
    as the length, followed by either nothing or the whole buffer. *)
Lemma persist_sized_buffer_truncates c data size w st :
  2 ^ 32 <= size < 2 ^ 64 ->
  streams w !! stream_of c = Some st ->
  4 <= room st ->
  exists retval tail room',
    persist_sized_buffer host c data size w =
      ((retval, data, size),
       set_streams
         <[stream_of c := Stream (pending st ++ be_bytes 4 (size mod 2 ^ 32) ++ tail)
                                 room']> w)
    /\ (size mod 2 ^ 32 = 0 ->
        retval = 0 /\ tail = [] /\ room' = room st - 4
        /\ be_bytes 4 (size mod 2 ^ 32) = [0; 0; 0; 0]).
Proof.
  intros Hsize Hs Hroom.
  unfold persist_sized_buffer, bind, cast_unsigned.
  rewrite (persist_u32_ok host c _ w st Hs Hroom).
  change (0 =? 0) with true. cbn [andb].
  destruct (Z.ltb_spec 0 (size mod 2 ^ 32)) as [Hpos|Hzero].
  - unfold load, persist_bytes, bind, ret.
    set (w1 := set_streams _ w).
    set (buffer := default [] _).
    unfold avs_stream_write.
    assert (Hs1 : streams w1 !! stream_of c =
                  Some (Stream (pending st ++ be_bytes 4 (size mod 2 ^ 32))
                               (room st - 4))).
    { subst w1. rewrite streams_set_streams. apply lookup_insert_eq. }
    rewrite Hs1. cbn [room pending].
    destruct (decide (size <= room st - 4)).
    + eexists 0, _, _. split.
      * subst w1. rewrite set_streams_insert_insert, <- app_assoc. reflexivity.
      * intros Hz. lia.
    + exists (-1), [], (room st - 4). split.
      * rewrite app_nil_r. reflexivity.
      * intros Hz. lia.
  - exists 0, [], (room st - 4). split.
    + rewrite app_nil_r. reflexivity.
    + intros Hz. rewrite Hz. repeat split; reflexivity.
Qed.

(** C1 (what the code does). A size that needs more than 32 bits does not
    make the store operation fail before it writes: the low 32 bits of the
    size go out as the length, followed by either nothing or the whole
    buffer, and when those low 32 bits are zero the call reports success
    after writing 00 00 00 00. *)
Theorem persist_sized_buffer_oversized this s data size w st :
  2 ^ 32 <= size < 2 ^ 64 ->
  streams w !! s = Some st ->
  4 <= room st ->
  exists retval tail room',
    avs_persistence_sized_buffer host (Some (INIT_STORE_CONTEXT this s))
      data size w =
      ((retval, data, size),
       set_streams
         <[s := Stream (pending st ++ be_bytes 4 (size mod 2 ^ 32) ++ tail)
                       room']> w)
    /\ (size mod 2 ^ 32 = 0 ->
        retval = 0 /\ tail = [] /\ room' = room st - 4
        /\ be_bytes 4 (size mod 2 ^ 32) = [0; 0; 0; 0]).
Proof.
  exact (persist_sized_buffer_truncates (INIT_STORE_CONTEXT this s) data size
           w st).
Qed.

End SizedBufferStore.

(** A 4 GiB buffer: [size] is 2^32, whose low 32 bits are zero.  The call
    returns 0 and the stream holds the length 00 00 00 00. *)
Lemma persist_sized_buffer_oversized_witness :
  let w := Example.world_4GiB in
  (2 ^ 32 <= 4294967296 < 2 ^ 64
   /\ streams w !! stream_of Example.store_ctx = Some (Stream [] 64)
   /\ 4 <= 64)
  /\ avs_persistence_sized_buffer LittleEndian (Some Example.store_ctx)
       (Some 5%nat) 4294967296 w =
     ((0, Some 5%nat, 4294967296),
      set_streams <[0%nat := Stream [0; 0; 0; 0] 60]> w).
Proof.
  intros w.
  assert (H1 : 2 ^ 32 <= 4294967296 < 2 ^ 64) by lia.
  assert (H2 : streams w !! stream_of Example.store_ctx = Some (Stream [] 64))
    by reflexivity.
  assert (H3 : 4 <= 64) by lia.
  split; [repeat split; assumption || lia|].
  destruct (persist_sized_buffer_oversized LittleEndian 100%nat 0%nat
              (Some 5%nat) 4294967296 w (Stream [] 64) H1 H2 H3)
    as (retval & tail & room' & Hrun & Hzero).
  destruct (Hzero eq_refl) as (-> & -> & -> & Hbytes).
  unfold Example.store_ctx. rewrite Hrun, Hbytes. reflexivity.
Defined.

(** ** The heap, and restoring sized buffers and strings *)

Section HeapFacts.

Context {U : Type}.
Implicit Types (w : world U) (l : loc).

Lemma fresh_heap_None w : heap w !! fresh (dom (heap w)) = None.
Proof. apply not_elem_of_dom, is_fresh. Qed.

Lemma malloc_success size w :
  size <= heap_room w ->
  malloc size w =
    (Some (fresh (dom (heap w))),
     set_heap <[fresh (dom (heap w)) := replicate (Z.to_nat size) 0]> (- size) w).
Proof.
  intros H. unfold malloc. destruct (decide _); [reflexivity | contradiction].
Qed.

Lemma malloc_failure size w :
  heap_room w < size -> malloc size w = (None, w).
Proof.
  intros H. unfold malloc. destruct (decide _); [lia | reflexivity].
Qed.

Lemma world_eq (w1 w2 : world U) :
  streams w1 = streams w2 -> heap w1 = heap w2 ->
  heap_room w1 = heap_room w2 -> user w1 = user w2 ->
  cleaned w1 = cleaned w2 -> w1 = w2.
Proof. destruct w1, w2. simpl. intros -> -> -> -> ->. reflexivity. Qed.

End HeapFacts.

Section SizedBufferRestore.

Context {U : Type}.
Variable host : byte_order.
Implicit Types (w : world U) (st : stream) (c : avs_persistence_context_t).

(** The length prefix of a sized buffer or a count, read back. *)
Lemma restore_u32_prefix c out n w st rest :
  streams w !! stream_of c = Some st ->
  pending st = be_bytes 4 n ++ rest ->
  0 <= n < 2 ^ 32 ->
  restore_u32 host c out w =
    ((0, n), set_streams <[stream_of c := Stream rest (room st)]> w).
Proof.
  intros Hs Hp Hn.
  rewrite (restore_u32_ok host c out w st (be_bytes 4 n) rest Hs Hp
             (be_bytes_length 4 n) (be_bytes_is_byte 4 n)).
  rewrite (of_be_bytes_be_bytes 4 n), Z.mod_small by (simpl; lia).
  reflexivity.
Qed.

(** Restoring a sized buffer of [len > 0] bytes when the allocator can serve
    it: the buffer is a fresh block holding the body. *)
Lemma restore_sized_buffer_ok c w st len body rest :
  streams w !! stream_of c = Some st ->
  pending st = be_bytes 4 len ++ body ++ rest ->
  Z.of_nat (length body) = len -> 0 < len < 2 ^ 32 ->
  len <= heap_room w ->
  restore_sized_buffer host c None 0 w =
    ((0, Some (fresh (dom (heap w))), len),
     World (<[stream_of c := Stream rest (room st)]> (streams w))
           (<[fresh (dom (heap w)) := body]> (heap w))
           (heap_room w - len) (user w) (cleaned w)).
Proof.
  intros Hs Hp Hlen Hrange Hroom.
  unfold restore_sized_buffer, bind.
  rewrite (restore_u32_prefix c 0 len w st (body ++ rest) Hs Hp) by lia.
  change (0 =? 0) with true. cbn [negb].
  destruct (Z.eqb_spec len 0) as [|_]; [lia|].
  set (w1 := set_streams _ w).
  rewrite (malloc_success len w1) by exact Hroom.
  set (l := fresh (dom (heap w1))).
  set (w2 := set_heap _ _ w1).
  unfold load, restore_bytes, store, ret. cbn [mbind option_bind].
  assert (Hl : heap w2 !! l = Some (replicate (Z.to_nat len) 0)).
  { subst w2. simpl. apply lookup_insert_eq. }
  rewrite Hl. cbn [default id].
  assert (Hs2 : streams w2 !! stream_of c = Some (Stream (body ++ rest) (room st))).
  { subst w2 w1. simpl. apply lookup_insert_eq. }
  rewrite (read_success (stream_of c) _ len w2 _ body rest Hs2 eq_refl Hlen).
  rewrite drop_ge, app_nil_r by (rewrite length_replicate; lia).
  change (0 =? 0) with true. cbn [negb].
  f_equal. apply world_eq; subst w2 w1 l; simpl.
  - apply insert_insert_eq.
  - apply insert_insert_eq.
  - lia.
  - reflexivity.
  - reflexivity.
Qed.

(** The same when the allocator cannot serve it: only the length has been
    consumed. *)
Lemma restore_sized_buffer_oom c w st len rest :
  streams w !! stream_of c = Some st ->
  pending st = be_bytes 4 len ++ rest ->
  0 < len < 2 ^ 32 ->
  heap_room w < len ->
  restore_sized_buffer host c None 0 w =
    ((-1, None, 0), set_streams <[stream_of c := Stream rest (room st)]> w).
Proof.
  intros Hs Hp Hrange Hroom.
  unfold restore_sized_buffer, bind.
  rewrite (restore_u32_prefix c 0 len w st rest Hs Hp) by lia.
  change (0 =? 0) with true. cbn [negb].
  destruct (Z.eqb_spec len 0) as [|_]; [lia|].
  rewrite malloc_failure by exact Hroom. reflexivity.
Qed.

(** A persisted string with a declared length above zero whose last byte is
    not NUL: [restore_string], entered with a null output pointer, returns -1
    and a null pointer, and the heap is what it was before the call. *)
Lemma restore_string_rejects_unterminated c w st len body rest :
  streams w !! stream_of c = Some st ->
  pending st = be_bytes 4 len ++ body ++ rest ->
  Z.of_nat (length body) = len -> 0 < len < 2 ^ 32 ->
  nth (Z.to_nat (len - 1)) body 0 <> 0 ->
  exists w',
    restore_string host c None w = ((-1, None), w')
    /\ heap w' = heap w /\ heap_room w' = heap_room w
    /\ (len <= heap_room w ->
        streams w' = <[stream_of c := Stream rest (room st)]> (streams w)).
Proof.
  intros Hs Hp Hlen Hrange Hlast.
  unfold restore_string, bind.
  destruct (Z_le_gt_dec len (heap_room w)) as [Hroom|Hroom].
  - rewrite (restore_sized_buffer_ok c w st len body rest Hs Hp Hlen Hrange Hroom).
    change (0 =? 0) with true. cbn [negb].
    set (l := fresh (dom (heap w))).
    unfold load. cbn [mbind option_bind heap]. rewrite lookup_insert_eq.
    cbn [default id].
    destruct (Z.ltb_spec 0 len) as [_|]; [|lia].
    destruct (Z.eqb_spec (nth (Z.to_nat (len - 1)) body 0) 0) as [|_];
      [contradiction|].
    cbn [negb andb]. unfold free, ret. cbn [heap]. rewrite lookup_insert_eq.
    eexists. split; [reflexivity|]. simpl. repeat split.
    + apply delete_insert_id. apply fresh_heap_None.
    + lia.
  - rewrite (restore_sized_buffer_oom c w st len (body ++ rest) Hs Hp Hrange)
      by lia.
    eexists. split; [reflexivity|]. simpl. repeat split. lia.
Qed.

(** C6. A persisted string with a declared length above zero whose last byte
    is not NUL: the string operation of a restore context, entered with a
    null output pointer, returns -1 and a null pointer, and the heap is what
    it was before the call, the block allocated for the string having been
    freed; when the allocator could serve the block, the whole string has
    been consumed. *)
Theorem restore_string_unterminated this s w st len body rest :
  streams w !! s = Some st ->
  pending st = be_bytes 4 len ++ body ++ rest ->
  Z.of_nat (length body) = len -> 0 < len < 2 ^ 32 ->
  nth (Z.to_nat (len - 1)) body 0 <> 0 ->
  exists w',
    avs_persistence_string host (Some (INIT_RESTORE_CONTEXT this s)) None w =
      ((-1, None), w')
    /\ heap w' = heap w /\ heap_room w' = heap_room w
    /\ (len <= heap_room w ->
        streams w' = <[s := Stream rest (room st)]> (streams w)).
Proof.
  exact (restore_string_rejects_unterminated (INIT_RESTORE_CONTEXT this s) w st
           len body rest).
Qed.

End SizedBufferRestore.

(** The persisted string "ABC": declared length 3, last byte 0x43. *)
Lemma restore_string_unterminated_witness :
  let w := Example.world_with [0; 0; 0; 3; 0x41; 0x42; 0x43] in
  (streams w !! stream_of Example.restore_ctx =
     Some (Stream [0; 0; 0; 3; 0x41; 0x42; 0x43] 64)
   /\ Z.of_nat (length [0x41; 0x42; 0x43]) = 3
   /\ 0 < 3 < 2 ^ 32
   /\ nth (Z.to_nat (3 - 1)) [0x41; 0x42; 0x43] 0 <> 0)
  /\ exists w',
       avs_persistence_string LittleEndian (Some Example.restore_ctx) None w =
         ((-1, None), w')
       /\ heap w' = heap w /\ heap_room w' = heap_room w
       /\ (3 <= heap_room w ->
           streams w' = <[0%nat := Stream [] 64]> (streams w)).
Proof.
  intros w.
  assert (H1 : streams w !! stream_of Example.restore_ctx =
               Some (Stream [0; 0; 0; 3; 0x41; 0x42; 0x43] 64)) by reflexivity.
  assert (H2 : Z.of_nat (length [0x41; 0x42; 0x43]) = 3) by reflexivity.
  assert (H3 : 0 < 3 < 2 ^ 32) by lia.
  assert (H4 : nth (Z.to_nat (3 - 1)) [0x41; 0x42; 0x43] 0 <> 0)
    by (simpl; lia).
  split; [repeat split; assumption || lia|].
  exact (restore_string_unterminated LittleEndian 101%nat 0%nat w _ 3
           [0x41; 0x42; 0x43] [] H1 eq_refl H2 H3 H4).
Defined.

(** ** Collections *)

Section CollectionFacts.

Context {U : Type}.
Implicit Types (w : world U) (l : loc) (c : avs_persistence_context_t).
Implicit Types (h : gmap loc (list Z)) (items : list (loc * list Z)).
Implicit Types (handler : avs_persistence_handler_collection_element_t (U := U)).

(** *** Blocks allocated on top of a heap *)

Lemma lookup_fold_delete_in (ls : list loc) h k :
  k ∈ ls -> fold_left (fun m l => delete l m) ls h !! k = None.
Proof.
  revert h. induction ls as [|l ls IH]; intros h Hin; simpl.
  - inversion Hin.
  - destruct (decide (k ∈ ls)) as [Hk|Hk]; [apply IH, Hk|].
    apply elem_of_cons in Hin as [->|Hin]; [|contradiction].
    clear IH. revert h. induction ls as [|l' ls IH]; intros h; simpl.
    + apply lookup_delete_eq.
    + rewrite delete_delete. apply IH.
      intros Hin. apply Hk. right. exact Hin.
Qed.

Lemma lookup_fold_delete_notin (ls : list loc) h k :
  k ∉ ls -> fold_left (fun m l => delete l m) ls h !! k = h !! k.
Proof.
  revert h. induction ls as [|l ls IH]; intros h Hk; simpl; [reflexivity|].
  rewrite IH by (intros Hin; apply Hk; right; exact Hin).
  apply lookup_delete_ne. intros ->. apply Hk. left.
Qed.

(** Freeing every block that was allocated gives the heap back. *)
Lemma fold_delete_allocated (ls : list loc) items h :
  (forall k, k ∈ items.*1 -> k ∈ ls) ->
  (forall k, k ∈ ls -> h !! k = None) ->
  fold_left (fun m l => delete l m) ls (list_to_map items ∪ h) = h.
Proof.
  intros Hsub Hfresh. apply map_eq. intros k.
  destruct (decide (k ∈ ls)) as [Hin|Hnin].
  - rewrite lookup_fold_delete_in by exact Hin. symmetry. apply Hfresh, Hin.
  - rewrite lookup_fold_delete_notin by exact Hnin.
    apply lookup_union_r, not_elem_of_list_to_map_1.
    intros Hk. apply Hnin, Hsub, Hk.
Qed.

Lemma lookup_allocated items h k b :
  NoDup items.*1 -> (k, b) ∈ items -> (list_to_map items ∪ h) !! k = Some b.
Proof.
  intros Hnd Hin. apply lookup_union_Some_l.
  apply elem_of_list_to_map_1; assumption.
Qed.

Lemma bytes_at_allocated items h :
  NoDup items.*1 ->
  map (bytes_at (list_to_map items ∪ h)) items.*1 = items.*2.
Proof.
  intros Hnd.
  assert (Hall : forall k b, (k, b) ∈ items ->
                   bytes_at (list_to_map items ∪ h) k = b).
  { intros k b Hin. unfold bytes_at.
    rewrite (lookup_allocated items h k b Hnd Hin). reflexivity. }
  clear Hnd. revert Hall. generalize (list_to_map items ∪ h) as m.
  induction items as [|[k b] items IH]; intros m Hall; simpl; [reflexivity|].
  f_equal.
  - apply Hall. left.
  - apply IH. intros k' b' Hin. apply Hall. right. exact Hin.
Qed.

Lemma allocated_snoc items h l b :
  l ∉ items.*1 ->
  list_to_map (items ++ [(l, b)]) ∪ h = <[l := b]> (list_to_map items ∪ h).
Proof.
  intros Hl. rewrite list_to_map_app. simpl.
  rewrite insert_empty, <- (assoc_L (∪)), <- insert_union_singleton_l.
  symmetry. apply insert_union_r, not_elem_of_list_to_map_1, Hl.
Qed.

Lemma allocated_cons items h l b :
  l ∉ items.*1 ->
  list_to_map items ∪ <[l := b]> h = list_to_map ((l, b) :: items) ∪ h.
Proof.
  intros Hl. simpl. rewrite <- insert_union_l. symmetry.
  apply insert_union_r, not_elem_of_list_to_map_1, Hl.
Qed.

(** *** One call of the element handler on a live element *)

Lemma call_handler_live handler c l w old :
  heap w !! l = Some old ->
  call_handler handler c (Some l) w =
    (let '(retval, bytes, env) := handler c (Some old) (streams w, user w) in
     (retval,
      World env.1
            (<[l := match bytes with
                    | Some b => resize (length old) 0 b
                    | None => old
                    end]> (heap w))
            (heap_room w) env.2 (cleaned w))).
Proof.
  intros Hl. unfold call_handler. cbn [mbind option_bind]. rewrite Hl.
  destruct (handler c (Some old) (streams w, user w)) as [[retval bytes] [ss u]].
  destruct bytes as [b|]; [reflexivity|].
  simpl. rewrite insert_id by exact Hl. reflexivity.
Qed.

Lemma handler_run_sizes handler c element_size count env :
  Forall (fun b => length b = Z.to_nat element_size)
         (handler_run handler c element_size count env).1.2.
Proof.
  revert env. induction count as [|count IH]; intros env; simpl.
  - constructor.
  - destruct (handler c _ env) as [[r bytes] env1].
    assert (Hel : length (match bytes with
                          | Some b => resize (Z.to_nat element_size) 0 b
                          | None => replicate (Z.to_nat element_size) 0
                          end) = Z.to_nat element_size).
    { destruct bytes; [apply length_resize | apply length_replicate]. }
    destruct (r =? 0).
    + specialize (IH env1).
      destruct (handler_run handler c element_size count env1) as [[r2 els] env2].
      simpl in *. constructor; assumption.
    + simpl. constructor; [assumption | constructor].
Qed.

(** The first [k] calls succeed: the run of [k + m] calls is the run of the
    remaining [m] calls after them. *)
Lemma handler_run_app handler c element_size k m env good env1 :
  handler_run handler c element_size k env = (0, good, env1) ->
  handler_run handler c element_size (k + m) env =
    (let '(retval, more, env2) := handler_run handler c element_size m env1 in
     (retval, good ++ more, env2)).
Proof.
  revert env good. induction k as [|k IH]; intros env good; simpl.
  - intros [= <- <-].
    destruct (handler_run handler c element_size m env) as [[r els] env2].
    reflexivity.
  - destruct (handler c _ env) as [[r bytes] env'].
    destruct (Z.eqb_spec r 0) as [->|Hr].
    + destruct (handler_run handler c element_size k env') as [[r2 els] env2] eqn:Hk.
      intros [= -> <- ->]. rewrite (IH _ _ Hk).
      destruct (handler_run handler c element_size m env1) as [[r3 more] env3].
      reflexivity.
    + intros [= -> _ _]. contradiction.
Qed.

End CollectionFacts.

(** ** Restoring an ordered sequence *)

Section ListRestore.

Context {U : Type}.
Variable host : byte_order.
Implicit Types (w : world U) (l : loc) (c : avs_persistence_context_t).
Implicit Types (h : gmap loc (list Z)) (items : list (loc * list Z)).
Implicit Types (handler : avs_persistence_handler_collection_element_t (U := U)).
Implicit Types (cleanup : avs_persistence_cleanup_collection_element_t (U := U)).

Lemma list_insert_at_end (lst : list loc) l :
  AVS_LIST_INSERT (length lst) l lst = lst ++ [l].
Proof.
  unfold AVS_LIST_INSERT. rewrite take_ge, drop_ge by lia. reflexivity.
Qed.

(** The loop of [restore_list] when the allocator can serve every element the
    handler gets to see: the list grows by one fresh block per element, each
    holding what the handler left in it. *)
Lemma restore_list_loop_run handler c element_size count :
  forall (lst : list loc) w retval elements env,
    handler_run handler c element_size count (streams w, user w) =
      (retval, elements, env) ->
    0 <= element_size ->
    Z.of_nat (length elements) * element_size <= heap_room w ->
    exists items,
      restore_list_loop c element_size handler count (length lst) lst w =
        ((retval, lst ++ items.*1),
         World env.1 (list_to_map items ∪ heap w)
               (heap_room w - Z.of_nat (length elements) * element_size)
               env.2 (cleaned w))
      /\ items.*2 = elements
      /\ NoDup items.*1
      /\ (forall k, k ∈ items.*1 -> heap w !! k = None).
Proof.
  induction count as [|count IH]; intros lst w retval elements env Hrun Hsz Hroom.
  - simpl in Hrun. injection Hrun as <- <- <-.
    exists []. simpl. split; [|repeat split].
    + unfold ret. rewrite app_nil_r, (left_id_L ∅ (∪)).
      f_equal. apply world_eq; simpl; try reflexivity. lia.
    + constructor.
    + intros k Hk. inversion Hk.
  - simpl in Hrun.
    set (zero := replicate (Z.to_nat element_size) 0) in *.
    destruct (handler c (Some zero) (streams w, user w))
      as [[r bytes] env1] eqn:Hcall.
    set (element := match bytes with
                    | Some b => resize (Z.to_nat element_size) 0 b
                    | None => zero
                    end) in *.
    assert (Hroom1 : element_size <= heap_room w).
    { destruct (r =? 0).
      - destruct (handler_run handler c element_size count env1) as [[? ?] ?].
        injection Hrun as _ <- _. simpl in Hroom. lia.
      - injection Hrun as _ <- _. simpl in Hroom. lia. }
    cbn [restore_list_loop]. unfold AVS_LIST_NEW_BUFFER, bind.
    rewrite (malloc_success element_size w Hroom1).
    set (l := fresh (dom (heap w))).
    assert (Hl : heap w !! l = None) by apply fresh_heap_None.
    set (w1 := set_heap _ _ w).
    rewrite (call_handler_live handler c l w1 zero)
      by (subst w1; simpl; apply lookup_insert_eq).
    change (streams w1) with (streams w). change (user w1) with (user w).
    rewrite Hcall. rewrite list_insert_at_end.
    assert (Hlen0 : length zero = Z.to_nat element_size)
      by apply length_replicate.
    rewrite Hlen0. fold element.
    set (w2 := World _ _ _ _ _).
    assert (Hheap2 : heap w2 = <[l := element]> (heap w)).
    { subst w2 w1. simpl. apply insert_insert_eq. }
    destruct (Z.eqb_spec r 0) as [->|Hr].
    + destruct (handler_run handler c element_size count env1)
        as [[r2 els] env2] eqn:Hrest.
      injection Hrun as <- <- <-.
      destruct env1 as [ss1 u1].
      destruct (IH (lst ++ [l]) w2 r2 els env2) as (items & Hloop & Hels & Hnd & Hfresh).
      * exact Hrest.
      * exact Hsz.
      * subst w2 w1. simpl in *. lia.
      * assert (Hlnot : l ∉ items.*1).
        { intros Hin. specialize (Hfresh l Hin). rewrite Hheap2 in Hfresh.
          rewrite lookup_insert_eq in Hfresh. discriminate. }
        exists ((l, element) :: items).
        unfold AVS_LIST_NEXT_PTR.
        replace (S (length lst)) with (length (lst ++ [l]))
          by (rewrite length_app; simpl; lia).
        rewrite Hloop. split; [|repeat split].
        -- simpl. rewrite <- app_assoc. simpl. f_equal.
           apply world_eq; simpl; try reflexivity.
           ++ rewrite insert_insert_eq. apply (allocated_cons items). exact Hlnot.
           ++ lia.
        -- rewrite fmap_cons, Hels. reflexivity.
        -- rewrite fmap_cons. constructor; assumption.
        -- intros k Hk. rewrite fmap_cons in Hk.
           apply elem_of_cons in Hk as [->|Hk]; [exact Hl|].
           specialize (Hfresh k Hk). rewrite Hheap2 in Hfresh.
           destruct (decide (l = k)) as [<-|Hne]; [exact Hl|].
           rewrite lookup_insert_ne in Hfresh by exact Hne. exact Hfresh.
    + injection Hrun as <- <- <-.
      exists [(l, element)]. split; [|repeat split].
      * unfold ret. simpl. f_equal. apply world_eq; simpl; try reflexivity.
        -- rewrite insert_empty, <- insert_union_singleton_l.
           subst w1. simpl. apply insert_insert_eq.
        -- lia.
      * simpl. constructor; [intros Hin; inversion Hin | constructor].
      * intros k Hk. simpl in Hk. apply list_elem_of_singleton in Hk as ->. exact Hl.
Qed.

(** [AVS_LIST_CLEAR] with the cleanup callback as its body: every element is
    passed to the callback, then freed. *)
Lemma list_clear_run cleanup (n : nat) :
  forall (ls : list loc) w,
    NoDup ls ->
    (forall k, k ∈ ls -> exists b, heap w !! k = Some b /\ length b = n) ->
    AVS_LIST_CLEAR (call_cleanup cleanup) ls w =
      ([],
       World (streams w)
             (fold_left (fun m l => delete l m) ls (heap w))
             (heap_room w + Z.of_nat (length ls) * Z.of_nat n)
             (fold_left (fun u b => cleanup b u) (map (bytes_at (heap w)) ls)
                        (user w))
             (cleaned w ++ map (bytes_at (heap w)) ls)).
Proof.
  induction ls as [|l ls IH]; intros w Hnd Hlive.
  - simpl. unfold ret. f_equal. apply world_eq; simpl; try reflexivity.
    + lia.
    + symmetry. apply app_nil_r.
  - apply NoDup_cons in Hnd as [Hl Hnd].
    destruct (Hlive l) as (b & Hb & Hlen); [left|].
    cbn [AVS_LIST_CLEAR]. unfold bind, free. unfold call_cleanup at 1.
    cbn [heap]. rewrite Hb. cbn [default id].
    set (w1 := set_heap _ _ _).
    assert (Hsame : forall k, k ∈ ls -> heap w1 !! k = heap w !! k).
    { intros k Hk. subst w1. simpl. apply lookup_delete_ne.
      intros ->. contradiction. }
    rewrite (IH w1 Hnd).
    2: { intros k Hk. rewrite (Hsame k Hk). apply Hlive. right. exact Hk. }
    assert (Hmap : map (bytes_at (heap w1)) ls = map (bytes_at (heap w)) ls).
    { apply map_ext_in. intros k Hk. unfold bytes_at.
      rewrite Hsame by (apply list_elem_of_In; exact Hk). reflexivity. }
    rewrite Hmap.
    assert (Hbl : bytes_at (heap w) l = b)
      by (unfold bytes_at; rewrite Hb; reflexivity).
    cbn [map fold_left]. rewrite Hbl.
    f_equal. apply world_eq; simpl; try reflexivity.
    + lia.
    + rewrite <- app_assoc. reflexivity.
Qed.

Lemma handler_run_length handler c element_size k env good env1 :
  handler_run handler c element_size k env = (0, good, env1) ->
  length good = k.
Proof.
  revert env good. induction k as [|k IH]; intros env good; simpl.
  - intros [= <- _]. reflexivity.
  - destruct (handler c _ env) as [[r bytes] env'].
    destruct (Z.eqb_spec r 0) as [->|Hr].
    + destruct (handler_run handler c element_size k env') as [[r2 els] env2] eqn:Hk.
      intros [= -> <- ->]. simpl. f_equal. exact (IH _ _ Hk).
    + intros [= -> _ _]. contradiction.
Qed.

(** The run of [count] calls when the first [k < count] succeed and the next
    one fails. *)
Lemma handler_run_fails_after handler c element_size k count env good env1
    retval bytes env2 :
  (k < count)%nat ->
  handler_run handler c element_size k env = (0, good, env1) ->
  handler c (Some (replicate (Z.to_nat element_size) 0)) env1 =
    (retval, bytes, env2) ->
  retval <> 0 ->
  handler_run handler c element_size count env =
    (retval,
     good ++ [match bytes with
              | Some b => resize (Z.to_nat element_size) 0 b
              | None => replicate (Z.to_nat element_size) 0
              end],
     env2).
Proof.
  intros Hk Hgood Hcall Hret.
  replace count with (k + S (count - k - 1))%nat by lia.
  rewrite (handler_run_app handler c element_size k _ env good env1 Hgood).
  simpl. rewrite Hcall.
  destruct (Z.eqb_spec retval 0); [contradiction | reflexivity].
Qed.

(** Every block the loop allocated is live and has the element size. *)
Lemma allocated_live items h (n : nat) :
  NoDup items.*1 ->
  Forall (fun b => length b = n) items.*2 ->
  forall k, k ∈ items.*1 ->
    exists b, (list_to_map items ∪ h) !! k = Some b /\ length b = n.
Proof.
  intros Hnd Hsz k Hk.
  apply list_elem_of_fmap in Hk as ([k' b] & -> & Hin).
  exists b. split.
  - apply (lookup_allocated items h k' b Hnd Hin).
  - rewrite Forall_forall in Hsz. apply Hsz.
    apply list_elem_of_fmap. exists (k', b). split; [reflexivity | exact Hin].
Qed.

(** [restore_list] with a cleanup callback, when the handler succeeds on the
    first [k < N] elements and fails on the next one. *)
Lemma restore_list_cleans_up c w st N rest element_size handler
    cleanup (k : nat) good env1 retval bytes env2 :
  streams w !! stream_of c = Some st ->
  pending st = be_bytes 4 N ++ rest ->
  Z.of_nat k < N < 2 ^ 32 ->
  0 <= element_size ->
  (Z.of_nat k + 1) * element_size <= heap_room w ->
  handler_run handler c element_size k
    (<[stream_of c := Stream rest (room st)]> (streams w), user w) =
    (0, good, env1) ->
  handler c (Some (replicate (Z.to_nat element_size) 0)) env1 =
    (retval, bytes, env2) ->
  retval <> 0 ->
  let failed := match bytes with
                | Some b => resize (Z.to_nat element_size) 0 b
                | None => replicate (Z.to_nat element_size) 0
                end in
  restore_list host c [] element_size handler (Some cleanup) w =
    ((retval, []),
     World env2.1 (heap w) (heap_room w)
           (fold_left (fun u b => cleanup b u) (good ++ [failed]) env2.2)
           (cleaned w ++ good ++ [failed])).
Proof.
  intros Hs Hp HN Hsz Hroom Hgood Hcall Hret failed.
  unfold restore_list, bind.
  rewrite (restore_u32_prefix host c 0 N w st rest Hs Hp) by lia.
  change (0 =? 0) with true. cbv iota.
  set (w1 := set_streams _ w).
  pose proof (handler_run_fails_after handler c element_size k (Z.to_nat N) _
                good env1 retval bytes env2 ltac:(lia) Hgood Hcall Hret) as Hrun.
  fold failed in Hrun.
  pose proof (handler_run_length _ _ _ _ _ _ _ Hgood) as Hlen.
  destruct (restore_list_loop_run handler c element_size (Z.to_nat N) [] w1
              retval (good ++ [failed]) env2 Hrun Hsz)
    as (items & Hloop & Hels & Hnd & Hfresh).
  { rewrite length_app, Hlen. simpl. subst w1. simpl. lia. }
  change (length (@nil loc)) with 0%nat in Hloop. rewrite Hloop.
  destruct (Z.eqb_spec retval 0) as [|_]; [contradiction|].
  cbn [app].
  set (w2 := World _ _ _ _ _).
  pose proof (handler_run_sizes handler c element_size (Z.to_nat N)
                (streams w1, user w1)) as Hsizes.
  change (streams w1, user w1) with
    (<[stream_of c := Stream rest (room st)]> (streams w), user w) in Hsizes.
  rewrite Hrun in Hsizes. simpl in Hsizes. rewrite <- Hels in Hsizes.
  rewrite (list_clear_run cleanup (Z.to_nat element_size) items.*1 w2 Hnd).
  2: { subst w2. simpl. apply allocated_live; assumption. }
  unfold ret. f_equal. subst w2. simpl.
  rewrite (bytes_at_allocated items _ Hnd), Hels.
  apply world_eq; simpl; try reflexivity.
  - apply fold_delete_allocated; [tauto | exact Hfresh].
  - rewrite length_fmap.
    assert (length items = S k) as ->.
    { rewrite <- (length_fmap snd items), Hels, length_app, Hlen. simpl. lia. }
    rewrite length_app, Hlen. simpl. lia.
Qed.

(** C2. Restoring an ordered sequence of [N] elements through a restore
    context, with a cleanup callback, when the handler succeeds on the first
    [k < N] elements and fails on the next one (so for every [N >= 2] and
    every [k] from 1 to [N - 1]): the call returns the handler's failure
    status, the destination list is empty, the heap is what it was before the
    call, and the cleanup callback has been called, in order, on each of the
    [k] elements built before the failure and on the element the handler
    failed on. *)
Theorem restore_list_handler_failure this s w st N rest element_size handler
    cleanup (k : nat) good env1 retval bytes env2 :
  let ctx := INIT_RESTORE_CONTEXT this s in
  streams w !! s = Some st ->
  pending st = be_bytes 4 N ++ rest ->
  Z.of_nat k < N < 2 ^ 32 ->
  0 <= element_size ->
  (Z.of_nat k + 1) * element_size <= heap_room w ->
  handler_run handler ctx element_size k
    (<[s := Stream rest (room st)]> (streams w), user w) = (0, good, env1) ->
  handler ctx (Some (replicate (Z.to_nat element_size) 0)) env1 =
    (retval, bytes, env2) ->
  retval <> 0 ->
  let failed := match bytes with
                | Some b => resize (Z.to_nat element_size) 0 b
                | None => replicate (Z.to_nat element_size) 0
                end in
  avs_persistence_list host (Some ctx) [] element_size handler (Some cleanup) w =
    ((retval, []),
     World env2.1 (heap w) (heap_room w)
           (fold_left (fun u b => cleanup b u) (good ++ [failed]) env2.2)
           (cleaned w ++ good ++ [failed])).
Proof.
  intros ctx.
  exact (restore_list_cleans_up ctx w st N rest element_size handler cleanup k
           good env1 retval bytes env2).
Qed.

(** [k] successful iterations of the loop, then the rest of it. *)
Lemma restore_list_loop_app handler c element_size (k m : nat) :
  forall (insert_ptr : nat) (lst lst' : list loc) w w',
    restore_list_loop c element_size handler k insert_ptr lst w =
      ((0, lst'), w') ->
    restore_list_loop c element_size handler (k + m) insert_ptr lst w =
      restore_list_loop c element_size handler m (insert_ptr + k) lst' w'.
Proof.
  induction k as [|k IH]; intros insert_ptr lst lst' w w'.
  - simpl. unfold ret. intros [= <- <-]. rewrite Nat.add_0_r. reflexivity.
  - cbn [restore_list_loop Nat.add]. unfold bind.
    destruct (AVS_LIST_NEW_BUFFER element_size w) as [[e|] w1].
    + destruct (call_handler handler c (Some e) w1) as [r w2].
      destruct (Z.eqb_spec r 0) as [->|Hr].
      * intros Hk. rewrite (IH _ _ _ _ _ Hk). f_equal. unfold AVS_LIST_NEXT_PTR. lia.
      * unfold ret. intros [= -> _ _]. contradiction.
    + unfold ret. intros [=].
Qed.

(** [restore_list] with a null cleanup callback, when the handler succeeds on
    the first [k < N] elements and then either the handler or the allocator
    fails. *)
Lemma restore_list_keeps_elements c w st N rest element_size
    handler (k : nat) good env1 :
  streams w !! stream_of c = Some st ->
  pending st = be_bytes 4 N ++ rest ->
  Z.of_nat k < N < 2 ^ 32 ->
  0 <= element_size ->
  handler_run handler c element_size k
    (<[stream_of c := Stream rest (room st)]> (streams w), user w) =
    (0, good, env1) ->
  (forall retval bytes env2,
     handler c (Some (replicate (Z.to_nat element_size) 0)) env1 =
       (retval, bytes, env2) ->
     retval <> 0 ->
     (Z.of_nat k + 1) * element_size <= heap_room w ->
     let failed := match bytes with
                   | Some b => resize (Z.to_nat element_size) 0 b
                   | None => replicate (Z.to_nat element_size) 0
                   end in
     exists items,
       restore_list host c [] element_size handler None w =
         ((retval, items.*1),
          World env2.1 (list_to_map items ∪ heap w)
                (heap_room w - (Z.of_nat k + 1) * element_size)
                env2.2 (cleaned w))
       /\ items.*2 = good ++ [failed] /\ length items.*1 = S k
       /\ NoDup items.*1 /\ (forall l, l ∈ items.*1 -> heap w !! l = None))
  /\ (Z.of_nat k * element_size <= heap_room w < (Z.of_nat k + 1) * element_size ->
      exists items,
        restore_list host c [] element_size handler None w =
          ((-1, items.*1),
           World env1.1 (list_to_map items ∪ heap w)
                 (heap_room w - Z.of_nat k * element_size)
                 env1.2 (cleaned w))
        /\ items.*2 = good /\ length items.*1 = k
        /\ NoDup items.*1 /\ (forall l, l ∈ items.*1 -> heap w !! l = None)).
Proof.
  intros Hs Hp HN Hsz Hgood.
  pose proof (handler_run_length _ _ _ _ _ _ _ Hgood) as Hlen.
  split.
  - intros retval bytes env2 Hcall Hret Hroom failed.
    unfold restore_list, bind.
    rewrite (restore_u32_prefix host c 0 N w st rest Hs Hp) by lia.
    change (0 =? 0) with true. cbv iota.
    set (w1 := set_streams _ w).
    pose proof (handler_run_fails_after handler c element_size k (Z.to_nat N) _
                  good env1 retval bytes env2 ltac:(lia) Hgood Hcall Hret) as Hrun.
    fold failed in Hrun.
    destruct (restore_list_loop_run handler c element_size (Z.to_nat N) [] w1
                retval (good ++ [failed]) env2 Hrun Hsz)
      as (items & Hloop & Hels & Hnd & Hfresh).
    { rewrite length_app, Hlen. simpl. subst w1. simpl. lia. }
    change (length (@nil loc)) with 0%nat in Hloop. rewrite Hloop.
    destruct (Z.eqb_spec retval 0) as [|_]; [contradiction|].
    exists items. cbn [app]. unfold ret. split; [|repeat split; try assumption].
    + f_equal. apply world_eq; simpl; try reflexivity.
      rewrite length_app, Hlen. simpl. lia.
    + rewrite length_fmap, <- (length_fmap snd items), Hels, length_app, Hlen.
      simpl. lia.
  - intros Hroom.
    unfold restore_list, bind.
    rewrite (restore_u32_prefix host c 0 N w st rest Hs Hp) by lia.
    change (0 =? 0) with true. cbv iota.
    set (w1 := set_streams _ w).
    destruct (restore_list_loop_run handler c element_size k [] w1
                0 good env1 Hgood Hsz)
      as (items & Hloop & Hels & Hnd & Hfresh).
    { rewrite Hlen. subst w1. simpl. lia. }
    change (length (@nil loc)) with 0%nat in Hloop.
    replace (Z.to_nat N) with (k + S (Z.to_nat N - k - 1))%nat by lia.
    rewrite (restore_list_loop_app handler c element_size k _ _ _ _ _ _ Hloop).
    cbn [restore_list_loop]. unfold AVS_LIST_NEW_BUFFER, bind.
    rewrite malloc_failure by (simpl; rewrite Hlen; lia).
    unfold ret. cbn [Z.eqb].
    exists items. cbn [app]. split; [|repeat split; try assumption].
    + rewrite Hlen. reflexivity.
    + rewrite length_fmap, <- (length_fmap snd items), Hels. exact Hlen.
Qed.

(** C10. Restoring an ordered sequence of [N] elements through a restore
    context, with a null cleanup callback, when the handler succeeds on the
    first [k < N] elements.  If the handler then fails, the call returns its
    status and the destination list holds [k + 1] elements, the [k] built
    before the failure and the one the handler failed on, all still
    allocated.  If instead the allocator cannot serve element [k + 1], the
    call returns -1 and the destination list holds the [k] elements built so
    far, still allocated.  In both cases no element is passed to a cleanup
    callback or freed. *)
Theorem restore_list_null_cleanup_keeps_elements this s w st N rest
    element_size handler (k : nat) good env1 :
  let ctx := INIT_RESTORE_CONTEXT this s in
  streams w !! s = Some st ->
  pending st = be_bytes 4 N ++ rest ->
  Z.of_nat k < N < 2 ^ 32 ->
  0 <= element_size ->
  handler_run handler ctx element_size k
    (<[s := Stream rest (room st)]> (streams w), user w) = (0, good, env1) ->
  (forall retval bytes env2,
     handler ctx (Some (replicate (Z.to_nat element_size) 0)) env1 =
       (retval, bytes, env2) ->
     retval <> 0 ->
     (Z.of_nat k + 1) * element_size <= heap_room w ->
     let failed := match bytes with
                   | Some b => resize (Z.to_nat element_size) 0 b
                   | None => replicate (Z.to_nat element_size) 0
                   end in
     exists items,
       avs_persistence_list host (Some ctx) [] element_size handler None w =
         ((retval, items.*1),
          World env2.1 (list_to_map items ∪ heap w)
                (heap_room w - (Z.of_nat k + 1) * element_size)
                env2.2 (cleaned w))
       /\ items.*2 = good ++ [failed] /\ length items.*1 = S k
       /\ NoDup items.*1 /\ (forall l, l ∈ items.*1 -> heap w !! l = None))
  /\ (Z.of_nat k * element_size <= heap_room w < (Z.of_nat k + 1) * element_size ->
      exists items,
        avs_persistence_list host (Some ctx) [] element_size handler None w =
          ((-1, items.*1),
           World env1.1 (list_to_map items ∪ heap w)
                 (heap_room w - Z.of_nat k * element_size)
                 env1.2 (cleaned w))
        /\ items.*2 = good /\ length items.*1 = k
        /\ NoDup items.*1 /\ (forall l, l ∈ items.*1 -> heap w !! l = None)).
Proof.
  intros ctx.
  exact (restore_list_keeps_elements ctx w st N rest element_size handler k
           good env1).
Qed.

End ListRestore.

(** Three persisted elements 11 22 FF: the handler accepts two and fails on
    the third. *)
Lemma restore_list_handler_failure_witness :
  let w := Example.world_with [0; 0; 0; 3; 0x11; 0x22; 0xFF] in
  (streams w !! stream_of Example.restore_ctx =
     Some (Stream [0; 0; 0; 3; 0x11; 0x22; 0xFF] 64)
   /\ Z.of_nat 2 < 3 < 2 ^ 32
   /\ (Z.of_nat 2 + 1) * 1 <= heap_room w)
  /\ avs_persistence_list LittleEndian (Some Example.restore_ctx) [] 1
       Example.read_byte (Some Example.no_cleanup) w =
     ((-1, []),
      World {[ 0%nat := Stream [] 64 ]} ∅ 4096 tt [[0x11]; [0x22]; [0]]).
Proof.
  intros w.
  assert (H1 : streams w !! stream_of Example.restore_ctx =
               Some (Stream [0; 0; 0; 3; 0x11; 0x22; 0xFF] 64)) by reflexivity.
  assert (H2 : Z.of_nat 2 < 3 < 2 ^ 32) by lia.
  assert (H3 : (Z.of_nat 2 + 1) * 1 <= heap_room w) by (simpl; lia).
  split; [repeat split; assumption || lia|].
  unfold Example.restore_ctx.
  rewrite (restore_list_handler_failure LittleEndian 101%nat 0%nat w _ 3
             [0x11; 0x22; 0xFF] 1 Example.read_byte Example.no_cleanup 2
             [[0x11]; [0x22]] ({[ 0%nat := Stream [0xFF] 64 ]}, tt)
             (-1) (Some [0]) ({[ 0%nat := Stream [] 64 ]}, tt)
             H1 eq_refl H2 ltac:(lia) H3);
    [reflexivity | vm_compute; reflexivity | vm_compute; reflexivity | lia].
Defined.

(** The same three persisted elements and no cleanup callback. *)
Lemma restore_list_null_cleanup_keeps_elements_witness :
  let w := Example.world_with [0; 0; 0; 3; 0x11; 0x22; 0xFF] in
  (streams w !! stream_of Example.restore_ctx =
     Some (Stream [0; 0; 0; 3; 0x11; 0x22; 0xFF] 64)
   /\ Z.of_nat 2 < 3 < 2 ^ 32
   /\ (Z.of_nat 2 + 1) * 1 <= heap_room w)
  /\ exists items,
       avs_persistence_list LittleEndian (Some Example.restore_ctx) [] 1
         Example.read_byte None w =
         ((-1, items.*1),
          World {[ 0%nat := Stream [] 64 ]} (list_to_map items ∪ ∅)
                (4096 - (Z.of_nat 2 + 1) * 1) tt [])
       /\ items.*2 = [[0x11]; [0x22]; [0]] /\ length items.*1 = 3%nat.
Proof.
  intros w.
  assert (H1 : streams w !! stream_of Example.restore_ctx =
               Some (Stream [0; 0; 0; 3; 0x11; 0x22; 0xFF] 64)) by reflexivity.
  assert (H2 : Z.of_nat 2 < 3 < 2 ^ 32) by lia.
  assert (H3 : (Z.of_nat 2 + 1) * 1 <= heap_room w) by (simpl; lia).
  split; [repeat split; assumption || lia|].
  assert (H4 : handler_run Example.read_byte Example.restore_ctx 1 2
                 (<[stream_of Example.restore_ctx := Stream [0x11; 0x22; 0xFF] 64]>
                    (streams w), user w) =
               (0, [[0x11]; [0x22]], ({[ 0%nat := Stream [0xFF] 64 ]}, tt)))
    by (vm_compute; reflexivity).
  assert (H5 : Example.read_byte Example.restore_ctx
                 (Some (replicate (Z.to_nat 1) 0))
                 ({[ 0%nat := Stream [0xFF] 64 ]}, tt) =
               (-1, Some [0], ({[ 0%nat := Stream [] 64 ]}, tt)))
    by (vm_compute; reflexivity).
  destruct (proj1 (restore_list_null_cleanup_keeps_elements LittleEndian
                     101%nat 0%nat w _ 3 [0x11; 0x22; 0xFF] 1
                     Example.read_byte 2 [[0x11]; [0x22]]
                     ({[ 0%nat := Stream [0xFF] 64 ]}, tt)
                     H1 eq_refl H2 ltac:(lia) H4)
              (-1) (Some [0]) ({[ 0%nat := Stream [] 64 ]}, tt)
              H5 ltac:(lia) H3)
    as (items & Hrun & Hels & Hlen & _).
  exists items. repeat split; assumption.
Defined.

(** Allocation failure: the allocator has room for two one-byte elements out
    of three, and both stay in the list. *)
Example out_of_memory_keeps_built_elements :
  avs_persistence_list LittleEndian (Some Example.restore_ctx) [] 1
    Example.read_byte None
    (Example.world_with_heap [0; 0; 0; 3; 0x11; 0x22; 0x33] 2) =
  ((-1, [0%nat; 1%nat]),
   World {[ 0%nat := Stream [0x33] 64 ]}
         {[ 0%nat := [0x11]; 1%nat := [0x22] ]} 0 tt []).
Proof. vm_compute. reflexivity. Qed.

Section CollectionStore.

Context {U : Type}.
Variable host : byte_order.
Implicit Types (w : world U) (l : loc) (c : avs_persistence_context_t).
Implicit Types (handler : avs_persistence_handler_collection_element_t (U := U)).

Lemma persist_foreach_app handler c (good rest : list loc) w w2 :
  persist_foreach c handler good w = (0, w2) ->
  persist_foreach c handler (good ++ rest) w = persist_foreach c handler rest w2.
Proof.
  revert w. induction good as [|e good IH]; intros w; simpl.
  - unfold ret. intros [= <-]. reflexivity.
  - unfold bind. destruct (call_handler handler c (Some e) w) as [r w1].
    destruct (Z.eqb_spec r 0) as [->|Hr].
    + apply IH.
    + unfold ret. intros [= -> _]. contradiction.
Qed.

(** [persist_list] and [persist_tree] when the handler succeeds on the first
    [k < N] elements and fails on the next one. *)
Lemma persist_aborts_at_failure c w st (good later : list loc)
    (bad : loc) element_size handler cleanup cmp w2 retval w3
    st2 st3 encodings partial :
  let lst := good ++ bad :: later in
  let N := Z.of_nat (length lst) in
  let w1 := set_streams
              <[stream_of c := Stream (pending st ++ be_bytes 4 N)
                                      (room st - 4)]> w in
  streams w !! stream_of c = Some st ->
  4 <= room st ->
  N < 2 ^ 32 ->
  persist_foreach c handler good w1 = (0, w2) ->
  call_handler handler c (Some bad) w2 = (retval, w3) ->
  retval <> 0 ->
  streams w2 !! stream_of c = Some st2 ->
  pending st2 = pending st ++ be_bytes 4 N ++ encodings ->
  streams w3 !! stream_of c = Some st3 ->
  pending st3 = pending st2 ++ partial ->
  persist_list host c lst element_size handler cleanup w = ((retval, lst), w3)
  /\ persist_tree host c (RBTree cmp lst) element_size handler cleanup w =
       ((retval, RBTree cmp lst), w3)
  /\ pending st3 = pending st ++ be_bytes 4 N ++ encodings ++ partial.
Proof.
  intros lst N w1 Hs Hroom HN Hgood Hbad Hret Hs2 Hp2 Hs3 Hp3.
  assert (Hcast : cast_unsigned 32 N = N).
  { unfold cast_unsigned. apply Z.mod_small. subst N. lia. }
  assert (Hloop : persist_foreach c handler lst w1 = (retval, w3)).
  { subst lst. rewrite (persist_foreach_app handler c good _ w1 w2 Hgood).
    simpl. unfold bind. rewrite Hbad.
    destruct (Z.eqb_spec retval 0); [contradiction | reflexivity]. }
  split; [|split].
  - unfold persist_list, AVS_LIST_SIZE. fold N. rewrite Hcast, Z.eqb_refl.
    cbn [negb]. unfold bind.
    rewrite (persist_u32_ok host c N w st Hs Hroom). fold w1.
    change (0 =? 0) with true. cbv beta iota. rewrite Hloop. reflexivity.
  - unfold persist_tree, AVS_RBTREE_SIZE. cbn [rb_elems]. fold N.
    rewrite Hcast, Z.eqb_refl. cbn [negb]. unfold bind.
    rewrite (persist_u32_ok host c N w st Hs Hroom). fold w1.
    change (0 =? 0) with true. cbv beta iota. rewrite Hloop. reflexivity.
  - rewrite Hp3, Hp2, <- !app_assoc. reflexivity.
Qed.

(** C8 (as amended). Storing a collection of [N] elements through a store
    context when the handler succeeds on the first [k < N] elements and fails
    on the next one: the call returns the handler's failure status and leaves
    the world exactly as that failing call left it.  So the stream holds the
    full 32-bit count [N], the encodings of the [k] elements, and whatever
    the failing call itself wrote before it failed; the handler is not called
    on the later elements and the count is left as written.  The same holds
    for the ordered sequence and for the sorted collection. *)
Theorem persist_collection_handler_failure this s w st (good later : list loc)
    (bad : loc) element_size handler cleanup cmp w2 retval w3
    st2 st3 encodings partial :
  let ctx := INIT_STORE_CONTEXT this s in
  let lst := good ++ bad :: later in
  let N := Z.of_nat (length lst) in
  let w1 := set_streams
              <[s := Stream (pending st ++ be_bytes 4 N) (room st - 4)]> w in
  streams w !! s = Some st ->
  4 <= room st ->
  N < 2 ^ 32 ->
  persist_foreach ctx handler good w1 = (0, w2) ->
  call_handler handler ctx (Some bad) w2 = (retval, w3) ->
  retval <> 0 ->
  streams w2 !! s = Some st2 ->
  pending st2 = pending st ++ be_bytes 4 N ++ encodings ->
  streams w3 !! s = Some st3 ->
  pending st3 = pending st2 ++ partial ->
  avs_persistence_list host (Some ctx) lst element_size handler cleanup w =
    ((retval, lst), w3)
  /\ avs_persistence_tree host (Some ctx) (RBTree cmp lst) element_size handler
       cleanup w = ((retval, RBTree cmp lst), w3)
  /\ pending st3 = pending st ++ be_bytes 4 N ++ encodings ++ partial.
Proof.
  intros ctx.
  exact (persist_aborts_at_failure ctx w st good later bad element_size
           handler cleanup cmp w2 retval w3 st2 st3 encodings partial).
Qed.

End CollectionStore.

(** Two elements, 0x11 and 0xEE: the handler writes 0x11 and succeeds, then
    writes 0xEE and fails. *)
Lemma persist_collection_handler_failure_witness :
  let w := Example.world_two_elements in
  (streams w !! stream_of Example.store_ctx = Some (Stream [] 64)
   /\ 4 <= 64 /\ Z.of_nat (length [0%nat; 1%nat]) < 2 ^ 32)
  /\ avs_persistence_list LittleEndian (Some Example.store_ctx)
       [0%nat; 1%nat] 1 Example.write_byte None w =
     ((-1, [0%nat; 1%nat]),
      set_streams <[0%nat := Stream [0; 0; 0; 2; 0x11; 0xEE] 58]> w).
Proof.
  intros w.
  assert (H1 : streams w !! stream_of Example.store_ctx = Some (Stream [] 64))
    by reflexivity.
  assert (H2 : 4 <= 64) by lia.
  assert (H3 : Z.of_nat (length [0%nat; 1%nat]) < 2 ^ 32) by (simpl; lia).
  split; [repeat split; assumption || lia|].
  refine (proj1 (persist_collection_handler_failure LittleEndian
                   100%nat 0%nat w (Stream [] 64) [0%nat] [] 1%nat 1
                   Example.write_byte None (fun _ _ => 0)
                   (set_streams <[0%nat := Stream [0; 0; 0; 2; 0x11] 59]> w)
                   (-1)
                   (set_streams <[0%nat := Stream [0; 0; 0; 2; 0x11; 0xEE] 58]> w)
                   (Stream [0; 0; 0; 2; 0x11] 59)
                   (Stream [0; 0; 0; 2; 0x11; 0xEE] 58) [0x11] [0xEE]
                   H1 H2 H3 _ _ _ _ _ _ _));
    try (vm_compute; reflexivity); lia.
Defined.

(** The stream after the failed store holds more than the count and the one
    successful element encoding: the byte 0xEE of the failing call is there. *)
Lemma persist_list_partial_element_counterexample :
  let result := avs_persistence_list LittleEndian (Some Example.store_ctx)
                  [0%nat; 1%nat] 1 Example.write_byte None
                  Example.world_two_elements in
  result.1 = (-1, [0%nat; 1%nat])
  /\ pending <$> (streams result.2 !! 0%nat) = Some [0; 0; 0; 2; 0x11; 0xEE]
  /\ pending <$> (streams result.2 !! 0%nat) <> Some ([0; 0; 0; 2] ++ [0x11]).
Proof. vm_compute. repeat split; discriminate. Qed.

(** ** Restoring a sorted unique collection *)

Section TreeRestore.

Context {U : Type}.
Variable host : byte_order.
Implicit Types (w : world U) (l : loc) (c : avs_persistence_context_t).
Implicit Types (h : gmap loc (list Z)) (items : list (loc * list Z)).
Implicit Types (handler : avs_persistence_handler_collection_element_t (U := U)).
Implicit Types (cleanup : avs_persistence_cleanup_collection_element_t (U := U)).
Implicit Types (cmp : list Z -> list Z -> Z).

Lemma insert_sorted_perm h cmp e (elems : list loc) :
  insert_sorted h cmp e elems ≡ₚ e :: elems.
Proof.
  induction elems as [|x elems IH]; simpl; [reflexivity|].
  destruct (_ <? 0); [reflexivity|].
  rewrite IH. apply perm_swap.
Qed.

Lemma distinct_keys_perm cmp (elements seen seen' : list (list Z)) :
  seen ≡ₚ seen' ->
  distinct_keys cmp seen elements -> distinct_keys cmp seen' elements.
Proof.
  revert seen seen'. induction elements as [|e rest IH]; intros seen seen' Hp;
    simpl; [tauto|].
  intros [Hseen Hrest]. split.
  - rewrite <- Hp. exact Hseen.
  - apply (IH (e :: seen)); [apply perm_skip, Hp | exact Hrest].
Qed.

Lemma distinct_keys_no_duplicate cmp (elements seen : list (list Z)) :
  distinct_keys cmp seen elements -> ~ has_duplicate_key cmp elements.
Proof.
  revert seen. induction elements as [|e rest IH]; intros seen Hd.
  - intros (i & j & a & b & _ & Hi & _). rewrite lookup_nil in Hi. discriminate.
  - destruct Hd as [_ Hrest].
    intros (i & j & a & b & Hij & Hi & Hj & Hcmp).
    destruct j as [|j]; [lia|]. simpl in Hj.
    destruct i as [|i].
    + simpl in Hi. injection Hi as ->.
      (* b, a later element, has the key of the head *)
      clear IH. revert j seen Hrest Hj Hij.
      induction rest as [|e' rest IH']; intros j seen Hrest Hj Hij.
      * rewrite lookup_nil in Hj. discriminate.
      * destruct Hrest as [Hseen Hrest]. destruct j as [|j].
        -- simpl in Hj. injection Hj as ->.
           rewrite Forall_forall in Hseen. apply (Hseen a); [left | exact Hcmp].
        -- simpl in Hj. apply (IH' j (e' :: seen)); [|exact Hj|lia].
           apply (distinct_keys_perm cmp rest (e' :: a :: seen)); [|exact Hrest].
           apply perm_swap.
    + simpl in Hi. apply (IH _ Hrest). exists i, j, a, b.
      split; [lia | tauto].
Qed.

(** The failed element of [restore_tree], after [cleanup] and
    [AVS_RBTREE_ELEM_DELETE_DETACHED]: the heap is back to what it was before
    the element was allocated. *)
Lemma discard_element cleanup l w (block : list Z) h0 element_size :
  0 <= element_size ->
  h0 !! l = None ->
  heap w = <[l := block]> h0 ->
  length block = Z.to_nat element_size ->
  exists w',
    (tree_cleanup (Some cleanup) l ;; AVS_RBTREE_ELEM_DELETE_DETACHED l) w =
      (tt, w')
    /\ heap w' = h0 /\ heap_room w' = heap_room w + element_size
    /\ streams w' = streams w.
Proof.
  intros Hsz Hl Hheap Hlen.
  unfold bind, tree_cleanup, call_cleanup, AVS_RBTREE_ELEM_DELETE_DETACHED, free.
  cbn [heap]. rewrite Hheap, lookup_insert_eq.
  eexists. split; [reflexivity|]. simpl. repeat split.
  - apply delete_insert_id, Hl.
  - lia.
Qed.

(** The loop of [restore_tree], from any tree whose elements are live: the
    tree grows by the elements that were inserted, which are the only new
    blocks on the heap; and when the loop succeeds, every one of the [count]
    elements was decoded and inserted, so no two of them, and none of them
    and an element already in the tree, have equal keys. *)
Lemma restore_tree_loop_inv handler c element_size cleanup cmp count :
  0 <= element_size ->
  forall (ts : list loc) w,
    (forall x, x ∈ ts -> is_Some (heap w !! x)) ->
    exists retval elems' items w',
      restore_tree_loop c element_size handler (Some cleanup) count
        (RBTree cmp ts) w = ((retval, RBTree cmp elems'), w')
      /\ elems' ≡ₚ ts ++ items.*1
      /\ heap w' = list_to_map items ∪ heap w
      /\ heap_room w' = heap_room w - Z.of_nat (length items) * element_size
      /\ NoDup items.*1
      /\ (forall k, k ∈ items.*1 -> heap w !! k = None)
      /\ Forall (fun b => length b = Z.to_nat element_size) items.*2
      /\ (retval = 0 ->
          handler_run handler c element_size count (streams w, user w) =
            (0, items.*2, (streams w', user w'))
          /\ distinct_keys cmp (map (bytes_at (heap w)) ts) items.*2).
Proof.
  intros Hsz. induction count as [|count IH]; intros ts w Hlive.
  - exists 0, ts, [], w. simpl. unfold ret.
    rewrite app_nil_r, (left_id_L ∅ (∪)).
    repeat split; try reflexivity; try constructor; try lia.
    intros k Hk. inversion Hk.
  - cbn [restore_tree_loop]. unfold AVS_RBTREE_ELEM_NEW_BUFFER, bind.
    destruct (Z_le_gt_dec element_size (heap_room w)) as [Hroom|Hroom].
    2: { rewrite malloc_failure by lia.
         exists (-1), ts, [], w. simpl. unfold ret.
         rewrite app_nil_r, (left_id_L ∅ (∪)).
         repeat split; try reflexivity; try constructor; try lia.
         intros k Hk. inversion Hk. }
    rewrite (malloc_success element_size w Hroom).
    set (l := fresh (dom (heap w))).
    assert (Hl : heap w !! l = None) by apply fresh_heap_None.
    assert (Hlts : l ∉ ts).
    { intros Hin. destruct (Hlive l Hin) as [b Hb]. congruence. }
    set (zero := replicate (Z.to_nat element_size) 0).
    set (w1 := set_heap _ _ w).
    rewrite (call_handler_live handler c l w1 zero)
      by (subst w1; simpl; apply lookup_insert_eq).
    change (streams w1) with (streams w). change (user w1) with (user w).
    cbn [handler_run]. fold zero.
    destruct (handler c (Some zero) (streams w, user w))
      as [[r bytes] [ss1 u1]] eqn:Hcall.
    assert (Hlen0 : length zero = Z.to_nat element_size)
      by apply length_replicate.
    rewrite Hlen0.
    set (element := match bytes with
                    | Some b => resize (Z.to_nat element_size) 0 b
                    | None => zero
                    end).
    assert (Hellen : length element = Z.to_nat element_size).
    { subst element. destruct bytes; [apply length_resize | exact Hlen0]. }
    set (w2 := World _ _ _ _ _).
    assert (Hheap2 : heap w2 = <[l := element]> (heap w)).
    { subst w2 w1. simpl. apply insert_insert_eq. }
    assert (Hroom2 : heap_room w2 = heap_room w - element_size).
    { subst w2 w1. simpl. lia. }
    assert (Hsame : forall x, x ∈ ts ->
                      bytes_at (heap w2) x = bytes_at (heap w) x).
    { intros x Hx. unfold bytes_at. rewrite Hheap2, lookup_insert_ne; [reflexivity|].
      intros <-. contradiction. }
    assert (Hdiscard : forall r',
              r' <> 0 ->
              exists retval elems' items w',
                (tree_cleanup (Some cleanup) l ;;
                 AVS_RBTREE_ELEM_DELETE_DETACHED l ;;
                 ret (r', RBTree cmp ts)) w2 =
                  ((retval, RBTree cmp elems'), w')
                /\ elems' ≡ₚ ts ++ items.*1
                /\ heap w' = list_to_map items ∪ heap w
                /\ heap_room w' =
                     heap_room w - Z.of_nat (length items) * element_size
                /\ NoDup items.*1
                /\ (forall k, k ∈ items.*1 -> heap w !! k = None)
                /\ Forall (fun b => length b = Z.to_nat element_size) items.*2
                /\ (retval = 0 ->
                    (if r =? 0
                     then let '(retval0, elements, env2) :=
                            handler_run handler c element_size count (ss1, u1) in
                          (retval0, element :: elements, env2)
                     else (r, [element], (ss1, u1))) =
                      (0, items.*2, (streams w', user w'))
                    /\ distinct_keys cmp (map (bytes_at (heap w)) ts) items.*2)).
    { intros r' Hr'.
      destruct (discard_element cleanup l w2 element (heap w) element_size
                  Hsz Hl Hheap2 Hellen) as (w' & Hrun & Hh & Hr & _).
      exists r', ts, [], w'. split.
      - unfold bind in *. destruct (tree_cleanup (Some cleanup) l w2) as [[] w3].
        destruct (AVS_RBTREE_ELEM_DELETE_DETACHED l w3) as [[] w4].
        injection Hrun as ->. reflexivity.
      - simpl. rewrite app_nil_r, (left_id_L ∅ (∪)).
        split; [reflexivity|]. split; [exact Hh|]. split; [lia|].
        split; [constructor|]. split; [intros k Hk; inversion Hk|].
        split; [constructor|]. intros Hz. contradiction. }
    unfold bind, ret in Hdiscard. unfold bind, ret.
    destruct (Z.eqb_spec r 0) as [->|Hr].
    2: { cbv beta iota. destruct (Z.eqb_spec r 0) as [|_]; [contradiction|].
         cbn [negb]. apply Hdiscard. exact Hr. }
    unfold AVS_RBTREE_INSERT at 1. cbn [rb_elems rb_cmp].
    destruct (find _ ts) as [existing|] eqn:Hfind.
    + apply find_some in Hfind as [Hin _].
      apply list_elem_of_In in Hin.
      assert (Hne : Nat.eqb existing l = false).
      { apply Nat.eqb_neq. intros ->. contradiction. }
      rewrite Hne. cbn [negb]. cbv beta iota. cbn [Z.eqb negb].
      apply Hdiscard. lia.
    + rewrite Nat.eqb_refl. cbn [negb]. cbv beta iota.
      change (0 =? 0) with true. cbn [negb].
      set (ts2 := insert_sorted (heap w2) cmp l ts).
      assert (Hperm2 : ts2 ≡ₚ l :: ts) by apply insert_sorted_perm.
      destruct (IH ts2 w2) as (retval & elems' & items & w' & Hloop & Hperm
                                & Hheap & Hroom' & Hnd & Hfresh & Hsizes & Hok).
      { intros x Hx. rewrite Hperm2 in Hx. rewrite Hheap2.
        apply elem_of_cons in Hx as [->|Hx].
        - rewrite lookup_insert_eq. eauto.
        - rewrite lookup_insert_ne by (intros <-; contradiction).
          apply Hlive, Hx. }
      assert (Hlnot : l ∉ items.*1).
      { intros Hin. specialize (Hfresh l Hin). rewrite Hheap2 in Hfresh.
        rewrite lookup_insert_eq in Hfresh. discriminate. }
      exists retval, elems', ((l, element) :: items), w'.
      split; [exact Hloop|]. rewrite !fmap_cons. cbn [fst snd].
      split; [|split; [|split; [|split; [|split; [|split]]]]].
      * rewrite Hperm, Hperm2. simpl.
        rewrite (Permutation_middle ts (items.*1) l). reflexivity.
      * rewrite Hheap, Hheap2. apply allocated_cons. exact Hlnot.
      * rewrite Hroom', Hroom2. simpl length. lia.
      * constructor; assumption.
      * intros k Hk. apply elem_of_cons in Hk as [->|Hk]; [exact Hl|].
        specialize (Hfresh k Hk). rewrite Hheap2 in Hfresh.
        destruct (decide (l = k)) as [<-|Hne]; [exact Hl|].
        rewrite lookup_insert_ne in Hfresh by exact Hne. exact Hfresh.
      * constructor; assumption.
      * intros Hret. destruct (Hok Hret) as [Hrun Hdist].
        change (streams w2, user w2) with (ss1, u1) in Hrun. rewrite Hrun.
        split; [reflexivity|]. simpl. split.
        -- apply Forall_forall. intros x Hx.
           apply list_elem_of_fmap in Hx as (y & -> & Hy).
           pose proof (find_none _ _ Hfind y) as Hnone.
           rewrite <- (Hsame y Hy).
           assert (Hel : bytes_at (heap w2) l = element).
           { unfold bytes_at. rewrite Hheap2, lookup_insert_eq. reflexivity. }
           rewrite Hel in Hnone. cbv beta in Hnone.
           apply Z.eqb_neq, Hnone. apply list_elem_of_In, Hy.
        -- apply (distinct_keys_perm cmp _ (map (bytes_at (heap w2)) ts2));
             [|exact Hdist].
           rewrite Hperm2. cbn [map]. apply Permutation_cons.
           ++ unfold bytes_at. rewrite Hheap2, lookup_insert_eq. reflexivity.
           ++ apply Permutation_refl'. apply map_ext_in. intros x Hx.
              apply Hsame, list_elem_of_In, Hx.
Qed.

(** [restore_tree], from an empty tree and with a cleanup callback, when two
    of the [N] persisted elements have equal keys. *)
Lemma restore_tree_rejects_duplicate c w st N rest element_size handler cleanup
    cmp status elements env :
  streams w !! stream_of c = Some st ->
  pending st = be_bytes 4 N ++ rest ->
  0 <= N < 2 ^ 32 ->
  0 <= element_size ->
  handler_run handler c element_size (Z.to_nat N)
    (<[stream_of c := Stream rest (room st)]> (streams w), user w) =
    (status, elements, env) ->
  has_duplicate_key cmp elements ->
  exists retval tree' w',
    restore_tree host c (RBTree cmp []) element_size handler (Some cleanup) w =
      ((retval, tree'), w')
    /\ retval <> 0
    /\ AVS_RBTREE_SIZE tree' = 0
    /\ heap w' = heap w /\ heap_room w' = heap_room w.
Proof.
  intros Hs Hp HN Hsz Hrun Hdup.
  unfold restore_tree, bind.
  rewrite (restore_u32_prefix host c 0 N w st rest Hs Hp HN).
  change (0 =? 0) with true. cbv iota.
  set (w1 := set_streams _ w).
  destruct (restore_tree_loop_inv handler c element_size cleanup cmp
              (Z.to_nat N) Hsz [] w1)
    as (retval & elems' & items & w2 & Hloop & Hperm & Hheap & Hroom & Hnd
        & Hfresh & Hsizes & Hok).
  { intros x Hx. inversion Hx. }
  rewrite Hloop. cbn [app] in Hperm.
  destruct (Z.eqb_spec retval 0) as [Hz|Hnz].
  - exfalso. destruct (Hok Hz) as [Hrun' Hdist].
    change (streams w1, user w1) with
      (<[stream_of c := Stream rest (room st)]> (streams w), user w) in Hrun'.
    rewrite Hrun in Hrun'. injection Hrun' as _ -> _.
    exact (distinct_keys_no_duplicate cmp _ _ Hdist Hdup).
  - cbn [negb]. unfold AVS_RBTREE_CLEAR, bind. cbn [rb_elems rb_cmp].
    change (tree_cleanup (Some cleanup)) with (call_cleanup cleanup).
    assert (Hnd' : NoDup elems') by (rewrite Hperm; exact Hnd).
    rewrite (list_clear_run cleanup (Z.to_nat element_size) elems' w2 Hnd').
    2: { intros k Hk. rewrite Hperm in Hk. rewrite Hheap.
         apply allocated_live; assumption. }
    unfold ret. eexists _, _, _. split; [reflexivity|].
    split; [exact Hnz|]. split; [reflexivity|]. simpl. split.
    + rewrite Hheap. apply fold_delete_allocated.
      * intros k Hk. rewrite Hperm. exact Hk.
      * intros k Hk. rewrite Hperm in Hk. apply (Hfresh k Hk).
    + rewrite Hroom, Hperm, length_fmap. subst w1. simpl. lia.
Qed.

(** C3. Restoring a sorted unique collection through a restore context, from
    an empty tree and with a cleanup callback, when two of the [N] persisted
    elements, as the handler decodes them, have equal keys: the call fails
    and the tree it leaves has size 0; every block allocated during the call
    has been freed. *)
Theorem restore_tree_duplicate_key this s w st N rest element_size handler
    cleanup cmp status elements env :
  let ctx := INIT_RESTORE_CONTEXT this s in
  streams w !! s = Some st ->
  pending st = be_bytes 4 N ++ rest ->
  0 <= N < 2 ^ 32 ->
  0 <= element_size ->
  handler_run handler ctx element_size (Z.to_nat N)
    (<[s := Stream rest (room st)]> (streams w), user w) =
    (status, elements, env) ->
  has_duplicate_key cmp elements ->
  exists retval tree' w',
    avs_persistence_tree host (Some ctx) (RBTree cmp []) element_size handler
      (Some cleanup) w = ((retval, tree'), w')
    /\ retval <> 0
    /\ AVS_RBTREE_SIZE tree' = 0
    /\ heap w' = heap w /\ heap_room w' = heap_room w.
Proof.
  intros ctx.
  exact (restore_tree_rejects_duplicate ctx w st N rest element_size handler
           cleanup cmp status elements env).
Qed.

End TreeRestore.

(** Three persisted elements 22 11 22: the third has the key of the first. *)
Lemma restore_tree_duplicate_key_witness :
  let w := Example.world_with [0; 0; 0; 3; 0x22; 0x11; 0x22] in
  (streams w !! stream_of Example.restore_ctx =
     Some (Stream [0; 0; 0; 3; 0x22; 0x11; 0x22] 64)
   /\ 0 <= 3 < 2 ^ 32
   /\ has_duplicate_key Example.byte_cmp [[0x22]; [0x11]; [0x22]])
  /\ exists retval tree' w',
       avs_persistence_tree LittleEndian (Some Example.restore_ctx)
         (RBTree Example.byte_cmp []) 1 Example.read_byte
         (Some Example.no_cleanup) w = ((retval, tree'), w')
       /\ retval <> 0
       /\ AVS_RBTREE_SIZE tree' = 0
       /\ heap w' = heap w /\ heap_room w' = heap_room w.
Proof.
  intros w.
  assert (H1 : streams w !! stream_of Example.restore_ctx =
               Some (Stream [0; 0; 0; 3; 0x22; 0x11; 0x22] 64)) by reflexivity.
  assert (H2 : 0 <= 3 < 2 ^ 32) by lia.
  assert (H3 : has_duplicate_key Example.byte_cmp [[0x22]; [0x11]; [0x22]]).
  { exists 0%nat, 2%nat, [0x22], [0x22]. repeat split. lia. }
  assert (H4 : handler_run Example.read_byte Example.restore_ctx 1 (Z.to_nat 3)
                 (<[stream_of Example.restore_ctx := Stream [0x22; 0x11; 0x22] 64]>
                    (streams w), user w) =
               (0, [[0x22]; [0x11]; [0x22]], ({[ 0%nat := Stream [] 64 ]}, tt)))
    by (vm_compute; reflexivity).
  split; [repeat split; assumption || lia|].
  exact (restore_tree_duplicate_key LittleEndian 101%nat 0%nat w _ 3
           [0x22; 0x11; 0x22] 1 Example.read_byte Example.no_cleanup
           Example.byte_cmp 0 _ _ H1 eq_refl H2 ltac:(lia) H4 H3).
Defined.

(** The same restore, evaluated: it returns -1, the tree is empty, the heap
    is empty again, and the cleanup callback saw the rejected element and
    then the two elements that had been inserted, in key order. *)
Example duplicate_key_restore_run :
  avs_persistence_tree LittleEndian (Some Example.restore_ctx)
    (RBTree Example.byte_cmp []) 1 Example.read_byte (Some Example.no_cleanup)
    (Example.world_with [0; 0; 0; 3; 0x22; 0x11; 0x22]) =
  ((-1, RBTree Example.byte_cmp []),
   World {[ 0%nat := Stream [] 64 ]} ∅ 4096 tt [[0x22]; [0x11]; [0x22]]).
Proof. vm_compute. reflexivity. Qed.

(** ** Ignore mode *)

Section IgnoreFacts.

Context {U : Type}.
Variable host : byte_order.
Implicit Types (w : world U) (st : stream) (c : avs_persistence_context_t).

Lemma ignore_bytes_loop_done c n w :
  n <= 0 -> ignore_bytes_loop c n w = (0, w).
Proof.
  intros Hn. rewrite ignore_bytes_loop_equation_1.
  destruct (Z_lt_dec 0 n); [lia | reflexivity].
Qed.

Lemma ignore_bytes_loop_step c n w :
  0 < n ->
  ignore_bytes_loop c n w =
    (let chunk := if n <? 512 then n else 512 in
     let '(retval, _, w') :=
       avs_stream_read_reliably (stream_of c) (replicate 512 0) chunk w in
     if retval =? 0 then ignore_bytes_loop c (n - chunk) w' else (retval, w')).
Proof.
  intros Hn. rewrite ignore_bytes_loop_equation_1.
  destruct (Z_lt_dec 0 n); [|lia]. simpl.
  unfold PERSISTENCE_IGNORE_BYTES_BUFSIZE.
  destruct (avs_stream_read_reliably _ _ _ w) as [[r b] w']. reflexivity.
Qed.

Lemma set_streams_insert_id s st w :
  streams w !! s = Some st -> set_streams <[s := st]> w = w.
Proof.
  intros Hs. destruct w. unfold set_streams. simpl in *.
  rewrite insert_id by exact Hs. reflexivity.
Qed.

(** Skipping [n] bytes that are there consumes exactly those bytes, however
    many scratch-buffer chunks it takes. *)
Lemma ignore_bytes_loop_ok c (m : nat) :
  forall data rest w st,
    length data = m ->
    streams w !! stream_of c = Some st ->
    pending st = data ++ rest ->
    ignore_bytes_loop c (Z.of_nat (length data)) w =
      (0, set_streams <[stream_of c := Stream rest (room st)]> w).
Proof.
  induction m as [m IH] using lt_wf_ind. intros data rest w st Hm Hs Hp.
  destruct (decide (m = 0%nat)) as [->|Hpos].
  - destruct data; [|discriminate]. simpl in *.
    rewrite ignore_bytes_loop_done by lia.
    rewrite set_streams_insert_id; [reflexivity|].
    rewrite Hs. destruct st. simpl in *. subst. reflexivity.
  - rewrite ignore_bytes_loop_step by lia. cbv zeta.
    set (chunk := if Z.of_nat (length data) <? 512
                  then Z.of_nat (length data) else 512).
    assert (Hchunk : 0 < chunk <= Z.of_nat (length data)).
    { subst chunk. destruct (Z.ltb_spec (Z.of_nat (length data)) 512); lia. }
    assert (Hsplit : pending st =
                     take (Z.to_nat chunk) data ++
                     (drop (Z.to_nat chunk) data ++ rest)).
    { rewrite app_assoc, take_drop. exact Hp. }
    rewrite (read_success (stream_of c) _ chunk w st _ _ Hs Hsplit)
      by (rewrite length_take; lia).
    change (0 =? 0) with true. cbv iota.
    set (w1 := set_streams _ w).
    replace (Z.of_nat (length data) - chunk)
      with (Z.of_nat (length (drop (Z.to_nat chunk) data)))
      by (rewrite length_drop; lia).
    rewrite (IH (length (drop (Z.to_nat chunk) data))
               ltac:(rewrite length_drop; lia)
               (drop (Z.to_nat chunk) data) rest w1
               (Stream (drop (Z.to_nat chunk) data ++ rest) (room st))
               eq_refl).
    + subst w1. rewrite set_streams_insert_insert. reflexivity.
    + subst w1. rewrite streams_set_streams. apply lookup_insert_eq.
    + reflexivity.
Qed.

Lemma ignore_fixed c (n : nat) w st bs rest :
  streams w !! stream_of c = Some st -> pending st = bs ++ rest ->
  length bs = n ->
  avs_stream_read_reliably (stream_of c) (replicate n 0) (Z.of_nat n) w =
    ((0, bs), set_streams <[stream_of c := Stream rest (room st)]> w).
Proof. apply read_be. Qed.

(** Ignore mode on a stored scalar: the bytes of its width are consumed and
    the destination is handed back untouched. *)
Lemma scalar_ignore_ok ty v out this s w st rest :
  scalar_value ty out ->
  streams w !! s = Some st ->
  pending st = be_bytes (scalar_width ty) v ++ rest ->
  avs_persistence_scalar host ty (Some (INIT_IGNORE_CONTEXT this s)) out w =
    ((0, out), set_streams <[s := Stream rest (room st)]> w).
Proof.
  intros Hout Hs Hp.
  pose proof (be_bytes_length (scalar_width ty) v) as Hlen.
  set (c := INIT_IGNORE_CONTEXT this s).
  change s with (stream_of c) in Hs |- *.
  pose proof (ignore_fixed c (scalar_width ty) w st _ rest Hs Hp Hlen) as Hread.
  pose proof (ignore_bytes_loop_ok c (scalar_width ty) _ rest w st Hlen Hs Hp)
    as Hskip.
  rewrite Hlen in Hskip.
  destruct ty; unfold scalar_value in Hout; simpl in Hout;
    unfold avs_persistence_scalar, avs_persistence_u8, avs_persistence_i8,
      avs_persistence_i16, avs_persistence_i32, avs_persistence_i64,
      avs_persistence_u16, avs_persistence_u32, avs_persistence_u64,
      avs_persistence_bool, avs_persistence_float, avs_persistence_double;
    cbn [c INIT_IGNORE_CONTEXT handle_bytes handle_u16 handle_u32
         handle_u64 handle_bool handle_float handle_double call_bytes
         call_u16 call_u32 call_u64 call_bool call_float call_double
         scalar_width] in *;
    fold c;
    unfold ignore_bytes, ignore_u16, ignore_u32, ignore_u64, ignore_bool,
      ignore_float, ignore_double, bind, ret; norm_width;
    try (rewrite Hskip); try (rewrite Hread); cbn [hd]; try reflexivity.
  - rewrite (to_signed_cast 8) by lia. reflexivity.
  - rewrite (to_signed_cast 16) by lia. reflexivity.
  - rewrite (to_signed_cast 32) by lia. reflexivity.
  - rewrite (to_signed_cast 64) by lia. reflexivity.
  - change [0] with (replicate 1 0). rewrite Hread. reflexivity.
Qed.

Implicit Types (handler : avs_persistence_handler_collection_element_t (U := U)).

(** Raw bytes. *)
Lemma bytes_ignore_ok this this' s w st data rest buffer :
  streams w !! s = Some st ->
  pending st = data ++ rest ->
  avs_persistence_bytes (Some (INIT_IGNORE_CONTEXT this s)) buffer
    (Z.of_nat (length data)) w =
    ((0, buffer), set_streams <[s := Stream rest (room st)]> w)
  /\ avs_persistence_bytes (Some (INIT_RESTORE_CONTEXT this' s)) buffer
       (Z.of_nat (length data)) w =
       ((0, data ++ drop (length data) buffer),
        set_streams <[s := Stream rest (room st)]> w).
Proof.
  intros Hs Hp. split.
  - unfold avs_persistence_bytes. cbn [INIT_IGNORE_CONTEXT handle_bytes call_bytes].
    unfold ignore_bytes, bind, ret.
    rewrite (ignore_bytes_loop_ok (INIT_IGNORE_CONTEXT this s) (length data)
               data rest w st eq_refl Hs Hp).
    reflexivity.
  - unfold avs_persistence_bytes.
    cbn [INIT_RESTORE_CONTEXT handle_bytes call_bytes]. unfold restore_bytes.
    apply (read_success s buffer _ w st data rest Hs Hp eq_refl).
Qed.

(** Sized buffers: skipping one consumes the length and the body. *)
Lemma ignore_sized_buffer_ok c w st len body rest data size :
  streams w !! stream_of c = Some st ->
  pending st = be_bytes 4 len ++ body ++ rest ->
  Z.of_nat (length body) = len -> 0 <= len < 2 ^ 32 ->
  ignore_sized_buffer host c data size w =
    ((0, data, size), set_streams <[stream_of c := Stream rest (room st)]> w).
Proof.
  intros Hs Hp Hlen Hrange. unfold ignore_sized_buffer, bind.
  rewrite (restore_u32_prefix host c 0 len w st (body ++ rest) Hs Hp Hrange).
  change (0 =? 0) with true. cbv iota.
  set (w1 := set_streams _ w). unfold ignore_bytes, bind, ret.
  rewrite <- Hlen.
  rewrite (ignore_bytes_loop_ok c (length body) body rest w1
             (Stream (body ++ rest) (room st)) eq_refl).
  - subst w1. rewrite set_streams_insert_insert. reflexivity.
  - subst w1. rewrite streams_set_streams. apply lookup_insert_eq.
  - reflexivity.
Qed.

(** Restoring an empty sized buffer consumes the length alone. *)
Lemma restore_sized_buffer_empty c w st rest :
  streams w !! stream_of c = Some st ->
  pending st = be_bytes 4 0 ++ rest ->
  restore_sized_buffer host c None 0 w =
    ((0, None, 0), set_streams <[stream_of c := Stream rest (room st)]> w).
Proof.
  intros Hs Hp. unfold restore_sized_buffer, bind.
  rewrite (restore_u32_prefix host c 0 0 w st rest Hs Hp) by lia.
  reflexivity.
Qed.

(** Restoring a stored sized buffer, whatever its length. *)
Lemma restore_sized_buffer_streams c w st len body rest :
  streams w !! stream_of c = Some st ->
  pending st = be_bytes 4 len ++ body ++ rest ->
  Z.of_nat (length body) = len -> 0 <= len < 2 ^ 32 ->
  len <= heap_room w ->
  exists ptr w',
    restore_sized_buffer host c None 0 w = ((0, ptr, len), w')
    /\ streams w' = <[stream_of c := Stream rest (room st)]> (streams w)
    /\ (0 < len -> ptr = Some (fresh (dom (heap w)))
                   /\ heap w' = <[fresh (dom (heap w)) := body]> (heap w)).
Proof.
  intros Hs Hp Hlen Hrange Hroom.
  destruct (Z.eq_dec len 0) as [->|Hpos].
  - destruct body; [|simpl in Hlen; lia]. simpl in Hp.
    rewrite (restore_sized_buffer_empty c w st rest Hs Hp).
    eexists _, _. split; [reflexivity|]. split; [reflexivity|]. lia.
  - rewrite (restore_sized_buffer_ok host c w st len body rest Hs Hp Hlen)
      by lia.
    eexists _, _. split; [reflexivity|]. split; [reflexivity|].
    intros _. split; reflexivity.
Qed.

(** Restoring a stored string: like the sized buffer, the terminator being
    in place. *)
Lemma restore_string_streams c w st len body rest :
  streams w !! stream_of c = Some st ->
  pending st = be_bytes 4 len ++ body ++ rest ->
  Z.of_nat (length body) = len -> 0 <= len < 2 ^ 32 ->
  (0 < len -> nth (Z.to_nat (len - 1)) body 0 = 0) ->
  len <= heap_room w ->
  exists ptr w',
    restore_string host c None w = ((0, ptr), w')
    /\ streams w' = <[stream_of c := Stream rest (room st)]> (streams w).
Proof.
  intros Hs Hp Hlen Hrange Hnul Hroom. unfold restore_string, bind.
  destruct (restore_sized_buffer_streams c w st len body rest Hs Hp Hlen
              Hrange Hroom) as (ptr & w' & Hrun & Hstreams & Hptr).
  rewrite Hrun. change (0 =? 0) with true. cbn [negb].
  unfold load. destruct (Z.ltb_spec 0 len) as [Hpos|Hzero].
  - destruct (Hptr Hpos) as [-> Hheap]. cbn [mbind option_bind].
    rewrite Hheap, lookup_insert_eq. cbn [default id].
    rewrite (Hnul Hpos). change (0 =? 0) with true. cbn [negb andb].
    eexists _, _. split; [reflexivity | exact Hstreams].
  - cbn [andb]. eexists _, _. split; [reflexivity | exact Hstreams].
Qed.

Lemma ignore_collection_loop_run handler ic rc element_size count :
  skips_like_restore handler ic rc ->
  forall w retval elements env,
    handler_run handler rc element_size count (streams w, user w) =
      (retval, elements, env) ->
    ignore_collection_loop ic handler count 0 w =
      (retval, World env.1 (heap w) (heap_room w) env.2 (cleaned w)).
Proof.
  intros Hskip. induction count as [|count IH]; intros w retval elements env.
  - simpl. unfold ret. intros [= <- _ <-]. destruct w; reflexivity.
  - cbn [ignore_collection_loop handler_run]. change (0 =? 0) with true.
    cbv iota. unfold bind, call_handler. cbn [mbind option_bind].
    destruct (Hskip (replicate (Z.to_nat element_size) 0) (streams w, user w))
      as [Hstatus Henv].
    destruct (handler ic None (streams w, user w)) as [[r1 b1] [ss1 u1]].
    destruct (handler rc _ (streams w, user w)) as [[r2 b2] env2].
    simpl in Hstatus, Henv. subst r2 env2.
    destruct (Z.eqb_spec r1 0) as [->|Hr].
    + destruct (handler_run handler rc element_size count (ss1, u1))
        as [[r3 els] env3] eqn:Hrest.
      intros [= <- _ <-].
      rewrite (IH (World ss1 (heap w) (heap_room w) u1 (cleaned w)) r3 els env3 Hrest).
      reflexivity.
    + intros [= <- _ <-]. destruct count; simpl.
      * destruct (Z.eqb_spec r1 0); [contradiction | reflexivity].
      * destruct (Z.eqb_spec r1 0); [contradiction | reflexivity].
Qed.

(** C5. Ignore mode over stored bytes, against restore mode over the same
    bytes.  For every scalar type, for raw bytes, for a sized buffer, for a
    string and, when the element handler skips as it restores, for both
    collection shapes: the ignore operation succeeds, hands every destination
    argument back as it was, leaves the heap and the allocator untouched, and
    leaves every stream exactly as the restore operation leaves it, so the
    two consume the same bytes. *)
Theorem ignore_consumes_like_restore this this' s w st
    ty v out rest data buffer len body dptr size string
    N handler element_size lst tree cleanup elements env cmp cl :
  let ictx := INIT_IGNORE_CONTEXT this s in
  let rctx := INIT_RESTORE_CONTEXT this' s in
  let consumed := set_streams <[s := Stream rest (room st)]> w in
  streams w !! s = Some st ->
  (scalar_value ty v -> scalar_value ty out ->
   pending st = be_bytes (scalar_width ty) v ++ rest ->
   avs_persistence_scalar host ty (Some ictx) out w = ((0, out), consumed)
   /\ avs_persistence_scalar host ty (Some rctx) out w = ((0, v), consumed))
  /\ (pending st = data ++ rest ->
      avs_persistence_bytes (Some ictx) buffer (Z.of_nat (length data)) w =
        ((0, buffer), consumed)
      /\ avs_persistence_bytes (Some rctx) buffer (Z.of_nat (length data)) w =
           ((0, data ++ drop (length data) buffer), consumed))
  /\ (pending st = be_bytes 4 len ++ body ++ rest ->
      Z.of_nat (length body) = len -> 0 <= len < 2 ^ 32 ->
      avs_persistence_sized_buffer host (Some ictx) dptr size w =
        ((0, dptr, size), consumed)
      /\ (len <= heap_room w ->
          exists ptr w',
            avs_persistence_sized_buffer host (Some rctx) None 0 w =
              ((0, ptr, len), w')
            /\ streams w' = streams consumed)
      /\ ((0 < len -> nth (Z.to_nat (len - 1)) body 0 = 0) ->
          avs_persistence_string host (Some ictx) string w =
            ((0, string), consumed)
          /\ (len <= heap_room w ->
              exists ptr w',
                avs_persistence_string host (Some rctx) None w = ((0, ptr), w')
                /\ streams w' = streams consumed)))
  /\ (skips_like_restore handler ictx rctx ->
      pending st = be_bytes 4 N ++ rest -> 0 <= N < 2 ^ 32 ->
      0 <= element_size ->
      handler_run handler rctx element_size (Z.to_nat N)
        (streams consumed, user w) = (0, elements, env) ->
      let skipped := World env.1 (heap w) (heap_room w) env.2 (cleaned w) in
      avs_persistence_list host (Some ictx) lst element_size handler cleanup w =
        ((0, lst), skipped)
      /\ avs_persistence_tree host (Some ictx) tree element_size handler
           cleanup w = ((0, tree), skipped)
      /\ (N * element_size <= heap_room w ->
          exists lst' w',
            avs_persistence_list host (Some rctx) [] element_size handler
              cleanup w = ((0, lst'), w')
            /\ streams w' = streams skipped)
      /\ (forall tree' w',
            avs_persistence_tree host (Some rctx) (RBTree cmp []) element_size
              handler (Some cl) w = ((0, tree'), w') ->
            streams w' = streams skipped)
      /\ heap skipped = heap w /\ heap_room skipped = heap_room w)
  /\ heap consumed = heap w /\ heap_room consumed = heap_room w.
Proof.
  intros ictx rctx consumed Hs.
  split; [|split; [|split; [|split; [|split; reflexivity]]]].
  - intros Hv Hout Hp. split.
    + exact (scalar_ignore_ok ty v out this s w st rest Hout Hs Hp).
    + exact (scalar_restore_ok host ty v this' s w st rest out Hv Hs Hp).
  - intros Hp. exact (bytes_ignore_ok this this' s w st data rest buffer Hs Hp).
  - intros Hp Hlen Hrange. split; [|split].
    + exact (ignore_sized_buffer_ok ictx w st len body rest dptr size
               Hs Hp Hlen Hrange).
    + intros Hroom.
      destruct (restore_sized_buffer_streams rctx w st len body rest
                  Hs Hp Hlen Hrange Hroom) as (ptr & w' & Hrun & Hst & _).
      exists ptr, w'. split; assumption.
    + intros Hnul. split.
      * unfold avs_persistence_string.
        cbn [ictx INIT_IGNORE_CONTEXT handle_string call_string].
        unfold ignore_string, bind, ret.
        rewrite (ignore_sized_buffer_ok ictx w st len body rest None 0
                   Hs Hp Hlen Hrange).
        reflexivity.
      * intros Hroom.
        exact (restore_string_streams rctx w st len body rest
                 Hs Hp Hlen Hrange Hnul Hroom).
  - intros Hskip Hp HN Hsz Hrun skipped.
    assert (Hcount : restore_u32 host ictx 0 w = ((0, N), consumed)
                     /\ restore_u32 host rctx 0 w = ((0, N), consumed)).
    { split.
      - exact (restore_u32_prefix host ictx 0 N w st rest Hs Hp HN).
      - exact (restore_u32_prefix host rctx 0 N w st rest Hs Hp HN). }
    destruct Hcount as [Hcount_i Hcount_r].
    assert (Hignore : ignore_collection host ictx handler w = (0, skipped)).
    { unfold ignore_collection, bind. rewrite Hcount_i.
      exact (ignore_collection_loop_run handler ictx rctx element_size
               (Z.to_nat N) Hskip consumed 0 elements env Hrun). }
    split; [|split; [|split; [|split; [|split; reflexivity]]]].
    + unfold avs_persistence_list.
      cbn [ictx INIT_IGNORE_CONTEXT handle_list call_list].
      unfold ignore_list, bind, ret. rewrite Hignore. reflexivity.
    + unfold avs_persistence_tree.
      cbn [ictx INIT_IGNORE_CONTEXT handle_tree call_tree].
      unfold ignore_tree, bind, ret. rewrite Hignore. reflexivity.
    + intros Hroom.
      pose proof (handler_run_length _ _ _ _ _ _ _ Hrun) as Hlen.
      destruct (restore_list_loop_run handler rctx element_size (Z.to_nat N)
                  [] consumed 0 elements env Hrun Hsz)
        as (items & Hloop & _).
      { rewrite Hlen. subst consumed. simpl. lia. }
      unfold avs_persistence_list.
      cbn [rctx INIT_RESTORE_CONTEXT handle_list call_list].
      unfold restore_list, bind. rewrite Hcount_r.
      change (0 =? 0) with true. cbv iota.
      change (length (@nil loc)) with 0%nat in Hloop. rewrite Hloop.
      change (0 =? 0) with true. cbv iota.
      eexists _, _. split; [reflexivity | reflexivity].
    + intros tree' w'. unfold avs_persistence_tree.
      cbn [rctx INIT_RESTORE_CONTEXT handle_tree call_tree].
      unfold restore_tree, bind. rewrite Hcount_r.
      change (0 =? 0) with true. cbv iota.
      destruct (restore_tree_loop_inv handler rctx element_size cl cmp
                  (Z.to_nat N) Hsz [] consumed)
        as (retval & elems' & items & w2 & Hloop & _ & _ & _ & _ & _ & _ & Hok).
      { intros x Hx. inversion Hx. }
      rewrite Hloop.
      destruct (Z.eqb_spec retval 0) as [Hz|Hnz].
      * cbn [negb]. unfold ret. intros [= _ _ <-].
        destruct (Hok Hz) as [Hrun' _].
        change (user consumed) with (user w) in Hrun'. rewrite Hrun in Hrun'.
        injection Hrun' as _ ->. reflexivity.
      * cbn [negb]. unfold ret.
        destruct (AVS_RBTREE_CLEAR _ _ w2) as [t3 w3].
        intros [= Hbad _ _]. contradiction.
Qed.

End IgnoreFacts.

(** The example handler reads its byte whether or not it is given an
    element. *)
Lemma read_byte_skips_like_restore :
  skips_like_restore Example.read_byte Example.ignore_ctx Example.restore_ctx.
Proof.
  intros element [ss u]. unfold Example.read_byte.
  cbn [Example.ignore_ctx Example.restore_ctx INIT_IGNORE_CONTEXT
       INIT_RESTORE_CONTEXT stream_of fst snd].
  repeat case_match; split; reflexivity.
Qed.

(** The stored string "AB" (length 3 with its NUL) followed by one more byte,
    and a stored sequence of the two elements 11 22 followed by one more
    byte: ignore mode and restore mode both leave that byte on the stream. *)
Lemma ignore_consumes_like_restore_witness :
  let w := Example.world_with [0; 0; 0; 3; 0x41; 0x42; 0; 0x99] in
  let w2 := Example.world_with [0; 0; 0; 2; 0x11; 0x22; 0x99] in
  let after := set_streams <[0%nat := Stream [0x99] 64]> w in
  (streams w !! 0%nat = Some (Stream [0; 0; 0; 3; 0x41; 0x42; 0; 0x99] 64)
   /\ streams w2 !! 0%nat = Some (Stream [0; 0; 0; 2; 0x11; 0x22; 0x99] 64))
  /\ avs_persistence_string LittleEndian (Some Example.ignore_ctx) None w =
       ((0, None), after)
  /\ (exists ptr w',
        avs_persistence_string LittleEndian (Some Example.restore_ctx) None w =
          ((0, ptr), w')
        /\ streams w' = streams after)
  /\ avs_persistence_list LittleEndian (Some Example.ignore_ctx) [] 1
       Example.read_byte None w2 =
       ((0, []), World {[ 0%nat := Stream [0x99] 64 ]} ∅ 4096 tt [])
  /\ (exists lst' w',
        avs_persistence_list LittleEndian (Some Example.restore_ctx) [] 1
          Example.read_byte None w2 = ((0, lst'), w')
        /\ streams w' = {[ 0%nat := Stream [0x99] 64 ]}).
Proof.
  intros w w2 after.
  assert (H1 : streams w !! 0%nat =
               Some (Stream [0; 0; 0; 3; 0x41; 0x42; 0; 0x99] 64))
    by reflexivity.
  assert (H2 : streams w2 !! 0%nat =
               Some (Stream [0; 0; 0; 2; 0x11; 0x22; 0x99] 64))
    by reflexivity.
  split; [split; assumption|].
  destruct (ignore_consumes_like_restore LittleEndian 102%nat 101%nat 0%nat w _
              T_u8 0 0 [0x99] [] [] 3 [0x41; 0x42; 0] None 0 None
              0 Example.read_byte 1 [] (RBTree Example.byte_cmp []) None []
              (∅, tt) Example.byte_cmp Example.no_cleanup H1)
    as (_ & _ & Hbuffer & _).
  destruct (Hbuffer eq_refl eq_refl ltac:(lia)) as (_ & _ & Hstring).
  destruct (Hstring (fun _ => eq_refl)) as [Hignore Hrestore].
  split; [exact Hignore|].
  split; [apply Hrestore; simpl; lia|].
  assert (H3 : handler_run Example.read_byte (INIT_RESTORE_CONTEXT 101%nat 0%nat) 1
                 (Z.to_nat 2)
                 (streams (set_streams
                             <[0%nat := Stream [0x11; 0x22; 0x99] 64]> w2),
                  user w2) =
               (0, [[0x11]; [0x22]], ({[ 0%nat := Stream [0x99] 64 ]}, tt)))
    by (vm_compute; reflexivity).
  destruct (ignore_consumes_like_restore LittleEndian 102%nat 101%nat 0%nat w2 _
              T_u8 0 0 [0x11; 0x22; 0x99] [] [] 0 [] None 0 None
              2 Example.read_byte 1 [] (RBTree Example.byte_cmp []) None
              [[0x11]; [0x22]] ({[ 0%nat := Stream [0x99] 64 ]}, tt)
              Example.byte_cmp Example.no_cleanup H2)
    as (_ & _ & _ & Hcoll & _).
  destruct (Hcoll read_byte_skips_like_restore eq_refl ltac:(lia) ltac:(lia) H3)
    as (Hlist & _ & Hrlist & _).
  split; [exact Hlist|].
  apply Hrlist. simpl. lia.
Defined.

(** * Further properties of the engine *)

(** ** Sized buffers and strings, stored and restored *)

Section SizedBufferRoundTrip.

Context {U : Type}.
Variable host : byte_order.
Implicit Types (w : world U) (st : stream) (l : loc).

(** Storing [size] bytes, a size that fits in 32 bits, from a block, when the
    stream has room for the length and the bytes. *)
Lemma persist_sized_buffer_ok c l w st block size :
  streams w !! stream_of c = Some st ->
  heap w !! l = Some block ->
  0 < size < 2 ^ 32 ->
  4 + size <= room st ->
  persist_sized_buffer host c (Some l) size w =
    ((0, Some l, size),
     set_streams
       <[stream_of c := Stream (pending st ++ be_bytes 4 size
                                ++ take (Z.to_nat size) block)
                               (room st - 4 - size)]> w).
Proof.
  intros Hs Hl Hsize Hroom.
  unfold persist_sized_buffer, bind, cast_unsigned.
  rewrite Z.mod_small by lia.
  rewrite (persist_u32_ok host c _ w st Hs) by lia.
  change (0 =? 0) with true. cbn [andb].
  destruct (Z.ltb_spec 0 size) as [_|]; [|lia].
  set (w1 := set_streams _ w).
  unfold load, persist_bytes, bind, ret. cbn [mbind option_bind].
  change (heap w1) with (heap w). rewrite Hl. cbn [default id].
  rewrite (write_success (stream_of c) block size w1
             (Stream (pending st ++ be_bytes 4 size) (room st - 4))).
  - subst w1. rewrite set_streams_insert_insert. cbn [pending room].
    rewrite <- app_assoc. reflexivity.
  - subst w1. rewrite streams_set_streams. apply lookup_insert_eq.
  - cbn [room]. lia.
Qed.

(** A read of more bytes than the stream holds fails, having drained the
    stream into the front of the buffer. *)
Lemma read_short s buffer n w st :
  streams w !! s = Some st ->
  Z.of_nat (length (pending st)) < n ->
  avs_stream_read_reliably s buffer n w =
    ((-1, pending st ++ drop (length (pending st)) buffer),
     set_streams <[s := Stream [] (room st)]> w).
Proof.
  intros Hs Hn. unfold avs_stream_read_reliably. rewrite Hs.
  assert (Hlen : (length (pending st) <= Z.to_nat n)%nat) by lia.
  rewrite (take_ge _ _ Hlen), (drop_ge _ _ Hlen).
  destruct (decide _); [lia | reflexivity].
Qed.

(** A write of more bytes than the stream has room for fails and writes
    nothing. *)
Lemma persist_u32_full c v w st :
  streams w !! stream_of c = Some st -> room st < 4 ->
  persist_u32 host c v w = ((-1, v), w).
Proof.
  intros Hs Hroom. unfold persist_u32, bind.
  rewrite (write_full (stream_of c) _ 4 w st Hs Hroom). reflexivity.
Qed.

(** Storing a size of zero writes the length alone; the data pointer is
    not looked at. *)
Lemma persist_sized_buffer_empty c data w st :
  streams w !! stream_of c = Some st ->
  4 <= room st ->
  persist_sized_buffer host c data 0 w =
    ((0, data, 0),
     set_streams <[stream_of c := Stream (pending st ++ [0; 0; 0; 0])
                                         (room st - 4)]> w).
Proof.
  intros Hs Hroom. unfold persist_sized_buffer, bind, cast_unsigned.
  change (0 mod 2 ^ 32) with 0.
  rewrite (persist_u32_ok host c 0 w st Hs Hroom). reflexivity.
Qed.

(** Restoring from a stream that holds a zero length and nothing else. *)
Lemma restore_stored_empty c w st :
  streams w !! stream_of c = Some st ->
  pending st = [] ->
  restore_sized_buffer host c None 0
    (set_streams <[stream_of c := Stream (pending st ++ [0; 0; 0; 0])
                                         (room st - 4)]> w) =
    ((0, None, 0), set_streams <[stream_of c := Stream [] (room st - 4)]> w).
Proof.
  intros Hs Hp.
  rewrite (restore_sized_buffer_empty host c _
             (Stream [0; 0; 0; 0] (room st - 4)) []).
  - cbn [room]. f_equal. apply set_streams_insert_insert.
  - simpl. rewrite Hp. apply lookup_insert_eq.
  - reflexivity.
Qed.

(** X1. A sized buffer of 1 to 2^32 - 1 bytes round-trips: the store
    operation writes the 32-bit big-endian length and then the bytes, leaving
    the caller's pointer and size as they were; the restore operation, run on
    what was written, returns a fresh block holding the same bytes and the
    same size, and leaves the stream empty. *)
Theorem sized_buffer_round_trip this this' s w st l block :
  let size := Z.of_nat (length block) in
  let stored := set_streams
                  <[s := Stream (pending st ++ be_bytes 4 size ++ block)
                                (room st - 4 - size)]> w in
  streams w !! s = Some st ->
  heap w !! l = Some block ->
  0 < size < 2 ^ 32 ->
  4 + size <= room st ->
  avs_persistence_sized_buffer host (Some (INIT_STORE_CONTEXT this s))
    (Some l) size w = ((0, Some l, size), stored)
  /\ (pending st = [] -> size <= heap_room w ->
      let l' := fresh (dom (heap w)) in
      l' <> l
      /\ avs_persistence_sized_buffer host (Some (INIT_RESTORE_CONTEXT this' s))
           None 0 stored =
           ((0, Some l', size),
            World (<[s := Stream [] (room st - 4 - size)]> (streams w))
                  (<[l' := block]> (heap w))
                  (heap_room w - size) (user w) (cleaned w))).
Proof.
  intros size stored Hs Hl Hsize Hroom. split.
  - unfold avs_persistence_sized_buffer.
    cbn [INIT_STORE_CONTEXT handle_sized_buffer call_sized_buffer].
    rewrite (persist_sized_buffer_ok (INIT_STORE_CONTEXT this s) l w st block
               size Hs Hl Hsize Hroom).
    subst size. rewrite Nat2Z.id, firstn_all. reflexivity.
  - intros Hp Hheap l'. split.
    + intros Heq. pose proof (fresh_heap_None w) as Hf. fold l' in Hf.
      rewrite Heq, Hl in Hf. discriminate.
    + unfold avs_persistence_sized_buffer.
      cbn [INIT_RESTORE_CONTEXT handle_sized_buffer call_sized_buffer].
      rewrite (restore_sized_buffer_ok host (INIT_RESTORE_CONTEXT this' s) stored
                 (Stream (be_bytes 4 size ++ block) (room st - 4 - size))
                 size block []).
      * subst stored. simpl. rewrite insert_insert_eq. reflexivity.
      * subst stored. simpl. rewrite Hp. apply lookup_insert_eq.
      * cbn [pending]. rewrite app_nil_r. reflexivity.
      * reflexivity.
      * exact Hsize.
      * exact Hheap.
Qed.

(** X2. The empty sized buffer: the store operation writes the four zero
    bytes of the length and nothing else, whatever the data pointer is; the
    restore operation, run on them, returns a null pointer and size 0 and
    allocates nothing. *)
Theorem empty_sized_buffer_round_trip this this' s w st data :
  let stored := set_streams
                  <[s := Stream (pending st ++ [0; 0; 0; 0]) (room st - 4)]> w in
  streams w !! s = Some st ->
  4 <= room st ->
  avs_persistence_sized_buffer host (Some (INIT_STORE_CONTEXT this s))
    data 0 w = ((0, data, 0), stored)
  /\ (pending st = [] ->
      avs_persistence_sized_buffer host (Some (INIT_RESTORE_CONTEXT this' s))
        None 0 stored =
        ((0, None, 0), set_streams <[s := Stream [] (room st - 4)]> w)).
Proof.
  intros stored Hs Hroom. split.
  - exact (persist_sized_buffer_empty (INIT_STORE_CONTEXT this s) data w st
             Hs Hroom).
  - exact (restore_stored_empty (INIT_RESTORE_CONTEXT this' s) w st Hs).
Qed.

(** X3. A sized buffer that does not fit on the stream: when the stream has
    room for the length but not for the bytes, the store operation fails
    after the length has gone out, and the length stays on the stream; when
    it has no room for the length either, nothing is written. *)
Theorem persist_sized_buffer_no_room this s w st l block size :
  streams w !! s = Some st ->
  heap w !! l = Some block ->
  0 < size < 2 ^ 32 ->
  room st < 4 + size ->
  avs_persistence_sized_buffer host (Some (INIT_STORE_CONTEXT this s))
    (Some l) size w =
    ((-1, Some l, size),
     if decide (4 <= room st)
     then set_streams <[s := Stream (pending st ++ be_bytes 4 size)
                                    (room st - 4)]> w
     else w).
Proof.
  intros Hs Hl Hsize Hroom.
  unfold avs_persistence_sized_buffer.
  cbn [INIT_STORE_CONTEXT handle_sized_buffer call_sized_buffer].
  set (c := INIT_STORE_CONTEXT this s).
  unfold persist_sized_buffer, bind, cast_unsigned.
  rewrite Z.mod_small by lia.
  destruct (decide (4 <= room st)) as [Hfour|Hfour].
  - rewrite (persist_u32_ok host c _ w st Hs Hfour).
    change (0 =? 0) with true. cbn [andb].
    destruct (Z.ltb_spec 0 size) as [_|]; [|lia].
    set (w1 := set_streams _ w).
    unfold load, persist_bytes, bind, ret. cbn [mbind option_bind].
    rewrite (write_full (stream_of c) _ size w1
               (Stream (pending st ++ be_bytes 4 size) (room st - 4))).
    + reflexivity.
    + subst w1. rewrite streams_set_streams. apply lookup_insert_eq.
    + cbn [room]. lia.
  - rewrite (persist_u32_full c _ w st Hs) by lia. reflexivity.
Qed.

(** X4. A persisted sized buffer, or string, whose bytes stop short of the
    declared length: the restore operation fails, returns a null pointer and
    leaves the size at 0, and the block it had allocated for the bytes has
    been freed. *)
Theorem restore_sized_buffer_truncated this s w st len body :
  let ctx := Some (INIT_RESTORE_CONTEXT this s) in
  streams w !! s = Some st ->
  pending st = be_bytes 4 len ++ body ->
  Z.of_nat (length body) < len < 2 ^ 32 ->
  len <= heap_room w ->
  exists w',
    avs_persistence_sized_buffer host ctx None 0 w = ((-1, None, 0), w')
    /\ avs_persistence_string host ctx None w = ((-1, None), w')
    /\ heap w' = heap w /\ heap_room w' = heap_room w.
Proof.
  intros ctx Hs Hp Hlen Hroom.
  set (drained := set_streams <[s := Stream [] (room st)]> w).
  set (c := INIT_RESTORE_CONTEXT this s).
  assert (Hrun : restore_sized_buffer host c None 0 w = ((-1, None, 0), drained)).
  { unfold restore_sized_buffer, bind.
    rewrite (restore_u32_prefix host c 0 len w st body Hs Hp) by lia.
    change (0 =? 0) with true. cbn [negb].
    destruct (Z.eqb_spec len 0) as [|_]; [lia|].
    set (w1 := set_streams _ w).
    rewrite (malloc_success len w1) by exact Hroom.
    set (l := fresh (dom (heap w1))).
    set (w2 := set_heap _ _ w1).
    unfold load, restore_bytes, store, ret. cbn [mbind option_bind].
    assert (Hl : heap w2 !! l = Some (replicate (Z.to_nat len) 0)).
    { subst w2. simpl. apply lookup_insert_eq. }
    rewrite Hl. cbn [default id].
    assert (Hs2 : streams w2 !! stream_of c = Some (Stream body (room st))).
    { subst w2 w1. simpl. apply lookup_insert_eq. }
    rewrite (read_short (stream_of c) _ len w2 _ Hs2) by (cbn [pending]; lia).
    cbn [pending room Z.eqb negb]. unfold free. cbn [heap].
    rewrite lookup_insert_eq. f_equal.
    apply world_eq; subst drained w2 w1 l; simpl.
    - apply insert_insert_eq.
    - rewrite insert_insert_eq. apply delete_insert_id, fresh_heap_None.
    - rewrite length_app, length_drop, length_replicate. lia.
    - reflexivity.
    - reflexivity. }
  exists drained. split; [exact Hrun|]. split; [|split; reflexivity].
  unfold ctx, avs_persistence_string.
  cbn [INIT_RESTORE_CONTEXT handle_string call_string]. fold c.
  unfold restore_string, bind. rewrite Hrun. reflexivity.
Qed.

(** X5. A persisted sized buffer, or string, that the allocator cannot
    serve: the restore operation fails with -1 and a null pointer, nothing is
    allocated, and only the four bytes of the length have been consumed: the
    bytes of the buffer are still on the stream. *)
Theorem restore_sized_buffer_out_of_memory this s w st len rest :
  let ctx := Some (INIT_RESTORE_CONTEXT this s) in
  let after := set_streams <[s := Stream rest (room st)]> w in
  streams w !! s = Some st ->
  pending st = be_bytes 4 len ++ rest ->
  0 < len < 2 ^ 32 ->
  heap_room w < len ->
  avs_persistence_sized_buffer host ctx None 0 w = ((-1, None, 0), after)
  /\ avs_persistence_string host ctx None w = ((-1, None), after).
Proof.
  intros ctx after Hs Hp Hlen Hroom.
  set (c := INIT_RESTORE_CONTEXT this s).
  pose proof (restore_sized_buffer_oom host c w st len rest Hs Hp Hlen Hroom)
    as Hrun.
  split.
  - exact Hrun.
  - unfold ctx, avs_persistence_string.
    cbn [INIT_RESTORE_CONTEXT handle_string call_string]. fold c.
    unfold restore_string, bind. rewrite Hrun. reflexivity.
Qed.

(** [strlen] of a block that holds a string: the bytes before the NUL. *)
Lemma strlen_terminated (chars junk : list Z) :
  Forall (fun ch => ch <> 0) chars ->
  strlen (chars ++ 0 :: junk) = Z.of_nat (length chars).
Proof.
  induction 1 as [|ch chars Hch _ IH]; [reflexivity|].
  cbn [app strlen length]. destruct (Z.eqb_spec ch 0); [contradiction|].
  rewrite IH. lia.
Qed.

(** X6. A string round-trips: the store operation writes the 32-bit length
    of the string with its terminator, the characters and the NUL, and nothing
    of what follows the NUL in the caller's block; the restore operation, run
    on what was written, returns a fresh block holding the characters and the
    NUL. *)
Theorem string_round_trip this this' s w st l chars junk :
  let size := Z.of_nat (length chars) + 1 in
  let stored := set_streams
                  <[s := Stream (pending st ++ be_bytes 4 size ++ chars ++ [0])
                                (room st - 4 - size)]> w in
  streams w !! s = Some st ->
  heap w !! l = Some (chars ++ 0 :: junk) ->
  Forall (fun ch => ch <> 0) chars ->
  size < 2 ^ 32 ->
  4 + size <= room st ->
  avs_persistence_string host (Some (INIT_STORE_CONTEXT this s)) (Some l) w =
    ((0, Some l), stored)
  /\ (pending st = [] -> size <= heap_room w ->
      let l' := fresh (dom (heap w)) in
      avs_persistence_string host (Some (INIT_RESTORE_CONTEXT this' s))
        None stored =
        ((0, Some l'),
         World (<[s := Stream [] (room st - 4 - size)]> (streams w))
               (<[l' := chars ++ [0]]> (heap w))
               (heap_room w - size) (user w) (cleaned w))).
Proof.
  intros size stored Hs Hl Hchars Hsize Hroom.
  assert (Htake : take (Z.to_nat size) (chars ++ 0 :: junk) = chars ++ [0]).
  { replace (Z.to_nat size) with (length (chars ++ [0]))
      by (rewrite length_app; simpl; lia).
    change (chars ++ 0 :: junk) with (chars ++ [0] ++ junk).
    rewrite app_assoc. apply take_app_length. }
  split.
  - unfold avs_persistence_string.
    cbn [INIT_STORE_CONTEXT handle_string call_string].
    unfold persist_string, bind, load, ret. cbn [mbind option_bind].
    rewrite Hl. cbn [default id]. rewrite (strlen_terminated chars junk Hchars).
    fold size.
    rewrite (persist_sized_buffer_ok (INIT_STORE_CONTEXT this s) l w st _ size
               Hs Hl) by lia.
    rewrite Htake. reflexivity.
  - intros Hp Hheap l'. unfold avs_persistence_string.
    cbn [INIT_RESTORE_CONTEXT handle_string call_string].
    unfold restore_string, bind.
    rewrite (restore_sized_buffer_ok host (INIT_RESTORE_CONTEXT this' s) stored
               (Stream (be_bytes 4 size ++ chars ++ [0]) (room st - 4 - size))
               size (chars ++ [0]) []).
    + change (0 =? 0) with true. cbn [negb]. unfold load, ret.
      cbn [mbind option_bind heap]. rewrite lookup_insert_eq. cbn [default id].
      destruct (Z.ltb_spec 0 size) as [_|]; [|lia].
      replace (Z.to_nat (size - 1)) with (length chars) by lia.
      rewrite nth_middle. change (0 =? 0) with true. cbn [negb andb].
      f_equal. apply world_eq; subst stored; simpl; try reflexivity.
      apply insert_insert_eq.
    + subst stored. simpl. rewrite Hp. apply lookup_insert_eq.
    + cbn [pending]. rewrite app_nil_r. reflexivity.
    + rewrite length_app. simpl. lia.
    + lia.
    + exact Hheap.
Qed.

(** X7. The null string: the store operation writes a zero length, as for an
    empty sized buffer, and the restore operation, run on it, returns a null
    pointer and allocates nothing.  (The empty string is not the null string:
    by X6 it goes out as the length 1 and a NUL.) *)
Theorem null_string_round_trip this this' s w st :
  let stored := set_streams
                  <[s := Stream (pending st ++ [0; 0; 0; 0]) (room st - 4)]> w in
  streams w !! s = Some st ->
  4 <= room st ->
  avs_persistence_string host (Some (INIT_STORE_CONTEXT this s)) None w =
    ((0, None), stored)
  /\ (pending st = [] ->
      avs_persistence_string host (Some (INIT_RESTORE_CONTEXT this' s))
        None stored =
        ((0, None), set_streams <[s := Stream [] (room st - 4)]> w)).
Proof.
  intros stored Hs Hroom. split.
  - unfold avs_persistence_string.
    cbn [INIT_STORE_CONTEXT handle_string call_string].
    unfold persist_string, bind, load, ret. cbn [mbind option_bind default].
    rewrite (persist_sized_buffer_empty (INIT_STORE_CONTEXT this s) None w st
               Hs Hroom).
    reflexivity.
  - intros Hp. unfold avs_persistence_string.
    cbn [INIT_RESTORE_CONTEXT handle_string call_string].
    unfold restore_string, bind.
    pose proof (restore_stored_empty (INIT_RESTORE_CONTEXT this' s) w st Hs Hp)
      as Hrun.
    cbn [INIT_RESTORE_CONTEXT stream_of] in Hrun. fold stored in Hrun.
    rewrite Hrun. reflexivity.
Qed.

(** X8. What a restored string is checked for: a persisted string of
    [len > 0] bytes is accepted as soon as its last byte is NUL, whatever the
    bytes before it are, NUL bytes among them, and the block handed back
    holds all [len] bytes as they came. *)
Theorem restore_string_checks_last_byte this s w st len body rest :
  let l := fresh (dom (heap w)) in
  streams w !! s = Some st ->
  pending st = be_bytes 4 len ++ body ++ rest ->
  Z.of_nat (length body) = len -> 0 < len < 2 ^ 32 ->
  nth (Z.to_nat (len - 1)) body 0 = 0 ->
  len <= heap_room w ->
  avs_persistence_string host (Some (INIT_RESTORE_CONTEXT this s)) None w =
    ((0, Some l),
     World (<[s := Stream rest (room st)]> (streams w))
           (<[l := body]> (heap w))
           (heap_room w - len) (user w) (cleaned w)).
Proof.
  intros l Hs Hp Hlen Hrange Hnul Hroom.
  unfold avs_persistence_string.
  cbn [INIT_RESTORE_CONTEXT handle_string call_string].
  unfold restore_string, bind.
  rewrite (restore_sized_buffer_ok host (INIT_RESTORE_CONTEXT this s) w st len
             body rest Hs Hp Hlen Hrange Hroom).
  change (0 =? 0) with true. cbn [negb]. unfold load, ret.
  cbn [mbind option_bind heap]. rewrite lookup_insert_eq. cbn [default id].
  rewrite Hnul. change (0 =? 0) with true. cbn [negb].
  rewrite andb_false_r. reflexivity.
Qed.

End SizedBufferRoundTrip.

(** ** Scalars: failed restores and consecutive fields *)

Section ScalarFields.

Context {U : Type}.
Variable host : byte_order.
Implicit Types (w : world U) (st : stream).

(** Restoring a scalar from a stream that holds fewer bytes than its width:
    the read fails and the destination is not written. *)
Lemma scalar_restore_short ty out this s w st :
  scalar_value ty out ->
  streams w !! s = Some st ->
  (length (pending st) < scalar_width ty)%nat ->
  avs_persistence_scalar host ty (Some (INIT_RESTORE_CONTEXT this s)) out w =
    ((-1, out), set_streams <[s := Stream [] (room st)]> w).
Proof.
  intros Hout Hs Hlen.
  set (c := INIT_RESTORE_CONTEXT this s).
  change s with (stream_of c) in Hs |- *.
  assert (Hread : forall buffer,
            avs_stream_read_reliably (stream_of c) buffer
              (Z.of_nat (scalar_width ty)) w =
              ((-1, pending st ++ drop (length (pending st)) buffer),
               set_streams <[stream_of c := Stream [] (room st)]> w)).
  { intros buffer. apply read_short; [exact Hs | lia]. }
  destruct ty; unfold scalar_value in Hout; simpl in Hout;
    unfold avs_persistence_scalar, avs_persistence_u8, avs_persistence_i8,
      avs_persistence_i16, avs_persistence_i32, avs_persistence_i64,
      avs_persistence_u16, avs_persistence_u32, avs_persistence_u64,
      avs_persistence_bool, avs_persistence_float, avs_persistence_double;
    cbn [c INIT_RESTORE_CONTEXT handle_bytes handle_u16 handle_u32
         handle_u64 handle_bool handle_float handle_double call_bytes
         call_u16 call_u32 call_u64 call_bool call_float call_double
         scalar_width] in *;
    fold c;
    unfold restore_bytes, restore_u16, restore_u32, restore_u64, restore_bool,
      restore_float, restore_double, bind, ret; norm_width;
    rewrite Hread; cbn [Z.eqb];
    try (destruct (pending st) as [|b p]; [|simpl in Hlen; lia]);
    cbn [app drop length hd]; try reflexivity.
  - rewrite (to_signed_cast 8) by lia. reflexivity.
  - rewrite (to_signed_cast 16) by lia. reflexivity.
  - rewrite (to_signed_cast 32) by lia. reflexivity.
  - rewrite (to_signed_cast 64) by lia. reflexivity.
Qed.

(** X9. Restoring a scalar from a stream that holds fewer bytes than its
    width: the operation fails and the destination keeps the value it had,
    for each of the eleven scalar types; nothing is allocated. *)
Theorem scalar_restore_short_stream ty out this s w st :
  let r := avs_persistence_scalar host ty (Some (INIT_RESTORE_CONTEXT this s))
             out w in
  scalar_value ty out ->
  streams w !! s = Some st ->
  (length (pending st) < scalar_width ty)%nat ->
  r.1 = (-1, out) /\ heap r.2 = heap w /\ heap_room r.2 = heap_room w.
Proof.
  intros r Hout Hs Hlen. subst r.
  rewrite (scalar_restore_short ty out this s w st Hout Hs Hlen).
  repeat split; reflexivity.
Qed.

(** X10. Consecutive fields: two scalars stored one after the other lie back
    to back on the stream, each in the bytes of its width, with nothing
    between or around them; restoring the same two types in the same order
    returns the two values. *)
Theorem scalar_fields_back_to_back ty1 ty2 v1 v2 out1 out2 this this' s w st :
  let store_ctx := Some (INIT_STORE_CONTEXT this s) in
  let restore_ctx := Some (INIT_RESTORE_CONTEXT this' s) in
  let n1 := scalar_width ty1 in
  let n2 := scalar_width ty2 in
  let stored := set_streams
                  <[s := Stream (pending st ++ be_bytes n1 v1 ++ be_bytes n2 v2)
                                (room st - Z.of_nat n1 - Z.of_nat n2)]> w in
  scalar_value ty1 v1 -> scalar_value ty2 v2 ->
  streams w !! s = Some st ->
  Z.of_nat n1 + Z.of_nat n2 <= room st ->
  (let* (r1, _) := avs_persistence_scalar host ty1 store_ctx v1 in
   let* (r2, _) := avs_persistence_scalar host ty2 store_ctx v2 in
   ret (r1, r2)) w = ((0, 0), stored)
  /\ (pending st = [] ->
      (let* (r1, a) := avs_persistence_scalar host ty1 restore_ctx out1 in
       let* (r2, b) := avs_persistence_scalar host ty2 restore_ctx out2 in
       ret (r1, a, r2, b)) stored =
        ((0, v1, 0, v2),
         set_streams <[s := Stream [] (room st - Z.of_nat n1 - Z.of_nat n2)]> w)).
Proof.
  intros store_ctx restore_ctx n1 n2 stored Hv1 Hv2 Hs Hroom.
  pose proof (Nat2Z.is_nonneg n1) as Hn1. pose proof (Nat2Z.is_nonneg n2) as Hn2.
  subst store_ctx restore_ctx. split.
  - unfold bind, ret.
    rewrite (scalar_store_ok host ty1 v1 this s w st Hv1 Hs) by (fold n1; lia).
    fold n1. set (w1 := set_streams _ w).
    rewrite (scalar_store_ok host ty2 v2 this s w1
               (Stream (pending st ++ be_bytes n1 v1) (room st - Z.of_nat n1)) Hv2).
    + subst w1 stored. rewrite set_streams_insert_insert. cbn [pending room].
      fold n2. rewrite <- app_assoc. reflexivity.
    + subst w1. rewrite streams_set_streams. apply lookup_insert_eq.
    + cbn [room]. fold n2. lia.
  - intros Hp. unfold bind, ret.
    rewrite (scalar_restore_ok host ty1 v1 this' s stored
               (Stream (be_bytes n1 v1 ++ be_bytes n2 v2)
                       (room st - Z.of_nat n1 - Z.of_nat n2))
               (be_bytes n2 v2) out1 Hv1).
    + set (w1 := set_streams _ stored).
      rewrite (scalar_restore_ok host ty2 v2 this' s w1
                 (Stream (be_bytes n2 v2) (room st - Z.of_nat n1 - Z.of_nat n2))
                 [] out2 Hv2).
      * subst w1 stored. rewrite !set_streams_insert_insert. reflexivity.
      * subst w1. rewrite streams_set_streams. apply lookup_insert_eq.
      * cbn [pending]. rewrite app_nil_r. reflexivity.
    + subst stored. rewrite streams_set_streams, Hp. apply lookup_insert_eq.
    + reflexivity.
Qed.

End ScalarFields.

(** ** The life cycle of a context *)

Section ContextLifeCycle.

Context {U : Type}.
Implicit Types (w : world U).

(** X11. The three constructors alike: creating a context on a null stream,
    or when the allocator cannot serve the context structure, returns null
    and changes nothing.  Otherwise the constructor returns a context bound
    to the stream, at a fresh address where a block of the size of the
    structure now lives, and deleting that context gives back exactly the
    world from before the constructor call.  Deleting a null context does
    nothing, and the direction of a null context is unknown. *)
Theorem context_life_cycle (s : stream_id) w new init :
  In (new, init)
     [ (avs_persistence_store_context_new (U := U), INIT_STORE_CONTEXT);
       (avs_persistence_restore_context_new (U := U), INIT_RESTORE_CONTEXT);
       (avs_persistence_ignore_context_new (U := U), INIT_IGNORE_CONTEXT) ] ->
  new None w = (None, w)
  /\ (heap_room w < sizeof_context -> new (Some s) w = (None, w))
  /\ (sizeof_context <= heap_room w ->
      exists this w1,
        new (Some s) w = (Some (init this s), w1)
        /\ stream_of (init this s) = s
        /\ heap w !! this = None
        /\ heap w1 = <[this := replicate (Z.to_nat sizeof_context) 0]> (heap w)
        /\ heap_room w1 = heap_room w - sizeof_context
        /\ streams w1 = streams w
        /\ avs_persistence_context_delete (Some (init this s)) w1 = (tt, w))
  /\ avs_persistence_context_delete None w = (tt, w)
  /\ avs_persistence_direction None = AVS_PERSISTENCE_UNKNOWN.
Proof.
  intros Hin.
  assert (Hdelete : forall this,
            heap w !! this = None ->
            free (Some this)
              (set_heap <[this := replicate (Z.to_nat sizeof_context) 0]>
                        (- sizeof_context) w) = (tt, w)).
  { intros this Hthis. unfold free. cbn [heap set_heap].
    rewrite lookup_insert_eq. f_equal.
    apply world_eq;
      cbn [set_heap heap heap_room streams user cleaned]; try reflexivity.
    - apply delete_insert_id, Hthis.
    - rewrite length_replicate. unfold sizeof_context. lia. }
  cbn [In] in Hin.
  destruct Hin as [[= <- <-]|[[= <- <-]|[[= <- <-]|[]]]];
    (split; [reflexivity|]);
    (split; [intros Hroom;
             unfold avs_persistence_store_context_new,
               avs_persistence_restore_context_new,
               avs_persistence_ignore_context_new, bind;
             rewrite malloc_failure by exact Hroom; reflexivity|]);
    (split; [|split; reflexivity]);
    intros Hroom;
    unfold avs_persistence_store_context_new,
      avs_persistence_restore_context_new,
      avs_persistence_ignore_context_new, bind;
    rewrite malloc_success by exact Hroom;
    eexists _, _; (split; [reflexivity|]); (split; [reflexivity|]);
    (split; [apply fresh_heap_None|]); (split; [reflexivity|]);
    (split; [cbn [set_heap heap_room]; lia|]); (split; [reflexivity|]);
    apply Hdelete, fresh_heap_None.
Qed.

End ContextLifeCycle.

(** ** Collections: sizes at the bounds *)

Section CollectionBounds.

Context {U : Type}.
Variable host : byte_order.
Implicit Types (w : world U) (st : stream) (c : avs_persistence_context_t).
Implicit Types (handler : avs_persistence_handler_collection_element_t (U := U)).
Implicit Types
  (cleanup : option (avs_persistence_cleanup_collection_element_t (U := U))).

(** Reading a count leaves everything but the streams as it was. *)
Lemma restore_u32_frame c out w :
  exists retval count w1,
    restore_u32 host c out w = ((retval, count), w1)
    /\ heap w1 = heap w /\ heap_room w1 = heap_room w
    /\ user w1 = user w /\ cleaned w1 = cleaned w.
Proof.
  unfold restore_u32, bind, avs_stream_read_reliably.
  destruct (streams w !! stream_of c) as [st|].
  - destruct (decide _); cbn [Z.eqb]; unfold ret; eexists _, _, _;
      (split; [reflexivity|]); repeat split; reflexivity.
  - cbn [Z.eqb]. unfold ret. eexists _, _, _.
    split; [reflexivity|]. repeat split; reflexivity.
Qed.

(** Storing a collection whose count fits in 32 bits, on a stream with room
    for the count: the count goes out, then the elements are handled in
    order. *)
Lemma persist_collection_fits c (lst : list loc) element_size handler cleanup
    cmp w st :
  let N := Z.of_nat (length lst) in
  let w1 := set_streams
              <[stream_of c := Stream (pending st ++ be_bytes 4 N)
                                      (room st - 4)]> w in
  streams w !! stream_of c = Some st ->
  4 <= room st ->
  N < 2 ^ 32 ->
  persist_list host c lst element_size handler cleanup w =
    (((persist_foreach c handler lst w1).1, lst),
     (persist_foreach c handler lst w1).2)
  /\ persist_tree host c (RBTree cmp lst) element_size handler cleanup w =
       (((persist_foreach c handler lst w1).1, RBTree cmp lst),
        (persist_foreach c handler lst w1).2).
Proof.
  intros N w1 Hs Hroom HN.
  assert (Hcast : cast_unsigned 32 N = N).
  { unfold cast_unsigned. apply Z.mod_small. subst N. lia. }
  split.
  - unfold persist_list, AVS_LIST_SIZE. fold N. rewrite Hcast, Z.eqb_refl.
    cbn [negb]. unfold bind.
    rewrite (persist_u32_ok host c N w st Hs Hroom). fold w1.
    change (0 =? 0) with true. cbv beta iota.
    destruct (persist_foreach c handler lst w1). reflexivity.
  - unfold persist_tree, AVS_RBTREE_SIZE. cbn [rb_elems]. fold N.
    rewrite Hcast, Z.eqb_refl. cbn [negb]. unfold bind.
    rewrite (persist_u32_ok host c N w st Hs Hroom). fold w1.
    change (0 =? 0) with true. cbv beta iota.
    destruct (persist_foreach c handler lst w1). reflexivity.
Qed.

(** X12. The empty collection: storing an empty list or an empty tree writes
    the four zero bytes of the count and never calls the element handler;
    restoring or ignoring that count gives an empty collection back, again
    without a call of the handler, and allocates nothing. *)
Theorem empty_collection_round_trip this this' this'' s w st element_size
    handler cleanup cmp lst tree :
  let store_ctx := Some (INIT_STORE_CONTEXT this s) in
  let restore_ctx := Some (INIT_RESTORE_CONTEXT this' s) in
  let ignore_ctx := Some (INIT_IGNORE_CONTEXT this'' s) in
  let stored := set_streams
                  <[s := Stream (pending st ++ [0; 0; 0; 0]) (room st - 4)]> w in
  let consumed := set_streams <[s := Stream [] (room st - 4)]> w in
  streams w !! s = Some st ->
  4 <= room st ->
  avs_persistence_list host store_ctx [] element_size handler cleanup w =
    ((0, []), stored)
  /\ avs_persistence_tree host store_ctx (RBTree cmp []) element_size handler
       cleanup w = ((0, RBTree cmp []), stored)
  /\ (pending st = [] ->
      avs_persistence_list host restore_ctx [] element_size handler cleanup
        stored = ((0, []), consumed)
      /\ avs_persistence_tree host restore_ctx (RBTree cmp []) element_size
           handler cleanup stored = ((0, RBTree cmp []), consumed)
      /\ avs_persistence_list host ignore_ctx lst element_size handler cleanup
           stored = ((0, lst), consumed)
      /\ avs_persistence_tree host ignore_ctx tree element_size handler cleanup
           stored = ((0, tree), consumed)).
Proof.
  intros store_ctx restore_ctx ignore_ctx stored consumed Hs Hroom.
  subst store_ctx restore_ctx ignore_ctx.
  unfold avs_persistence_list, avs_persistence_tree.
  cbn [INIT_STORE_CONTEXT INIT_RESTORE_CONTEXT INIT_IGNORE_CONTEXT handle_list
       handle_tree call_list call_tree].
  destruct (persist_collection_fits (INIT_STORE_CONTEXT this s) [] element_size
              handler cleanup cmp w st Hs Hroom) as [Hlist Htree];
    [simpl; lia|].
  split; [exact Hlist|]. split; [exact Htree|].
  - intros Hp.
    assert (Hcount : forall c, stream_of c = s ->
              restore_u32 host c 0 stored = ((0, 0), consumed)).
    { intros c Hc.
      rewrite (restore_u32_prefix host c 0 0 stored
                 (Stream [0; 0; 0; 0] (room st - 4)) []).
      - rewrite Hc. subst stored consumed. cbn [room]. f_equal.
        apply set_streams_insert_insert.
      - rewrite Hc. subst stored. rewrite streams_set_streams, Hp.
        apply lookup_insert_eq.
      - reflexivity.
      - lia. }
    split; [|split; [|split]].
    + unfold restore_list, bind. rewrite Hcount by reflexivity.
      destruct cleanup; reflexivity.
    + unfold restore_tree, bind. rewrite Hcount by reflexivity. reflexivity.
    + unfold ignore_list, ignore_collection, bind.
      rewrite Hcount by reflexivity. reflexivity.
    + unfold ignore_tree, ignore_collection, bind.
      rewrite Hcount by reflexivity. reflexivity.
Qed.

(** X13. A collection of 2^32 elements or more: the store operation returns
    -1 before anything is written, for a list and for a tree; the element
    handler is not called. *)
Theorem persist_collection_count_overflow this s w (lst : list loc)
    element_size handler cleanup cmp :
  let ctx := Some (INIT_STORE_CONTEXT this s) in
  2 ^ 32 <= Z.of_nat (length lst) ->
  avs_persistence_list host ctx lst element_size handler cleanup w =
    ((-1, lst), w)
  /\ avs_persistence_tree host ctx (RBTree cmp lst) element_size handler
       cleanup w = ((-1, RBTree cmp lst), w).
Proof.
  intros ctx Hlen.
  assert (Hne : (Z.of_nat (length lst) =?
                 cast_unsigned 32 (Z.of_nat (length lst))) = false).
  { apply Z.eqb_neq. unfold cast_unsigned.
    pose proof (Z.mod_pos_bound (Z.of_nat (length lst)) (2 ^ 32)). lia. }
  unfold ctx, avs_persistence_list, avs_persistence_tree.
  cbn [INIT_STORE_CONTEXT handle_list handle_tree call_list call_tree].
  unfold persist_list, persist_tree, AVS_LIST_SIZE, AVS_RBTREE_SIZE.
  cbn [rb_elems]. rewrite Hne. split; reflexivity.
Qed.

End CollectionBounds.

(** ** Restoring an ordered sequence: every outcome *)

Section ListOutcomes.

Context {U : Type}.
Variable host : byte_order.
Implicit Types (w : world U) (st : stream) (l : loc).
Implicit Types (c : avs_persistence_context_t).
Implicit Types (h : gmap loc (list Z)) (items : list (loc * list Z)).
Implicit Types (handler : avs_persistence_handler_collection_element_t (U := U)).
Implicit Types (cleanup : avs_persistence_cleanup_collection_element_t (U := U)).
Implicit Types (cmp : list Z -> list Z -> Z).

(** The loop of [restore_list], whatever the handler and the allocator do:
    the list grows by the elements that were allocated, which are the only
    new blocks on the heap, and no cleanup callback runs. *)
Lemma restore_list_loop_inv handler c element_size count :
  0 <= element_size ->
  forall (lst : list loc) w,
    exists retval items w',
      restore_list_loop c element_size handler count (length lst) lst w =
        ((retval, lst ++ items.*1), w')
      /\ heap w' = list_to_map items ∪ heap w
      /\ heap_room w' = heap_room w - Z.of_nat (length items) * element_size
      /\ NoDup items.*1
      /\ (forall k, k ∈ items.*1 -> heap w !! k = None)
      /\ Forall (fun b => length b = Z.to_nat element_size) items.*2
      /\ cleaned w' = cleaned w.
Proof.
  intros Hsz. induction count as [|count IH]; intros lst w.
  - exists 0, [], w. simpl. unfold ret.
    rewrite app_nil_r, (left_id_L ∅ (∪)).
    repeat split; try reflexivity; try constructor; try lia.
    intros k Hk. inversion Hk.
  - cbn [restore_list_loop]. unfold AVS_LIST_NEW_BUFFER, bind.
    destruct (Z_le_gt_dec element_size (heap_room w)) as [Hroom|Hroom].
    2: { rewrite malloc_failure by lia.
         exists (-1), [], w. simpl. unfold ret.
         rewrite app_nil_r, (left_id_L ∅ (∪)).
         repeat split; try reflexivity; try constructor; try lia.
         intros k Hk. inversion Hk. }
    rewrite (malloc_success element_size w Hroom).
    set (l := fresh (dom (heap w))).
    assert (Hl : heap w !! l = None) by apply fresh_heap_None.
    set (zero := replicate (Z.to_nat element_size) 0).
    set (w1 := set_heap _ _ w).
    rewrite (call_handler_live handler c l w1 zero)
      by (subst w1; simpl; apply lookup_insert_eq).
    change (streams w1) with (streams w). change (user w1) with (user w).
    destruct (handler c (Some zero) (streams w, user w))
      as [[r bytes] [ss1 u1]] eqn:Hcall.
    assert (Hlen0 : length zero = Z.to_nat element_size)
      by apply length_replicate.
    rewrite Hlen0, list_insert_at_end.
    set (element := match bytes with
                    | Some b => resize (Z.to_nat element_size) 0 b
                    | None => zero
                    end).
    assert (Hellen : length element = Z.to_nat element_size).
    { subst element. destruct bytes; [apply length_resize | exact Hlen0]. }
    set (w2 := World _ _ _ _ _).
    assert (Hheap2 : heap w2 = <[l := element]> (heap w)).
    { subst w2 w1. simpl. apply insert_insert_eq. }
    assert (Hroom2 : heap_room w2 = heap_room w - element_size).
    { subst w2 w1. simpl. lia. }
    destruct (Z.eqb_spec r 0) as [->|Hr].
    + destruct (IH (lst ++ [l]) w2)
        as (retval & items & w' & Hloop & Hheap & Hroom' & Hnd & Hfresh
            & Hsizes & Hcl).
      assert (Hlnot : l ∉ items.*1).
      { intros Hin. specialize (Hfresh l Hin). rewrite Hheap2 in Hfresh.
        rewrite lookup_insert_eq in Hfresh. discriminate. }
      exists retval, ((l, element) :: items), w'.
      unfold AVS_LIST_NEXT_PTR.
      replace (S (length lst)) with (length (lst ++ [l]))
        by (rewrite length_app; simpl; lia).
      rewrite Hloop, !fmap_cons. cbn [fst snd].
      split; [rewrite <- app_assoc; reflexivity|].
      split; [rewrite Hheap, Hheap2; apply allocated_cons; exact Hlnot|].
      split; [rewrite Hroom', Hroom2; simpl length; lia|].
      split; [constructor; assumption|].
      split; [|split; [constructor; assumption | exact Hcl]].
      intros k Hk. apply elem_of_cons in Hk as [->|Hk]; [exact Hl|].
      specialize (Hfresh k Hk). rewrite Hheap2 in Hfresh.
      destruct (decide (l = k)) as [<-|Hne]; [exact Hl|].
      rewrite lookup_insert_ne in Hfresh by exact Hne. exact Hfresh.
    + exists r, [(l, element)], w2. unfold ret.
      split; [reflexivity|].
      split.
      { rewrite Hheap2.
        change (list_to_map [(l, element)])
          with (<[l := element]> (∅ : gmap loc (list Z))).
        rewrite insert_empty, <- insert_union_singleton_l. reflexivity. }
      split; [rewrite Hroom2; simpl length; lia|].
      split; [apply NoDup_singleton|].
      split; [|split; [repeat constructor; exact Hellen | reflexivity]].
      intros k Hk. apply list_elem_of_singleton in Hk as ->. exact Hl.
Qed.

(** X14. Any failure of a list restore that was given a cleanup callback,
    whether the count cannot be read, the allocator runs out or the handler
    rejects an element: the destination list is empty and the heap is what it
    was before the call, every element allocated during the call having been
    freed. *)
Theorem restore_list_failure_leaves_nothing this s w element_size handler
    cleanup retval lst' w' :
  0 <= element_size ->
  avs_persistence_list host (Some (INIT_RESTORE_CONTEXT this s)) []
    element_size handler (Some cleanup) w = ((retval, lst'), w') ->
  retval <> 0 ->
  lst' = [] /\ heap w' = heap w /\ heap_room w' = heap_room w.
Proof.
  intros Hsz Hrun Hret.
  unfold avs_persistence_list in Hrun.
  cbn [INIT_RESTORE_CONTEXT handle_list call_list] in Hrun.
  set (c := INIT_RESTORE_CONTEXT this s) in Hrun.
  unfold restore_list, bind in Hrun.
  destruct (restore_u32_frame host c 0 w)
    as (r0 & count & w1 & Hcount & Hh1 & Hr1 & _ & _).
  rewrite Hcount in Hrun.
  destruct (Z.eqb_spec r0 0) as [->|Hr0].
  - destruct (restore_list_loop_inv handler c element_size (Z.to_nat count)
                Hsz [] w1)
      as (r & items & w2 & Hloop & Hheap & Hroom & Hnd & Hfresh & Hsizes & _).
    change (length (@nil loc)) with 0%nat in Hloop. rewrite Hloop in Hrun.
    cbn [app] in Hrun.
    destruct (Z.eqb_spec r 0) as [->|Hr].
    + unfold ret in Hrun. injection Hrun as <- _ _. contradiction.
    + apply Z.eqb_neq in Hr. rewrite ?Hr in Hrun.
      rewrite (list_clear_run cleanup (Z.to_nat element_size) items.*1 w2 Hnd)
        in Hrun.
      2: { rewrite Hheap. apply allocated_live; assumption. }
      unfold ret in Hrun. injection Hrun as _ <- <-. simpl.
      split; [reflexivity|]. split.
      * rewrite Hheap, <- Hh1. apply fold_delete_allocated; [tauto | exact Hfresh].
      * rewrite Hroom, length_fmap, <- Hr1. lia.
  - unfold ret in Hrun. cbv beta iota in Hrun.
    apply Z.eqb_neq in Hr0. rewrite Hr0 in Hrun.
    cbn [AVS_LIST_CLEAR] in Hrun. unfold ret in Hrun.
    injection Hrun as _ <- <-. repeat split; assumption.
Qed.

(** A list restore whose handler accepts every element, when the allocator
    can serve them all. *)
Lemma restore_list_succeeds c w st N rest element_size handler
    (cleanup : option (avs_persistence_cleanup_collection_element_t (U := U)))
    elements env :
  streams w !! stream_of c = Some st ->
  pending st = be_bytes 4 N ++ rest ->
  0 <= N < 2 ^ 32 ->
  0 <= element_size ->
  N * element_size <= heap_room w ->
  handler_run handler c element_size (Z.to_nat N)
    (<[stream_of c := Stream rest (room st)]> (streams w), user w) =
    (0, elements, env) ->
  exists items,
    restore_list host c [] element_size handler cleanup w =
      ((0, items.*1),
       World env.1 (list_to_map items ∪ heap w)
             (heap_room w - N * element_size) env.2 (cleaned w))
    /\ items.*2 = elements
    /\ NoDup items.*1
    /\ (forall k, k ∈ items.*1 -> heap w !! k = None).
Proof.
  intros Hs Hp HN Hsz Hroom Hrun.
  pose proof (handler_run_length _ _ _ _ _ _ _ Hrun) as Hlen.
  unfold restore_list, bind.
  rewrite (restore_u32_prefix host c 0 N w st rest Hs Hp HN).
  change (0 =? 0) with true. cbv iota.
  set (w1 := set_streams _ w).
  destruct (restore_list_loop_run handler c element_size (Z.to_nat N) [] w1
              0 elements env Hrun Hsz)
    as (items & Hloop & Hels & Hnd & Hfresh).
  { rewrite Hlen. subst w1. simpl. lia. }
  change (length (@nil loc)) with 0%nat in Hloop. rewrite Hloop.
  change (0 =? 0) with true. cbv iota.
  exists items. cbn [app]. unfold ret. split; [|repeat split; assumption].
  f_equal. apply world_eq; simpl; try reflexivity.
  rewrite Hlen. lia.
Qed.

(** X15. A list restore whose handler accepts each of the [N] elements, when
    the allocator can serve them: the call returns 0 and the list holds [N]
    fresh elements which are, in list order, the elements in the order the
    handler decoded them from the stream; no cleanup callback runs. *)
Theorem restore_list_in_stream_order this s w st N rest element_size handler
    (cleanup : option (avs_persistence_cleanup_collection_element_t (U := U)))
    elements env :
  let ctx := INIT_RESTORE_CONTEXT this s in
  streams w !! s = Some st ->
  pending st = be_bytes 4 N ++ rest ->
  0 <= N < 2 ^ 32 ->
  0 <= element_size ->
  N * element_size <= heap_room w ->
  handler_run handler ctx element_size (Z.to_nat N)
    (<[s := Stream rest (room st)]> (streams w), user w) = (0, elements, env) ->
  exists lst' w',
    avs_persistence_list host (Some ctx) [] element_size handler cleanup w =
      ((0, lst'), w')
    /\ map (bytes_at (heap w')) lst' = elements
    /\ Z.of_nat (length lst') = N
    /\ NoDup lst'
    /\ (forall l, l ∈ lst' -> heap w !! l = None)
    /\ (forall l, l ∉ lst' -> heap w' !! l = heap w !! l)
    /\ heap_room w' = heap_room w - N * element_size
    /\ streams w' = env.1 /\ user w' = env.2 /\ cleaned w' = cleaned w.
Proof.
  intros ctx Hs Hp HN Hsz Hroom Hrun.
  destruct (restore_list_succeeds ctx w st N rest element_size handler cleanup
              elements env Hs Hp HN Hsz Hroom Hrun)
    as (items & Hcall & Hels & Hnd & Hfresh).
  pose proof (handler_run_length _ _ _ _ _ _ _ Hrun) as Hlen.
  eexists _, _. split; [exact Hcall|]. cbn [heap heap_room streams user cleaned].
  split; [rewrite (bytes_at_allocated items _ Hnd); exact Hels|].
  split; [rewrite length_fmap, <- (length_fmap snd items), Hels, Hlen; lia|].
  split; [exact Hnd|]. split; [exact Hfresh|].
  split; [|repeat split; reflexivity].
  intros l Hl. apply lookup_union_r. apply not_elem_of_list_to_map_1. exact Hl.
Qed.

End ListOutcomes.

(** ** Restoring a sorted collection: every outcome *)

Section TreeOutcomes.

Context {U : Type}.
Variable host : byte_order.
Implicit Types (w : world U) (st : stream) (l : loc).
Implicit Types (c : avs_persistence_context_t).
Implicit Types (h : gmap loc (list Z)) (items : list (loc * list Z)).
Implicit Types (handler : avs_persistence_handler_collection_element_t (U := U)).
Implicit Types (cmp : list Z -> list Z -> Z).

(** The loop of [restore_tree] when the handler accepts every element, no
    two keys are equal and the allocator can serve every element: each
    element is inserted, and no cleanup callback runs. *)
Lemma restore_tree_loop_ok handler c element_size
    (cleanup : option (avs_persistence_cleanup_collection_element_t (U := U)))
    cmp count :
  0 <= element_size ->
  forall (ts : list loc) w elements env,
    (forall x, x ∈ ts -> is_Some (heap w !! x)) ->
    handler_run handler c element_size count (streams w, user w) =
      (0, elements, env) ->
    distinct_keys cmp (map (bytes_at (heap w)) ts) elements ->
    Z.of_nat count * element_size <= heap_room w ->
    exists elems' items,
      restore_tree_loop c element_size handler cleanup count (RBTree cmp ts) w =
        ((0, RBTree cmp elems'),
         World env.1 (list_to_map items ∪ heap w)
               (heap_room w - Z.of_nat count * element_size)
               env.2 (cleaned w))
      /\ elems' ≡ₚ ts ++ items.*1
      /\ items.*2 = elements
      /\ NoDup items.*1
      /\ (forall k, k ∈ items.*1 -> heap w !! k = None).
Proof.
  intros Hsz. induction count as [|count IH];
    intros ts w elements env Hlive Hrun Hdist Hroom.
  - simpl in Hrun. injection Hrun as <- <-.
    exists ts, []. simpl. unfold ret. rewrite app_nil_r, (left_id_L ∅ (∪)).
    split; [|repeat split; try reflexivity; try constructor].
    + f_equal. apply world_eq; simpl; try reflexivity. lia.
    + intros k Hk. inversion Hk.
  - cbn [handler_run] in Hrun.
    set (zero := replicate (Z.to_nat element_size) 0) in *.
    destruct (handler c (Some zero) (streams w, user w))
      as [[r bytes] [ss1 u1]] eqn:Hcall.
    set (element := match bytes with
                    | Some b => resize (Z.to_nat element_size) 0 b
                    | None => zero
                    end) in *.
    destruct (Z.eqb_spec r 0) as [->|Hr].
    2: { injection Hrun as -> _ _. contradiction. }
    destruct (handler_run handler c element_size count (ss1, u1))
      as [[r2 els] env2] eqn:Hrest.
    injection Hrun as -> <- ->.
    destruct Hdist as [Hseen Hdist].
    assert (Hroom1 : element_size <= heap_room w) by nia.
    cbn [restore_tree_loop]. unfold AVS_RBTREE_ELEM_NEW_BUFFER, bind.
    rewrite (malloc_success element_size w Hroom1).
    set (l := fresh (dom (heap w))).
    assert (Hl : heap w !! l = None) by apply fresh_heap_None.
    assert (Hlts : l ∉ ts).
    { intros Hin. destruct (Hlive l Hin) as [b Hb]. congruence. }
    set (w1 := set_heap _ _ w).
    rewrite (call_handler_live handler c l w1 zero)
      by (subst w1; simpl; apply lookup_insert_eq).
    change (streams w1) with (streams w). change (user w1) with (user w).
    rewrite Hcall.
    assert (Hlen0 : length zero = Z.to_nat element_size)
      by apply length_replicate.
    rewrite Hlen0. fold element.
    set (w2 := World _ _ _ _ _).
    assert (Hheap2 : heap w2 = <[l := element]> (heap w)).
    { subst w2 w1. simpl. apply insert_insert_eq. }
    assert (Hsame : forall x, x ∈ ts ->
                      bytes_at (heap w2) x = bytes_at (heap w) x).
    { intros x Hx. unfold bytes_at.
      rewrite Hheap2, lookup_insert_ne; [reflexivity|].
      intros <-. contradiction. }
    assert (Hel : bytes_at (heap w2) l = element).
    { unfold bytes_at. rewrite Hheap2, lookup_insert_eq. reflexivity. }
    change (0 =? 0) with true. cbv beta iota.
    unfold AVS_RBTREE_INSERT at 1. cbn [rb_elems rb_cmp].
    destruct (find _ ts) as [existing|] eqn:Hfind.
    { exfalso. apply find_some in Hfind as [Hin Hkey].
      apply list_elem_of_In in Hin. rewrite Hel, (Hsame _ Hin) in Hkey.
      apply Z.eqb_eq in Hkey. rewrite Forall_forall in Hseen.
      apply (Hseen (bytes_at (heap w) existing)); [|exact Hkey].
      apply list_elem_of_fmap. exists existing. split; [reflexivity | exact Hin]. }
    rewrite Nat.eqb_refl. cbn [negb]. unfold ret. cbv beta iota.
    change (0 =? 0) with true. cbn [negb].
    set (ts2 := insert_sorted (heap w2) cmp l ts).
    assert (Hperm2 : ts2 ≡ₚ l :: ts) by apply insert_sorted_perm.
    destruct (IH ts2 w2 els env) as (elems' & items & Hloop & Hperm & Hels
                                     & Hnd & Hfresh).
    + intros x Hx. rewrite Hperm2 in Hx. rewrite Hheap2.
      apply elem_of_cons in Hx as [->|Hx].
      * rewrite lookup_insert_eq. eauto.
      * rewrite lookup_insert_ne by (intros <-; contradiction).
        apply Hlive, Hx.
    + exact Hrest.
    + apply (distinct_keys_perm cmp _ (element :: map (bytes_at (heap w)) ts));
        [|exact Hdist].
      rewrite Hperm2. cbn [map]. rewrite Hel. apply Permutation_cons; [reflexivity|].
      apply Permutation_refl'. symmetry. apply map_ext_in. intros x Hx.
      apply Hsame, list_elem_of_In, Hx.
    + subst w2 w1. simpl. lia.
    + assert (Hlnot : l ∉ items.*1).
      { intros Hin. specialize (Hfresh l Hin). rewrite Hheap2 in Hfresh.
        rewrite lookup_insert_eq in Hfresh. discriminate. }
      exists elems', ((l, element) :: items). rewrite Hloop, !fmap_cons.
      cbn [fst snd]. split; [|split; [|split; [|split]]].
      * f_equal. apply world_eq; simpl; try reflexivity.
        -- rewrite insert_insert_eq. apply allocated_cons. exact Hlnot.
        -- lia.
      * rewrite Hperm, Hperm2. simpl.
        rewrite (Permutation_middle ts (items.*1) l). reflexivity.
      * rewrite Hels. reflexivity.
      * constructor; assumption.
      * intros k Hk. apply elem_of_cons in Hk as [->|Hk]; [exact Hl|].
        specialize (Hfresh k Hk). rewrite Hheap2 in Hfresh.
        destruct (decide (l = k)) as [<-|Hne]; [exact Hl|].
        rewrite lookup_insert_ne in Hfresh by exact Hne. exact Hfresh.
Qed.

(** A tree restore, from an empty tree, whose handler accepts every element,
    when no two of the decoded elements have equal keys and the allocator can
    serve them all. *)
Lemma restore_tree_succeeds c w st N rest element_size handler
    (cleanup : option (avs_persistence_cleanup_collection_element_t (U := U)))
    cmp elements env :
  streams w !! stream_of c = Some st ->
  pending st = be_bytes 4 N ++ rest ->
  0 <= N < 2 ^ 32 ->
  0 <= element_size ->
  N * element_size <= heap_room w ->
  handler_run handler c element_size (Z.to_nat N)
    (<[stream_of c := Stream rest (room st)]> (streams w), user w) =
    (0, elements, env) ->
  distinct_keys cmp [] elements ->
  exists elems' items,
    restore_tree host c (RBTree cmp []) element_size handler cleanup w =
      ((0, RBTree cmp elems'),
       World env.1 (list_to_map items ∪ heap w)
             (heap_room w - N * element_size) env.2 (cleaned w))
    /\ elems' ≡ₚ items.*1
    /\ items.*2 = elements
    /\ NoDup items.*1
    /\ (forall k, k ∈ items.*1 -> heap w !! k = None).
Proof.
  intros Hs Hp HN Hsz Hroom Hrun Hdist.
  unfold restore_tree, bind.
  rewrite (restore_u32_prefix host c 0 N w st rest Hs Hp HN).
  change (0 =? 0) with true. cbv iota.
  set (w1 := set_streams _ w).
  destruct (restore_tree_loop_ok handler c element_size cleanup cmp (Z.to_nat N)
              Hsz [] w1 elements env)
    as (elems' & items & Hloop & Hperm & Hels & Hnd & Hfresh).
  - intros x Hx. inversion Hx.
  - exact Hrun.
  - exact Hdist.
  - subst w1. simpl. lia.
  - rewrite Hloop. change (0 =? 0) with true. cbn [negb]. unfold ret.
    exists elems', items. split; [|repeat split; assumption].
    f_equal. apply world_eq; simpl; try reflexivity. lia.
Qed.

(** X16. A tree restore, from an empty tree, whose handler accepts each of
    the [N] elements, when no two of the decoded elements have equal keys and
    the allocator can serve them: the call returns 0 and the tree holds [N]
    fresh elements, whose contents are the decoded elements up to order; no
    cleanup callback runs. *)
Theorem restore_tree_distinct_keys this s w st N rest element_size handler
    (cleanup : option (avs_persistence_cleanup_collection_element_t (U := U)))
    cmp elements env :
  let ctx := INIT_RESTORE_CONTEXT this s in
  streams w !! s = Some st ->
  pending st = be_bytes 4 N ++ rest ->
  0 <= N < 2 ^ 32 ->
  0 <= element_size ->
  N * element_size <= heap_room w ->
  handler_run handler ctx element_size (Z.to_nat N)
    (<[s := Stream rest (room st)]> (streams w), user w) = (0, elements, env) ->
  distinct_keys cmp [] elements ->
  exists tree' w',
    avs_persistence_tree host (Some ctx) (RBTree cmp []) element_size handler
      cleanup w = ((0, tree'), w')
    /\ AVS_RBTREE_SIZE tree' = N
    /\ rb_cmp tree' = cmp
    /\ map (bytes_at (heap w')) (rb_elems tree') ≡ₚ elements
    /\ NoDup (rb_elems tree')
    /\ (forall l, l ∈ rb_elems tree' -> heap w !! l = None)
    /\ (forall l, l ∉ rb_elems tree' -> heap w' !! l = heap w !! l)
    /\ heap_room w' = heap_room w - N * element_size
    /\ streams w' = env.1 /\ user w' = env.2 /\ cleaned w' = cleaned w.
Proof.
  intros ctx Hs Hp HN Hsz Hroom Hrun Hdist.
  destruct (restore_tree_succeeds ctx w st N rest element_size handler cleanup
              cmp elements env Hs Hp HN Hsz Hroom Hrun Hdist)
    as (elems' & items & Hcall & Hperm & Hels & Hnd & Hfresh).
  pose proof (handler_run_length _ _ _ _ _ _ _ Hrun) as Hlen.
  eexists _, _. split; [exact Hcall|].
  cbn [heap heap_room streams user cleaned rb_elems rb_cmp].
  unfold AVS_RBTREE_SIZE. cbn [rb_elems].
  split; [rewrite Hperm, length_fmap, <- (length_fmap snd items), Hels, Hlen; lia|].
  split; [reflexivity|].
  split; [rewrite Hperm, (bytes_at_allocated items _ Hnd), Hels; reflexivity|].
  split; [rewrite Hperm; exact Hnd|].
  split; [intros l Hl; rewrite Hperm in Hl; exact (Hfresh l Hl)|].
  split; [|repeat split; reflexivity].
  intros l Hl. rewrite Hperm in Hl.
  apply lookup_union_r. apply not_elem_of_list_to_map_1. exact Hl.
Qed.

(** X17. Any failure of a tree restore, from an empty tree: whether the count
    cannot be read, the allocator runs out, the handler rejects an element or
    a key comes twice, the tree is empty afterwards and the heap is what it
    was before the call, every element allocated during the call having been
    freed. *)
Theorem restore_tree_failure_leaves_nothing this s w element_size handler
    (cleanup : avs_persistence_cleanup_collection_element_t (U := U))
    cmp retval tree' w' :
  0 <= element_size ->
  avs_persistence_tree host (Some (INIT_RESTORE_CONTEXT this s)) (RBTree cmp [])
    element_size handler (Some cleanup) w = ((retval, tree'), w') ->
  retval <> 0 ->
  AVS_RBTREE_SIZE tree' = 0 /\ rb_elems tree' = []
  /\ heap w' = heap w /\ heap_room w' = heap_room w.
Proof.
  intros Hsz Hrun Hret.
  unfold avs_persistence_tree in Hrun.
  cbn [INIT_RESTORE_CONTEXT handle_tree call_tree] in Hrun.
  set (c := INIT_RESTORE_CONTEXT this s) in Hrun.
  unfold restore_tree, bind in Hrun.
  destruct (restore_u32_frame host c 0 w)
    as (r0 & count & w1 & Hcount & Hh1 & Hr1 & _ & _).
  rewrite Hcount in Hrun.
  destruct (Z.eqb_spec r0 0) as [->|Hr0].
  - destruct (restore_tree_loop_inv handler c element_size cleanup cmp
                (Z.to_nat count) Hsz [] w1)
      as (r & elems' & items & w2 & Hloop & Hperm & Hheap & Hroom & Hnd
          & Hfresh & Hsizes & _).
    { intros x Hx. inversion Hx. }
    rewrite Hloop in Hrun. cbn [app] in Hperm.
    destruct (Z.eqb_spec r 0) as [->|Hr].
    + unfold ret in Hrun. injection Hrun as <- _ _. contradiction.
    + apply Z.eqb_neq in Hr. rewrite ?Hr in Hrun. cbn [negb] in Hrun.
      unfold AVS_RBTREE_CLEAR, bind in Hrun. cbn [rb_elems rb_cmp] in Hrun.
      change (tree_cleanup (Some cleanup)) with (call_cleanup cleanup) in Hrun.
      assert (Hnd' : NoDup elems') by (rewrite Hperm; exact Hnd).
      rewrite (list_clear_run cleanup (Z.to_nat element_size) elems' w2 Hnd')
        in Hrun.
      2: { intros k Hk. rewrite Hperm in Hk. rewrite Hheap.
           apply allocated_live; assumption. }
      unfold ret in Hrun. injection Hrun as _ <- <-. simpl.
      split; [reflexivity|]. split; [reflexivity|]. split.
      * rewrite Hheap, <- Hh1. apply fold_delete_allocated.
        -- intros k Hk. rewrite Hperm. exact Hk.
        -- intros k Hk. rewrite Hperm in Hk. apply (Hfresh k Hk).
      * rewrite Hroom, Hperm, length_fmap, <- Hr1. lia.
  - unfold ret in Hrun. cbv beta iota in Hrun.
    apply Z.eqb_neq in Hr0. rewrite Hr0 in Hrun. cbn [negb] in Hrun.
    unfold AVS_RBTREE_CLEAR, bind in Hrun.
    cbn [rb_elems rb_cmp AVS_LIST_CLEAR] in Hrun. unfold ret in Hrun.
    injection Hrun as _ <- <-. repeat split; assumption.
Qed.

End TreeOutcomes.

(** ** Collections, stored and restored *)

Section CollectionRoundTrip.

Context {U : Type}.
Variable host : byte_order.
Implicit Types (w : world U) (st : stream) (l : loc).
Implicit Types (c : avs_persistence_context_t).
Implicit Types (handler : avs_persistence_handler_collection_element_t (U := U)).
Implicit Types (cmp : list Z -> list Z -> Z) (enc : list Z -> list Z).

(** The store loop with an encoding handler: the encodings of the elements
    go out one after the other, in the order of the collection. *)
Lemma persist_foreach_codec handler c element_size enc :
  stores_as handler c element_size enc ->
  forall (lst : list loc) w st,
    streams w !! stream_of c = Some st ->
    (forall l, l ∈ lst ->
       exists b, heap w !! l = Some b /\ length b = Z.to_nat element_size) ->
    Z.of_nat (length (concat (map enc (map (bytes_at (heap w)) lst)))) <=
      room st ->
    persist_foreach c handler lst w =
      (0, set_streams
            <[stream_of c :=
                Stream (pending st
                        ++ concat (map enc (map (bytes_at (heap w)) lst)))
                       (room st -
                        Z.of_nat (length (concat (map enc (map (bytes_at (heap w))
                                                                lst)))))]> w).
Proof.
  intros Hstore. induction lst as [|l lst IH]; intros w st Hs Hlive Hroom.
  - simpl. unfold ret. rewrite app_nil_r, Z.sub_0_r.
    rewrite set_streams_insert_id; [reflexivity|].
    rewrite Hs. destruct st; reflexivity.
  - destruct (Hlive l) as (b & Hb & Hlen); [left|].
    assert (Hbl : bytes_at (heap w) l = b)
      by (unfold bytes_at; rewrite Hb; reflexivity).
    cbn [map concat] in Hroom |- *. rewrite Hbl in Hroom |- *.
    rewrite length_app in Hroom.
    cbn [persist_foreach]. unfold bind.
    rewrite (call_handler_live handler c l w b Hb).
    rewrite (Hstore b (streams w) (user w) st Hlen Hs) by lia.
    cbn [fst snd]. rewrite resize_all, (insert_id (heap w) l b Hb).
    change (0 =? 0) with true. cbv iota.
    set (w1 := World _ _ _ _ _).
    rewrite (IH w1 (Stream (pending st ++ enc b)
                           (room st - Z.of_nat (length (enc b))))).
    + f_equal. subst w1. cbn [heap pending room]. unfold set_streams.
      cbn [streams heap heap_room user cleaned].
      rewrite insert_insert_eq, <- app_assoc, length_app.
      apply world_eq; cbn [streams heap heap_room user cleaned];
        try reflexivity.
      f_equal. f_equal. lia.
    + subst w1. apply lookup_insert_eq.
    + intros k Hk. apply Hlive. right. exact Hk.
    + subst w1. cbn [heap room]. lia.
Qed.

(** The handler run of a decoding handler over encodings laid end to end. *)
Lemma handler_run_codec handler c element_size enc :
  restores_as handler c element_size enc ->
  forall (elements : list (list Z)) ss u st rest,
    Forall (fun e => length e = Z.to_nat element_size) elements ->
    ss !! stream_of c = Some st ->
    pending st = concat (map enc elements) ++ rest ->
    handler_run handler c element_size (length elements) (ss, u) =
      (0, elements, (<[stream_of c := Stream rest (room st)]> ss, u)).
Proof.
  intros Hrestore. induction elements as [|e elements IH];
    intros ss u st rest Hsizes Hs Hp.
  - simpl in *. rewrite insert_id; [reflexivity|].
    rewrite Hs. destruct st; simpl in *; subst; reflexivity.
  - apply Forall_cons in Hsizes as [He Hsizes].
    cbn [map concat] in Hp. rewrite <- app_assoc in Hp.
    cbn [length handler_run].
    rewrite (Hrestore e ss u st _ He Hs Hp).
    change (0 =? 0) with true. cbv iota.
    rewrite (IH _ u (Stream (concat (map enc elements) ++ rest) (room st)) rest
               Hsizes (lookup_insert_eq _ _ _) eq_refl).
    cbn [room]. rewrite insert_insert_eq.
    rewrite <- He, resize_all. reflexivity.
Qed.

(** X18. A list round-trips through a handler that encodes and decodes its
    elements: the store operation writes the 32-bit count and then the
    encodings of the elements in list order; the restore operation, run on
    what was written, builds a list of fresh elements whose contents are, in
    the same order, those of the stored elements, and leaves every block that
    was on the heap as it was. *)
Theorem list_round_trip this this' s w st (lst : list loc) element_size
    handler enc
    (cleanup cleanup' : option (avs_persistence_cleanup_collection_element_t
                                  (U := U))) :
  let store_ctx := INIT_STORE_CONTEXT this s in
  let restore_ctx := INIT_RESTORE_CONTEXT this' s in
  let elements := map (bytes_at (heap w)) lst in
  let wire := be_bytes 4 (Z.of_nat (length lst)) ++ concat (map enc elements) in
  let stored := set_streams
                  <[s := Stream (pending st ++ wire)
                                (room st - Z.of_nat (length wire))]> w in
  stores_as handler store_ctx element_size enc ->
  restores_as handler restore_ctx element_size enc ->
  streams w !! s = Some st ->
  (forall l, l ∈ lst ->
     exists b, heap w !! l = Some b /\ length b = Z.to_nat element_size) ->
  Z.of_nat (length lst) < 2 ^ 32 ->
  0 <= element_size ->
  Z.of_nat (length wire) <= room st ->
  avs_persistence_list host (Some store_ctx) lst element_size handler cleanup w =
    ((0, lst), stored)
  /\ (pending st = [] ->
      Z.of_nat (length lst) * element_size <= heap_room w ->
      exists lst' w',
        avs_persistence_list host (Some restore_ctx) [] element_size handler
          cleanup' stored = ((0, lst'), w')
        /\ map (bytes_at (heap w')) lst' = elements
        /\ NoDup lst'
        /\ (forall l, l ∈ lst' -> heap w !! l = None)
        /\ (forall l, l ∉ lst' -> heap w' !! l = heap w !! l)
        /\ streams w' =
             <[s := Stream [] (room st - Z.of_nat (length wire))]> (streams w)
        /\ user w' = user w /\ cleaned w' = cleaned w).
Proof.
  intros store_ctx restore_ctx elements wire stored Hstore Hrestore Hs Hlive
    HN Hsz Hroom.
  assert (Hwire : length wire =
                  (4 + length (concat (map enc elements)))%nat).
  { subst wire. rewrite length_app, be_bytes_length. reflexivity. }
  split.
  - unfold avs_persistence_list.
    cbn [store_ctx INIT_STORE_CONTEXT handle_list call_list]. fold store_ctx.
    destruct (persist_collection_fits host store_ctx lst element_size handler
                cleanup (fun _ _ => 0) w st Hs ltac:(lia) HN) as [-> _].
    set (w1 := set_streams _ w).
    rewrite (persist_foreach_codec handler store_ctx element_size enc Hstore
               lst w1 (Stream (pending st ++ be_bytes 4 (Z.of_nat (length lst)))
                              (room st - 4))).
    + cbn [fst snd]. f_equal. subst w1 stored.
      rewrite set_streams_insert_insert. cbn [pending room heap stream_of
                                               store_ctx INIT_STORE_CONTEXT].
      unfold set_streams. apply world_eq;
        cbn [streams heap heap_room user cleaned]; try reflexivity.
      fold elements. subst wire. rewrite <- app_assoc.
      f_equal. f_equal. rewrite length_app, be_bytes_length. lia.
    + subst w1. rewrite streams_set_streams. apply lookup_insert_eq.
    + exact Hlive.
    + cbn [room]. change (heap w1) with (heap w). fold elements. lia.
  - intros Hp Hheap.
    assert (Hsizes : Forall (fun e => length e = Z.to_nat element_size)
                            elements).
    { subst elements. apply Forall_forall. intros e He.
      apply list_elem_of_fmap in He as (l & -> & Hl).
      destruct (Hlive l Hl) as (b & Hb & Hlen).
      unfold bytes_at. rewrite Hb. exact Hlen. }
    assert (Hcount : length elements = length lst)
      by (subst elements; apply length_map).
    pose proof (handler_run_codec handler restore_ctx element_size enc Hrestore
                  elements
                  (<[s := Stream (concat (map enc elements))
                                 (room st - Z.of_nat (length wire))]>
                     (streams stored))
                  (user stored)
                  (Stream (concat (map enc elements))
                          (room st - Z.of_nat (length wire)))
                  [] Hsizes (lookup_insert_eq _ _ _)
                  (eq_sym (app_nil_r _))) as Hrun.
    rewrite Hcount, <- (Nat2Z.id (length lst)) in Hrun.
    cbn [room stream_of restore_ctx INIT_RESTORE_CONTEXT] in Hrun.
    edestruct (restore_list_succeeds host restore_ctx stored
                 (Stream wire (room st - Z.of_nat (length wire)))
                 (Z.of_nat (length lst)) (concat (map enc elements))
                 element_size handler cleanup' elements)
      as (items & Hcall & Hels & Hnd & Hfresh); [..|exact Hrun|].
    + subst stored. rewrite streams_set_streams, Hp. apply lookup_insert_eq.
    + reflexivity.
    + lia.
    + exact Hsz.
    + exact Hheap.
    + eexists _, _. split; [exact Hcall|].
      cbn [heap heap_room streams user cleaned fst snd room stream_of
           restore_ctx INIT_RESTORE_CONTEXT].
      split; [rewrite (bytes_at_allocated items _ Hnd); exact Hels|].
      split; [exact Hnd|]. split; [exact Hfresh|].
      split; [|split; [|split; reflexivity]].
      * intros l Hl. apply lookup_union_r.
        apply not_elem_of_list_to_map_1. exact Hl.
      * subst stored. cbn [streams set_streams].
        rewrite !insert_insert_eq. reflexivity.
Qed.

(** X19. A tree whose elements have pairwise distinct keys round-trips
    through a handler that encodes and decodes its elements: the store
    operation writes the 32-bit count and then the encodings of the elements
    in tree order; the restore operation, run on what was written and given
    an empty tree, succeeds and builds a tree of as many fresh elements, whose
    contents are those of the stored elements up to order. *)
Theorem tree_round_trip this this' s w st (elems : list loc) cmp element_size
    handler enc
    (cleanup cleanup' : option (avs_persistence_cleanup_collection_element_t
                                  (U := U))) :
  let store_ctx := INIT_STORE_CONTEXT this s in
  let restore_ctx := INIT_RESTORE_CONTEXT this' s in
  let elements := map (bytes_at (heap w)) elems in
  let wire := be_bytes 4 (Z.of_nat (length elems)) ++ concat (map enc elements) in
  let stored := set_streams
                  <[s := Stream (pending st ++ wire)
                                (room st - Z.of_nat (length wire))]> w in
  stores_as handler store_ctx element_size enc ->
  restores_as handler restore_ctx element_size enc ->
  streams w !! s = Some st ->
  (forall l, l ∈ elems ->
     exists b, heap w !! l = Some b /\ length b = Z.to_nat element_size) ->
  distinct_keys cmp [] elements ->
  Z.of_nat (length elems) < 2 ^ 32 ->
  0 <= element_size ->
  Z.of_nat (length wire) <= room st ->
  avs_persistence_tree host (Some store_ctx) (RBTree cmp elems) element_size
    handler cleanup w = ((0, RBTree cmp elems), stored)
  /\ (pending st = [] ->
      Z.of_nat (length elems) * element_size <= heap_room w ->
      exists tree' w',
        avs_persistence_tree host (Some restore_ctx) (RBTree cmp [])
          element_size handler cleanup' stored = ((0, tree'), w')
        /\ AVS_RBTREE_SIZE tree' = Z.of_nat (length elems)
        /\ map (bytes_at (heap w')) (rb_elems tree') ≡ₚ elements
        /\ NoDup (rb_elems tree')
        /\ (forall l, l ∈ rb_elems tree' -> heap w !! l = None)
        /\ (forall l, l ∉ rb_elems tree' -> heap w' !! l = heap w !! l)
        /\ streams w' =
             <[s := Stream [] (room st - Z.of_nat (length wire))]> (streams w)
        /\ user w' = user w /\ cleaned w' = cleaned w).
Proof.
  intros store_ctx restore_ctx elements wire stored Hstore Hrestore Hs Hlive
    Hdist HN Hsz Hroom.
  assert (Hwire : length wire =
                  (4 + length (concat (map enc elements)))%nat).
  { subst wire. rewrite length_app, be_bytes_length. reflexivity. }
  split.
  - unfold avs_persistence_tree.
    cbn [store_ctx INIT_STORE_CONTEXT handle_tree call_tree]. fold store_ctx.
    destruct (persist_collection_fits host store_ctx elems element_size handler
                cleanup cmp w st Hs ltac:(lia) HN) as [_ ->].
    set (w1 := set_streams _ w).
    rewrite (persist_foreach_codec handler store_ctx element_size enc Hstore
               elems w1
               (Stream (pending st ++ be_bytes 4 (Z.of_nat (length elems)))
                       (room st - 4))).
    + cbn [fst snd]. f_equal. subst w1 stored.
      rewrite set_streams_insert_insert. cbn [pending room heap stream_of
                                               store_ctx INIT_STORE_CONTEXT].
      unfold set_streams. apply world_eq;
        cbn [streams heap heap_room user cleaned]; try reflexivity.
      fold elements. subst wire. rewrite <- app_assoc.
      f_equal. f_equal. rewrite length_app, be_bytes_length. lia.
    + subst w1. rewrite streams_set_streams. apply lookup_insert_eq.
    + exact Hlive.
    + cbn [room]. change (heap w1) with (heap w). fold elements. lia.
  - intros Hp Hheap.
    assert (Hsizes : Forall (fun e => length e = Z.to_nat element_size)
                            elements).
    { subst elements. apply Forall_forall. intros e He.
      apply list_elem_of_fmap in He as (l & -> & Hl).
      destruct (Hlive l Hl) as (b & Hb & Hlen).
      unfold bytes_at. rewrite Hb. exact Hlen. }
    assert (Hcount : length elements = length elems)
      by (subst elements; apply length_map).
    pose proof (handler_run_codec handler restore_ctx element_size enc Hrestore
                  elements
                  (<[s := Stream (concat (map enc elements))
                                 (room st - Z.of_nat (length wire))]>
                     (streams stored))
                  (user stored)
                  (Stream (concat (map enc elements))
                          (room st - Z.of_nat (length wire)))
                  [] Hsizes (lookup_insert_eq _ _ _)
                  (eq_sym (app_nil_r _))) as Hrun.
    rewrite Hcount, <- (Nat2Z.id (length elems)) in Hrun.
    cbn [room stream_of restore_ctx INIT_RESTORE_CONTEXT] in Hrun.
    edestruct (restore_tree_succeeds host restore_ctx stored
                 (Stream wire (room st - Z.of_nat (length wire)))
                 (Z.of_nat (length elems)) (concat (map enc elements))
                 element_size handler cleanup' cmp elements)
      as (elems' & items & Hcall & Hperm & Hels & Hnd & Hfresh);
      [..|exact Hrun|exact Hdist|].
    + subst stored. rewrite streams_set_streams, Hp. apply lookup_insert_eq.
    + reflexivity.
    + lia.
    + exact Hsz.
    + exact Hheap.
    + eexists _, _. split; [exact Hcall|].
      cbn [heap heap_room streams user cleaned fst snd room stream_of
           restore_ctx INIT_RESTORE_CONTEXT rb_elems].
      unfold AVS_RBTREE_SIZE. cbn [rb_elems].
      split; [rewrite Hperm, length_fmap, <- (length_fmap snd items), Hels,
                Hcount; reflexivity|].
      split; [rewrite Hperm, (bytes_at_allocated items _ Hnd), Hels;
              reflexivity|].
      split; [rewrite Hperm; exact Hnd|].
      split; [intros l Hl; rewrite Hperm in Hl; exact (Hfresh l Hl)|].
      split; [|split; [|split; reflexivity]].
      * intros l Hl. rewrite Hperm in Hl. apply lookup_union_r.
        apply not_elem_of_list_to_map_1. exact Hl.
      * subst stored. cbn [streams set_streams].
        rewrite !insert_insert_eq. reflexivity.
Qed.

End CollectionRoundTrip.

(** ** Ignore mode: failures, and what it leaves alone *)

Section IgnoreOutcomes.

Context {U : Type}.
Variable host : byte_order.
Implicit Types (w : world U) (st : stream) (c : avs_persistence_context_t).
Implicit Types (handler : avs_persistence_handler_collection_element_t (U := U)).
Implicit Types
  (cleanup : option (avs_persistence_cleanup_collection_element_t (U := U))).

(** Skipping more bytes than the stream holds fails, however many full
    scratch-buffer chunks could be skipped first. *)
Lemma ignore_bytes_loop_short c (m : nat) :
  forall n w st,
    length (pending st) = m ->
    streams w !! stream_of c = Some st ->
    Z.of_nat (length (pending st)) < n ->
    ignore_bytes_loop c n w =
      (-1, set_streams <[stream_of c := Stream [] (room st)]> w).
Proof.
  induction m as [m IH] using lt_wf_ind. intros n w st Hm Hs Hn.
  rewrite ignore_bytes_loop_step by lia. cbv zeta.
  set (chunk := if n <? 512 then n else 512).
  assert (Hchunk : 0 < chunk <= n).
  { subst chunk. destruct (Z.ltb_spec n 512); lia. }
  destruct (Z_lt_le_dec (Z.of_nat (length (pending st))) chunk) as [Hshort|Hfull].
  - rewrite (read_short (stream_of c) _ chunk w st Hs Hshort). reflexivity.
  - assert (Hbig : chunk = 512).
    { subst chunk. destruct (Z.ltb_spec n 512); [lia | reflexivity]. }
    assert (Hsplit : pending st =
                     take (Z.to_nat chunk) (pending st) ++
                     drop (Z.to_nat chunk) (pending st))
      by (symmetry; apply take_drop).
    rewrite (read_success (stream_of c) _ chunk w st _ _ Hs Hsplit)
      by (rewrite length_take; lia).
    change (0 =? 0) with true. cbv iota.
    set (w1 := set_streams _ w).
    rewrite (IH (length (drop (Z.to_nat chunk) (pending st)))
               ltac:(rewrite length_drop; lia) (n - chunk) w1
               (Stream (drop (Z.to_nat chunk) (pending st)) (room st))
               eq_refl).
    + subst w1. rewrite set_streams_insert_insert. reflexivity.
    + subst w1. rewrite streams_set_streams. apply lookup_insert_eq.
    + cbn [pending]. rewrite length_drop. lia.
Qed.

(** X20. Skipping raw bytes, a sized buffer or a string in ignore mode when
    the stream holds fewer bytes than asked for or declared: the operation
    fails, after as many chunks of the scratch buffer as the stream could
    fill, and the caller's arguments are handed back as they were. *)
Theorem ignore_short_stream this s w st buffer n len body data size string :
  let ctx := Some (INIT_IGNORE_CONTEXT this s) in
  streams w !! s = Some st ->
  (Z.of_nat (length (pending st)) < n ->
   (avs_persistence_bytes ctx buffer n w).1 = (-1, buffer))
  /\ (pending st = be_bytes 4 len ++ body ->
      Z.of_nat (length body) < len < 2 ^ 32 ->
      (avs_persistence_sized_buffer host ctx data size w).1 = (-1, data, size)
      /\ (avs_persistence_string host ctx string w).1 = (-1, string)).
Proof.
  intros ctx Hs.
  set (c := INIT_IGNORE_CONTEXT this s).
  split.
  - intros Hn. unfold ctx, avs_persistence_bytes.
    cbn [INIT_IGNORE_CONTEXT handle_bytes call_bytes]. fold c.
    unfold ignore_bytes, bind, ret.
    rewrite (ignore_bytes_loop_short c _ n w st eq_refl Hs Hn). reflexivity.
  - intros Hp Hlen.
    assert (Hrun : forall data size,
              (ignore_sized_buffer host c data size w).1 = (-1, data, size)).
    { intros data0 size0. unfold ignore_sized_buffer, bind.
      rewrite (restore_u32_prefix host c 0 len w st body Hs Hp) by lia.
      change (0 =? 0) with true. cbv iota.
      set (w1 := set_streams _ w). unfold ignore_bytes, bind, ret.
      rewrite (ignore_bytes_loop_short c _ len w1 (Stream body (room st))
                 eq_refl).
      - reflexivity.
      - subst w1. rewrite streams_set_streams. apply lookup_insert_eq.
      - cbn [pending]. lia. }
    split.
    + exact (Hrun data size).
    + unfold ctx, avs_persistence_string.
      cbn [INIT_IGNORE_CONTEXT handle_string call_string]. fold c.
      unfold ignore_string, bind. specialize (Hrun None 0).
      destruct (ignore_sized_buffer host c None 0 w) as [[[r d] sz] w1].
      cbn [fst] in Hrun. injection Hrun as -> _ _. reflexivity.
Qed.

(** X21. Ignoring a collection whose element handler follows the contract of
    ignore mode, when the handler rejects an element: the ignore operation
    stops at that element and returns the handler's status, for a list and
    for a tree, having called the handler as often, and left the streams and
    the user state, as the handler run of restore mode does; the collection
    argument is handed back as it was and nothing is allocated. *)
Theorem ignore_collection_handler_failure this this' s w st N rest
    element_size handler cleanup (lst : list loc) tree retval elements env :
  let ignore_ctx := INIT_IGNORE_CONTEXT this s in
  let restore_ctx := INIT_RESTORE_CONTEXT this' s in
  skips_like_restore handler ignore_ctx restore_ctx ->
  streams w !! s = Some st ->
  pending st = be_bytes 4 N ++ rest ->
  0 <= N < 2 ^ 32 ->
  handler_run handler restore_ctx element_size (Z.to_nat N)
    (<[s := Stream rest (room st)]> (streams w), user w) =
    (retval, elements, env) ->
  retval <> 0 ->
  let stopped := World env.1 (heap w) (heap_room w) env.2 (cleaned w) in
  avs_persistence_list host (Some ignore_ctx) lst element_size handler cleanup w =
    ((retval, lst), stopped)
  /\ avs_persistence_tree host (Some ignore_ctx) tree element_size handler
       cleanup w = ((retval, tree), stopped).
Proof.
  intros ignore_ctx restore_ctx Hskip Hs Hp HN Hrun Hret stopped.
  assert (Hcoll : ignore_collection host ignore_ctx handler w =
                  (retval, stopped)).
  { unfold ignore_collection, bind.
    rewrite (restore_u32_prefix host ignore_ctx 0 N w st rest Hs Hp HN).
    set (w1 := set_streams _ w).
    exact (ignore_collection_loop_run handler ignore_ctx restore_ctx
             element_size (Z.to_nat N) Hskip w1 retval elements env Hrun). }
  unfold avs_persistence_list, avs_persistence_tree.
  cbn [ignore_ctx INIT_IGNORE_CONTEXT handle_list handle_tree call_list
       call_tree]. fold ignore_ctx.
  unfold ignore_list, ignore_tree, bind. rewrite Hcoll. split; reflexivity.
Qed.

(** What a read leaves alone. *)
Lemma read_frame s buffer n w :
  let w' := (avs_stream_read_reliably s buffer n w).2 in
  heap w' = heap w /\ heap_room w' = heap_room w /\ cleaned w' = cleaned w.
Proof.
  unfold avs_stream_read_reliably.
  destruct (streams w !! s); repeat split; reflexivity.
Qed.

Lemma ignore_bytes_loop_frame c (m : nat) :
  forall n w,
    Z.to_nat n = m ->
    let w' := (ignore_bytes_loop c n w).2 in
    heap w' = heap w /\ heap_room w' = heap_room w /\ cleaned w' = cleaned w.
Proof.
  induction m as [m IH] using lt_wf_ind. intros n w Hm.
  destruct (Z_lt_le_dec 0 n) as [Hpos|Hzero].
  - rewrite ignore_bytes_loop_step by exact Hpos. cbv zeta.
    set (chunk := if n <? 512 then n else 512).
    assert (Hchunk : 0 < chunk <= n).
    { subst chunk. destruct (Z.ltb_spec n 512); lia. }
    pose proof (read_frame (stream_of c) (replicate 512 0) chunk w) as Hread.
    destruct (avs_stream_read_reliably _ _ chunk w) as [[r b] w1].
    cbn [snd] in Hread. destruct Hread as (Hh & Hr & Hc).
    destruct (r =? 0).
    + destruct (IH (Z.to_nat (n - chunk)) ltac:(lia) (n - chunk) w1 eq_refl)
        as (Hh' & Hr' & Hc').
      cbv zeta in *. rewrite Hh', Hr', Hc'. repeat split; assumption.
    + cbn [snd]. repeat split; assumption.
  - rewrite ignore_bytes_loop_done by exact Hzero. repeat split; reflexivity.
Qed.

Lemma ignore_collection_loop_frame c handler count :
  forall retval w,
    let w' := (ignore_collection_loop c handler count retval w).2 in
    heap w' = heap w /\ heap_room w' = heap_room w /\ cleaned w' = cleaned w.
Proof.
  induction count as [|count IH]; intros retval w; cbn [ignore_collection_loop].
  - destruct (retval =? 0); repeat split; reflexivity.
  - destruct (retval =? 0); [|repeat split; reflexivity].
    unfold bind, call_handler. cbn [mbind option_bind].
    destruct (handler c None (streams w, user w)) as [[r b] [ss u]].
    destruct (IH r (World ss (heap w) (heap_room w) u (cleaned w)))
      as (Hh & Hr & Hc).
    cbv zeta in *. rewrite Hh, Hr, Hc. repeat split; reflexivity.
Qed.

(** X22. Ignore mode never allocates, frees or cleans up, and never writes
    through the caller's pointers: whatever the stream holds and whatever the
    element handler does, each operation of an ignore context leaves the
    heap, the allocator and the record of cleanup calls as they were and
    hands its destination arguments back unchanged. *)
Theorem ignore_leaves_memory_alone this s w ty out buffer n data size string
    (lst : list loc) tree element_size handler cleanup :
  let ctx := Some (INIT_IGNORE_CONTEXT this s) in
  let untouched (w' : world U) :=
    heap w' = heap w /\ heap_room w' = heap_room w /\ cleaned w' = cleaned w in
  scalar_value ty out ->
  (let r := avs_persistence_scalar host ty ctx out w in
   r.1.2 = out /\ untouched r.2)
  /\ (let r := avs_persistence_bytes ctx buffer n w in
      r.1.2 = buffer /\ untouched r.2)
  /\ (let r := avs_persistence_sized_buffer host ctx data size w in
      r.1.1.2 = data /\ r.1.2 = size /\ untouched r.2)
  /\ (let r := avs_persistence_string host ctx string w in
      r.1.2 = string /\ untouched r.2)
  /\ (let r := avs_persistence_list host ctx lst element_size handler cleanup w in
      r.1.2 = lst /\ untouched r.2)
  /\ (let r := avs_persistence_tree host ctx tree element_size handler cleanup w in
      r.1.2 = tree /\ untouched r.2).
Proof.
  intros ctx untouched Hout.
  set (c := INIT_IGNORE_CONTEXT this s).
  assert (Hfixed : forall buf k,
            untouched (avs_stream_read_reliably (stream_of c) buf k w).2)
    by (intros; apply read_frame).
  assert (Hbytes : forall k, untouched (ignore_bytes_loop c k w).2)
    by (intros k; exact (ignore_bytes_loop_frame c _ k w eq_refl)).
  assert (Hsized : forall d sz,
            let r := ignore_sized_buffer host c d sz w in
            r.1.1.2 = d /\ r.1.2 = sz /\ untouched r.2).
  { intros d sz. unfold ignore_sized_buffer, bind.
    destruct (restore_u32_frame host c 0 w)
      as (r0 & count & w1 & -> & Hh & Hr & _ & Hc).
    destruct (r0 =? 0).
    - unfold ignore_bytes, bind, ret.
      pose proof (ignore_bytes_loop_frame c _ count w1 eq_refl) as Hloop.
      destruct (ignore_bytes_loop c count w1) as [r w2].
      cbn [fst snd] in *. destruct Hloop as (Hh2 & Hr2 & Hc2).
      unfold untouched. rewrite Hh2, Hr2, Hc2. repeat split; assumption.
    - unfold ret. cbn [fst snd]. repeat split; assumption. }
  assert (Hcoll : untouched (ignore_collection host c handler w).2).
  { unfold ignore_collection, bind.
    destruct (restore_u32_frame host c 0 w)
      as (r0 & count & w1 & -> & Hh & Hr & _ & Hc).
    destruct (ignore_collection_loop_frame c handler (Z.to_nat count) r0 w1)
      as (Hh2 & Hr2 & Hc2).
    unfold untouched. cbv zeta in *. rewrite Hh2, Hr2, Hc2.
    repeat split; assumption. }
  split; [|split; [|split; [|split; [|split]]]].
  - destruct ty; unfold scalar_value in Hout; simpl in Hout;
      unfold ctx, avs_persistence_scalar, avs_persistence_u8,
        avs_persistence_i8, avs_persistence_i16, avs_persistence_i32,
        avs_persistence_i64, avs_persistence_u16, avs_persistence_u32,
        avs_persistence_u64, avs_persistence_bool, avs_persistence_float,
        avs_persistence_double;
      cbn [INIT_IGNORE_CONTEXT handle_bytes handle_u16 handle_u32
           handle_u64 handle_bool handle_float handle_double call_bytes
           call_u16 call_u32 call_u64 call_bool call_float call_double];
      fold c;
      unfold ignore_bytes, ignore_u16, ignore_u32, ignore_u64, ignore_bool,
        ignore_float, ignore_double, bind, ret;
      try (specialize (Hbytes 1); destruct (ignore_bytes_loop c 1 w));
      try match goal with
          | |- context [avs_stream_read_reliably ?s ?b ?k w] =>
              specialize (Hfixed b k);
              destruct (avs_stream_read_reliably s b k w) as [[? ?] ?]
          end;
      cbn [fst snd hd] in *; (split; [|assumption]); try reflexivity.
    + apply (to_signed_cast 8); lia.
    + apply (to_signed_cast 16); lia.
    + apply (to_signed_cast 32); lia.
    + apply (to_signed_cast 64); lia.
  - unfold ctx, avs_persistence_bytes.
    cbn [INIT_IGNORE_CONTEXT handle_bytes call_bytes]. fold c.
    unfold ignore_bytes, bind, ret. specialize (Hbytes n).
    destruct (ignore_bytes_loop c n w). split; [reflexivity | exact Hbytes].
  - exact (Hsized data size).
  - unfold ctx, avs_persistence_string.
    cbn [INIT_IGNORE_CONTEXT handle_string call_string]. fold c.
    unfold ignore_string, bind, ret. specialize (Hsized None 0).
    destruct (ignore_sized_buffer host c None 0 w) as [[[r d] sz] w1].
    split; [reflexivity | apply Hsized].
  - unfold ctx, avs_persistence_list.
    cbn [INIT_IGNORE_CONTEXT handle_list call_list]. fold c.
    unfold ignore_list, bind, ret.
    destruct (ignore_collection host c handler w).
    split; [reflexivity | exact Hcoll].
  - unfold ctx, avs_persistence_tree.
    cbn [INIT_IGNORE_CONTEXT handle_tree call_tree]. fold c.
    unfold ignore_tree, bind, ret.
    destruct (ignore_collection host c handler w).
    split; [reflexivity | exact Hcoll].
Qed.

End IgnoreOutcomes.

(** ** Store mode: what it leaves alone *)

Section StoreFrame.

Context {U : Type}.
Variable host : byte_order.
Implicit Types (w : world U) (st : stream) (c : avs_persistence_context_t).

(** What a write leaves alone: it appends to its stream or does nothing. *)
Lemma write_frame s buffer n w st :
  streams w !! s = Some st ->
  let w' := (avs_stream_write s buffer n w).2 in
  (exists st' tail,
     streams w' !! s = Some st' /\ pending st' = pending st ++ tail)
  /\ heap w' = heap w /\ heap_room w' = heap_room w
  /\ user w' = user w /\ cleaned w' = cleaned w.
Proof.
  intros Hs. unfold avs_stream_write. rewrite Hs.
  destruct (decide _); cbn [snd].
  - split; [|repeat split; reflexivity].
    eexists _, _. rewrite streams_set_streams, lookup_insert_eq.
    split; reflexivity.
  - split; [|repeat split; reflexivity].
    exists st, []. rewrite app_nil_r. split; [exact Hs | reflexivity].
Qed.

(** X23. Store mode only appends and only reads its arguments: whatever the
    room on the stream, the scalar, raw-bytes, sized-buffer and string
    operations of a store context hand their arguments back unchanged, keep
    every byte that was on the stream in place in front of what they add, and
    leave the heap, the allocator, the user state and the record of cleanup
    calls as they were. *)
Theorem store_leaves_memory_alone this s w st ty v buffer n data size string :
  let ctx := Some (INIT_STORE_CONTEXT this s) in
  let untouched (w' : world U) :=
    (exists st' tail,
       streams w' !! s = Some st' /\ pending st' = pending st ++ tail)
    /\ heap w' = heap w /\ heap_room w' = heap_room w
    /\ user w' = user w /\ cleaned w' = cleaned w in
  streams w !! s = Some st ->
  scalar_value ty v ->
  (let r := avs_persistence_scalar host ty ctx v w in
   r.1.2 = v /\ untouched r.2)
  /\ (let r := avs_persistence_bytes ctx buffer n w in
      r.1.2 = buffer /\ untouched r.2)
  /\ (let r := avs_persistence_sized_buffer host ctx data size w in
      r.1.1.2 = data /\ r.1.2 = size /\ untouched r.2)
  /\ (let r := avs_persistence_string host ctx string w in
      r.1.2 = string /\ untouched r.2).
Proof.
  intros ctx untouched Hs Hv.
  set (c := INIT_STORE_CONTEXT this s).
  assert (Hwrite : forall buf k, untouched (avs_stream_write s buf k w).2)
    by (intros; apply write_frame; exact Hs).
  assert (Hsized : forall d sz,
            let r := persist_sized_buffer host c d sz w in
            r.1.1.2 = d /\ r.1.2 = sz /\ untouched r.2).
  { intros d sz. unfold persist_sized_buffer, persist_u32, bind, ret.
    unfold c. cbn [INIT_STORE_CONTEXT stream_of].
    pose proof (write_frame s
                  (object_bytes host 4
                     (avs_convert_be32 host (cast_unsigned 32 sz))) 4 w st Hs)
      as Hfirst.
    destruct (avs_stream_write s _ 4 w) as [r1 w1].
    cbn [snd] in Hfirst.
    destruct Hfirst as ((st1 & tail1 & Hs1 & Hp1) & Hh1 & Hr1 & Hu1 & Hc1).
    destruct ((r1 =? 0) && (0 <? cast_unsigned 32 sz)).
    - unfold load, persist_bytes, bind, ret. cbn [INIT_STORE_CONTEXT stream_of].
      pose proof (write_frame s (default [] (d ≫= (heap w1 !!.))) sz w1 st1 Hs1)
        as Hsecond.
      destruct (avs_stream_write s _ sz w1) as [r2 w2].
      cbn [fst snd] in *.
      destruct Hsecond as ((st2 & tail2 & Hs2 & Hp2) & Hh2 & Hr2 & Hu2 & Hc2).
      split; [reflexivity|]. split; [reflexivity|]. split.
      + exists st2, (tail1 ++ tail2). split; [exact Hs2|].
        rewrite Hp2, Hp1, app_assoc. reflexivity.
      + repeat split; congruence.
    - cbn [fst snd]. split; [reflexivity|]. split; [reflexivity|]. split.
      + exists st1, tail1. split; assumption.
      + repeat split; assumption. }
  split; [|split; [|split]].
  - destruct ty; unfold scalar_value in Hv; simpl in Hv;
      unfold ctx, avs_persistence_scalar, avs_persistence_u8,
        avs_persistence_i8, avs_persistence_i16, avs_persistence_i32,
        avs_persistence_i64, avs_persistence_u16, avs_persistence_u32,
        avs_persistence_u64, avs_persistence_bool, avs_persistence_float,
        avs_persistence_double;
      cbn [INIT_STORE_CONTEXT handle_bytes handle_u16 handle_u32
           handle_u64 handle_bool handle_float handle_double call_bytes
           call_u16 call_u32 call_u64 call_bool call_float call_double];
      unfold persist_bytes, persist_u16, persist_u32, persist_u64,
        persist_bool, persist_float, persist_double, bind, ret;
      cbn [INIT_STORE_CONTEXT stream_of];
      match goal with
      | |- context [avs_stream_write s ?b ?k w] =>
          specialize (Hwrite b k);
          destruct (avs_stream_write s b k w) as [? ?]
      end;
      cbn [fst snd hd] in *; (split; [|assumption]); try reflexivity.
    + apply (to_signed_cast 8); lia.
    + apply (to_signed_cast 16); lia.
    + apply (to_signed_cast 32); lia.
    + apply (to_signed_cast 64); lia.
  - unfold ctx, avs_persistence_bytes.
    cbn [INIT_STORE_CONTEXT handle_bytes call_bytes].
    unfold persist_bytes, bind, ret. cbn [INIT_STORE_CONTEXT stream_of].
    specialize (Hwrite buffer n).
    destruct (avs_stream_write s buffer n w).
    split; [reflexivity | exact Hwrite].
  - exact (Hsized data size).
  - unfold ctx, avs_persistence_string.
    cbn [INIT_STORE_CONTEXT handle_string call_string]. fold c.
    unfold persist_string, bind, load, ret.
    match goal with
    | |- context [persist_sized_buffer host c string ?sz w] =>
        specialize (Hsized string sz);
        destruct (persist_sized_buffer host c string sz w) as [[[r d] sz'] w1]
    end.
    split; [reflexivity | apply Hsized].
Qed.

(** X24. A collection whose count cannot be written: when the stream has no
    room for the four bytes of the count, storing a list or a tree fails with
    nothing written, and the element handler is not called. *)
Theorem persist_collection_no_room this s w st (lst : list loc) element_size
    (handler : avs_persistence_handler_collection_element_t (U := U))
    (cleanup : option (avs_persistence_cleanup_collection_element_t (U := U)))
    (cmp : list Z -> list Z -> Z) :
  let ctx := Some (INIT_STORE_CONTEXT this s) in
  streams w !! s = Some st ->
  room st < 4 ->
  Z.of_nat (length lst) < 2 ^ 32 ->
  avs_persistence_list host ctx lst element_size handler cleanup w =
    ((-1, lst), w)
  /\ avs_persistence_tree host ctx (RBTree cmp lst) element_size handler
       cleanup w = ((-1, RBTree cmp lst), w).
Proof.
  intros ctx Hs Hroom HN.
  set (c := INIT_STORE_CONTEXT this s).
  assert (Hcast : cast_unsigned 32 (Z.of_nat (length lst)) =
                  Z.of_nat (length lst)).
  { unfold cast_unsigned. apply Z.mod_small. lia. }
  unfold ctx, avs_persistence_list, avs_persistence_tree.
  cbn [INIT_STORE_CONTEXT handle_list handle_tree call_list call_tree]. fold c.
  unfold persist_list, persist_tree, AVS_LIST_SIZE, AVS_RBTREE_SIZE.
  cbn [rb_elems]. rewrite Hcast, Z.eqb_refl. cbn [negb]. unfold bind.
  rewrite (persist_u32_full host c _ w st Hs Hroom). split; reflexivity.
Qed.

End StoreFrame.

(** ** The properties above on concrete worlds *)

(** The five bytes at address 7, stored and read back into a fresh block. *)
Lemma sized_buffer_round_trip_witness :
  let w := Sample.world_with_block in
  let block := [0x48; 0x69; 0; 0x21; 0x21] in
  let stored :=
    set_streams <[0%nat := Stream [0; 0; 0; 5; 0x48; 0x69; 0; 0x21; 0x21] 55]> w in
  (streams w !! 0%nat = Some (Stream [] 64)
   /\ heap w !! 7%nat = Some block
   /\ 0 < Z.of_nat (length block) < 2 ^ 32
   /\ 4 + Z.of_nat (length block) <= 64
   /\ Z.of_nat (length block) <= heap_room w)
  /\ avs_persistence_sized_buffer LittleEndian (Some Example.store_ctx)
       (Some 7%nat) 5 w = ((0, Some 7%nat, 5), stored)
  /\ avs_persistence_sized_buffer LittleEndian (Some Example.restore_ctx)
       None 0 stored =
       ((0, Some (fresh (dom (heap w))), 5),
        World (<[0%nat := Stream [] 55]> (streams w))
              (<[fresh (dom (heap w)) := block]> (heap w))
              (heap_room w - 5) tt []).
Proof.
  intros w block stored.
  assert (H1 : streams w !! 0%nat = Some (Stream [] 64)) by reflexivity.
  assert (H2 : heap w !! 7%nat = Some block) by reflexivity.
  assert (H3 : 0 < Z.of_nat (length block) < 2 ^ 32) by (simpl; lia).
  assert (H4 : 4 + Z.of_nat (length block) <= room (Stream [] 64))
    by (simpl; lia).
  assert (H5 : Z.of_nat (length block) <= heap_room w) by (simpl; lia).
  split; [repeat split; assumption || apply H3|].
  destruct (sized_buffer_round_trip LittleEndian 100%nat 101%nat 0%nat w
              (Stream [] 64) 7%nat block H1 H2 H3 H4) as [Hstore Hrestore].
  split; [exact Hstore|].
  exact (proj2 (Hrestore eq_refl H5)).
Defined.

(** A size of zero on a null data pointer. *)
Lemma empty_sized_buffer_round_trip_witness :
  let w := Example.world_with [] in
  let stored := set_streams <[0%nat := Stream [0; 0; 0; 0] 60]> w in
  (streams w !! 0%nat = Some (Stream [] 64) /\ 4 <= 64)
  /\ avs_persistence_sized_buffer LittleEndian (Some Example.store_ctx)
       None 0 w = ((0, None, 0), stored)
  /\ avs_persistence_sized_buffer LittleEndian (Some Example.restore_ctx)
       None 0 stored = ((0, None, 0), set_streams <[0%nat := Stream [] 60]> w).
Proof.
  intros w stored.
  assert (H1 : streams w !! 0%nat = Some (Stream [] 64)) by reflexivity.
  assert (H2 : 4 <= room (Stream [] 64)) by (simpl; lia).
  split; [split; [exact H1 | lia]|].
  destruct (empty_sized_buffer_round_trip LittleEndian 100%nat 101%nat 0%nat w
              (Stream [] 64) None H1 H2) as [Hstore Hrestore].
  split; [exact Hstore | exact (Hrestore eq_refl)].
Defined.

(** Five bytes for a stream with room for six: the length goes out, the
    bytes do not. *)
Lemma persist_sized_buffer_no_room_witness :
  let w := Sample.world_with_room 6 in
  (streams w !! 0%nat = Some (Stream [] 6)
   /\ heap w !! 7%nat = Some [0x48; 0x69; 0; 0x21; 0x21]
   /\ 0 < 5 < 2 ^ 32 /\ 6 < 4 + 5)
  /\ avs_persistence_sized_buffer LittleEndian (Some Example.store_ctx)
       (Some 7%nat) 5 w =
       ((-1, Some 7%nat, 5), set_streams <[0%nat := Stream [0; 0; 0; 5] 2]> w).
Proof.
  intros w.
  assert (H1 : streams w !! 0%nat = Some (Stream [] 6)) by reflexivity.
  assert (H2 : heap w !! 7%nat = Some [0x48; 0x69; 0; 0x21; 0x21])
    by reflexivity.
  assert (H3 : 0 < 5 < 2 ^ 32) by lia.
  assert (H4 : room (Stream [] 6) < 4 + 5) by (simpl; lia).
  split; [repeat split; assumption || lia|].
  exact (persist_sized_buffer_no_room LittleEndian 100%nat 0%nat w
           (Stream [] 6) 7%nat _ 5 H1 H2 H3 H4).
Defined.

(** A declared length of 5 followed by two bytes. *)
Lemma restore_sized_buffer_truncated_witness :
  let w := Example.world_with [0; 0; 0; 5; 0x48; 0x69] in
  (streams w !! 0%nat = Some (Stream [0; 0; 0; 5; 0x48; 0x69] 64)
   /\ Z.of_nat (length [0x48; 0x69]) < 5 < 2 ^ 32
   /\ 5 <= heap_room w)
  /\ exists w',
       avs_persistence_sized_buffer LittleEndian (Some Example.restore_ctx)
         None 0 w = ((-1, None, 0), w')
       /\ avs_persistence_string LittleEndian (Some Example.restore_ctx) None w =
            ((-1, None), w')
       /\ heap w' = heap w /\ heap_room w' = heap_room w.
Proof.
  intros w.
  assert (H1 : streams w !! 0%nat = Some (Stream [0; 0; 0; 5; 0x48; 0x69] 64))
    by reflexivity.
  assert (H2 : Z.of_nat (length [0x48; 0x69]) < 5 < 2 ^ 32) by (simpl; lia).
  assert (H3 : 5 <= heap_room w) by (simpl; lia).
  split; [repeat split; assumption || apply H2|].
  exact (restore_sized_buffer_truncated LittleEndian 101%nat 0%nat w _ 5
           [0x48; 0x69] H1 eq_refl H2 H3).
Defined.

(** A declared length of 5 when the allocator has 3 bytes left. *)
Lemma restore_sized_buffer_out_of_memory_witness :
  let w := Example.world_with_heap [0; 0; 0; 5; 1; 2; 3; 4; 5; 9] 3 in
  let after := set_streams <[0%nat := Stream [1; 2; 3; 4; 5; 9] 64]> w in
  (streams w !! 0%nat = Some (Stream [0; 0; 0; 5; 1; 2; 3; 4; 5; 9] 64)
   /\ 0 < 5 < 2 ^ 32 /\ heap_room w < 5)
  /\ avs_persistence_sized_buffer LittleEndian (Some Example.restore_ctx)
       None 0 w = ((-1, None, 0), after)
  /\ avs_persistence_string LittleEndian (Some Example.restore_ctx) None w =
       ((-1, None), after).
Proof.
  intros w after.
  assert (H1 : streams w !! 0%nat =
               Some (Stream [0; 0; 0; 5; 1; 2; 3; 4; 5; 9] 64)) by reflexivity.
  assert (H2 : 0 < 5 < 2 ^ 32) by lia.
  assert (H3 : heap_room w < 5) by (simpl; lia).
  split; [repeat split; assumption || lia|].
  exact (restore_sized_buffer_out_of_memory LittleEndian 101%nat 0%nat w _ 5
           [1; 2; 3; 4; 5; 9] H1 eq_refl H2 H3).
Defined.

(** The string "Hi" in a block that holds two more bytes after its NUL. *)
Lemma string_round_trip_witness :
  let w := Sample.world_with_block in
  let stored :=
    set_streams <[0%nat := Stream [0; 0; 0; 3; 0x48; 0x69; 0] 57]> w in
  (streams w !! 0%nat = Some (Stream [] 64)
   /\ heap w !! 7%nat = Some ([0x48; 0x69] ++ 0 :: [0x21; 0x21])
   /\ Forall (fun ch => ch <> 0) [0x48; 0x69]
   /\ Z.of_nat (length [0x48; 0x69]) + 1 < 2 ^ 32
   /\ 4 + (Z.of_nat (length [0x48; 0x69]) + 1) <= 64)
  /\ avs_persistence_string LittleEndian (Some Example.store_ctx)
       (Some 7%nat) w = ((0, Some 7%nat), stored)
  /\ avs_persistence_string LittleEndian (Some Example.restore_ctx)
       None stored =
       ((0, Some (fresh (dom (heap w)))),
        World (<[0%nat := Stream [] 57]> (streams w))
              (<[fresh (dom (heap w)) := [0x48; 0x69; 0]]> (heap w))
              (heap_room w - 3) tt []).
Proof.
  intros w stored.
  assert (H1 : streams w !! 0%nat = Some (Stream [] 64)) by reflexivity.
  assert (H2 : heap w !! 7%nat = Some ([0x48; 0x69] ++ 0 :: [0x21; 0x21]))
    by reflexivity.
  assert (H3 : Forall (fun ch => ch <> 0) [0x48; 0x69])
    by (repeat constructor; discriminate).
  assert (H4 : Z.of_nat (length [0x48; 0x69]) + 1 < 2 ^ 32) by (simpl; lia).
  assert (H5 : 4 + (Z.of_nat (length [0x48; 0x69]) + 1) <= room (Stream [] 64))
    by (simpl; lia).
  split; [repeat split; assumption|].
  destruct (string_round_trip LittleEndian 100%nat 101%nat 0%nat w
              (Stream [] 64) 7%nat [0x48; 0x69] [0x21; 0x21] H1 H2 H3 H4 H5)
    as [Hstore Hrestore].
  split; [exact Hstore|].
  apply (Hrestore eq_refl). simpl. lia.
Defined.

(** The null string. *)
Lemma null_string_round_trip_witness :
  let w := Example.world_with [] in
  let stored := set_streams <[0%nat := Stream [0; 0; 0; 0] 60]> w in
  (streams w !! 0%nat = Some (Stream [] 64) /\ 4 <= 64)
  /\ avs_persistence_string LittleEndian (Some Example.store_ctx) None w =
       ((0, None), stored)
  /\ avs_persistence_string LittleEndian (Some Example.restore_ctx) None stored =
       ((0, None), set_streams <[0%nat := Stream [] 60]> w).
Proof.
  intros w stored.
  assert (H1 : streams w !! 0%nat = Some (Stream [] 64)) by reflexivity.
  assert (H2 : 4 <= room (Stream [] 64)) by (simpl; lia).
  split; [split; [exact H1 | lia]|].
  destruct (null_string_round_trip LittleEndian 100%nat 101%nat 0%nat w
              (Stream [] 64) H1 H2) as [Hstore Hrestore].
  split; [exact Hstore | exact (Hrestore eq_refl)].
Defined.

(** Four bytes with a NUL in the middle and a NUL at the end. *)
Lemma restore_string_checks_last_byte_witness :
  let w := Example.world_with [0; 0; 0; 4; 0x41; 0; 0x42; 0; 0x99] in
  (streams w !! 0%nat = Some (Stream [0; 0; 0; 4; 0x41; 0; 0x42; 0; 0x99] 64)
   /\ Z.of_nat (length [0x41; 0; 0x42; 0]) = 4
   /\ 0 < 4 < 2 ^ 32
   /\ nth (Z.to_nat (4 - 1)) [0x41; 0; 0x42; 0] 0 = 0
   /\ 4 <= heap_room w)
  /\ avs_persistence_string LittleEndian (Some Example.restore_ctx) None w =
       ((0, Some (fresh (dom (heap w)))),
        World (<[0%nat := Stream [0x99] 64]> (streams w))
              (<[fresh (dom (heap w)) := [0x41; 0; 0x42; 0]]> (heap w))
              (heap_room w - 4) tt []).
Proof.
  intros w.
  assert (H1 : streams w !! 0%nat =
               Some (Stream [0; 0; 0; 4; 0x41; 0; 0x42; 0; 0x99] 64))
    by reflexivity.
  assert (H2 : Z.of_nat (length [0x41; 0; 0x42; 0]) = 4) by reflexivity.
  assert (H3 : 0 < 4 < 2 ^ 32) by lia.
  assert (H4 : nth (Z.to_nat (4 - 1)) [0x41; 0; 0x42; 0] 0 = 0) by reflexivity.
  assert (H5 : 4 <= heap_room w) by (simpl; lia).
  split; [repeat split; assumption || lia|].
  exact (restore_string_checks_last_byte LittleEndian 101%nat 0%nat w _ 4
           [0x41; 0; 0x42; 0] [0x99] H1 eq_refl H2 H3 H4 H5).
Defined.

(** A 32-bit value asked of a stream that holds three bytes. *)
Lemma scalar_restore_short_stream_witness :
  let w := Example.world_with [1; 2; 3] in
  let r := avs_persistence_scalar LittleEndian T_u32 (Some Example.restore_ctx)
             7 w in
  (scalar_value T_u32 7
   /\ streams w !! 0%nat = Some (Stream [1; 2; 3] 64)
   /\ Nat.lt (length [1; 2; 3]) (scalar_width T_u32))
  /\ r.1 = (-1, 7) /\ heap r.2 = heap w /\ heap_room r.2 = heap_room w.
Proof.
  intros w r.
  assert (H1 : scalar_value T_u32 7) by (unfold scalar_value; simpl; lia).
  assert (H2 : streams w !! 0%nat = Some (Stream [1; 2; 3] 64)) by reflexivity.
  assert (H3 : Nat.lt (length (pending (Stream [1; 2; 3] 64)))
                      (scalar_width T_u32)) by (simpl; lia).
  split; [repeat split; assumption || apply H1 || exact H3|].
  exact (scalar_restore_short_stream LittleEndian T_u32 7 101%nat 0%nat w _
           H1 H2 H3).
Defined.

(** The 16-bit value 0x1234 and the signed byte -1, one after the other. *)
Lemma scalar_fields_back_to_back_witness :
  let w := Example.world_with [] in
  let stored := set_streams <[0%nat := Stream [0x12; 0x34; 0xFF] 61]> w in
  (scalar_value T_u16 0x1234 /\ scalar_value T_i8 (-1)
   /\ streams w !! 0%nat = Some (Stream [] 64)
   /\ Z.of_nat (scalar_width T_u16) + Z.of_nat (scalar_width T_i8) <= 64)
  /\ (let* (r1, _) := avs_persistence_scalar LittleEndian T_u16
                        (Some Example.store_ctx) 0x1234 in
      let* (r2, _) := avs_persistence_scalar LittleEndian T_i8
                        (Some Example.store_ctx) (-1) in
      ret (r1, r2)) w = ((0, 0), stored)
  /\ (let* (r1, a) := avs_persistence_scalar LittleEndian T_u16
                        (Some Example.restore_ctx) 0 in
      let* (r2, b) := avs_persistence_scalar LittleEndian T_i8
                        (Some Example.restore_ctx) 0 in
      ret (r1, a, r2, b)) stored =
       ((0, 0x1234, 0, -1), set_streams <[0%nat := Stream [] 61]> w).
Proof.
  intros w stored.
  assert (H1 : scalar_value T_u16 0x1234) by (unfold scalar_value; simpl; lia).
  assert (H2 : scalar_value T_i8 (-1)) by (unfold scalar_value; simpl; lia).
  assert (H3 : streams w !! 0%nat = Some (Stream [] 64)) by reflexivity.
  assert (H4 : Z.of_nat (scalar_width T_u16) + Z.of_nat (scalar_width T_i8) <=
               room (Stream [] 64)) by (simpl; lia).
  split; [repeat split; assumption || apply H1 || apply H2 || exact H4|].
  destruct (scalar_fields_back_to_back LittleEndian T_u16 T_i8 0x1234 (-1) 0 0
              100%nat 101%nat 0%nat w (Stream [] 64) H1 H2 H3 H4)
    as [Hstore Hrestore].
  split; [exact Hstore | exact (Hrestore eq_refl)].
Defined.

(** An ignore context, created and deleted. *)
Lemma context_life_cycle_witness :
  let w := Example.world_with [] in
  let this := fresh (dom (heap w)) in
  (In (avs_persistence_ignore_context_new (U := unit), INIT_IGNORE_CONTEXT)
      [ (avs_persistence_store_context_new (U := unit), INIT_STORE_CONTEXT);
        (avs_persistence_restore_context_new (U := unit), INIT_RESTORE_CONTEXT);
        (avs_persistence_ignore_context_new (U := unit), INIT_IGNORE_CONTEXT) ]
   /\ sizeof_context <= heap_room w)
  /\ avs_persistence_ignore_context_new None w = (None, w)
  /\ exists this w1,
       avs_persistence_ignore_context_new (Some 0%nat) w =
         (Some (INIT_IGNORE_CONTEXT this 0%nat), w1)
       /\ heap w !! this = None
       /\ heap_room w1 = heap_room w - sizeof_context
       /\ avs_persistence_context_delete
            (Some (INIT_IGNORE_CONTEXT this 0%nat)) w1 = (tt, w).
Proof.
  intros w this.
  assert (H1 : In (avs_persistence_ignore_context_new (U := unit),
                   INIT_IGNORE_CONTEXT)
                  [ (avs_persistence_store_context_new (U := unit),
                     INIT_STORE_CONTEXT);
                    (avs_persistence_restore_context_new (U := unit),
                     INIT_RESTORE_CONTEXT);
                    (avs_persistence_ignore_context_new (U := unit),
                     INIT_IGNORE_CONTEXT) ])
    by (right; right; left; reflexivity).
  assert (H2 : sizeof_context <= heap_room w)
    by (unfold sizeof_context; simpl; lia).
  split; [split; assumption|].
  destruct (context_life_cycle 0%nat w _ _ H1) as (Hnull & _ & Hnew & _).
  split; [exact Hnull|].
  destruct (Hnew H2) as (this' & w1 & Hrun & _ & Hfresh & _ & Hroom & _ & Hdel).
  exists this', w1. repeat split; assumption.
Defined.

(** An empty list and an empty tree of one-byte elements. *)
Lemma empty_collection_round_trip_witness :
  let w := Example.world_with [] in
  let stored := set_streams <[0%nat := Stream [0; 0; 0; 0] 60]> w in
  let consumed := set_streams <[0%nat := Stream [] 60]> w in
  (streams w !! 0%nat = Some (Stream [] 64) /\ 4 <= 64)
  /\ avs_persistence_list LittleEndian (Some Example.store_ctx) [] 1
       Sample.byte_field None w = ((0, []), stored)
  /\ avs_persistence_tree LittleEndian (Some Example.restore_ctx)
       (RBTree Example.byte_cmp []) 1 Sample.byte_field None stored =
       ((0, RBTree Example.byte_cmp []), consumed)
  /\ avs_persistence_list LittleEndian (Some Example.ignore_ctx) [5%nat] 1
       Sample.byte_field None stored = ((0, [5%nat]), consumed).
Proof.
  intros w stored consumed.
  assert (H1 : streams w !! 0%nat = Some (Stream [] 64)) by reflexivity.
  assert (H2 : 4 <= room (Stream [] 64)) by (simpl; lia).
  split; [split; [exact H1 | lia]|].
  destruct (empty_collection_round_trip LittleEndian 100%nat 101%nat 102%nat
              0%nat w (Stream [] 64) 1 Sample.byte_field None Example.byte_cmp
              [5%nat] (RBTree Example.byte_cmp []) H1 H2)
    as (Hstore & _ & Hrest).
  destruct (Hrest eq_refl) as (_ & Htree & Hignore & _).
  split; [exact Hstore|]. split; [exact Htree | exact Hignore].
Defined.

(** A list of 2^32 elements. *)
Lemma persist_collection_count_overflow_witness :
  let w := Example.world_with [] in
  let lst := replicate (Z.to_nat (2 ^ 32)) 0%nat in
  2 ^ 32 <= Z.of_nat (length lst)
  /\ avs_persistence_list LittleEndian (Some Example.store_ctx) lst 1
       Sample.byte_field None w = ((-1, lst), w).
Proof.
  intros w lst.
  assert (H1 : 2 ^ 32 <= Z.of_nat (length lst)).
  { unfold lst. rewrite length_replicate, Z2Nat.id; lia. }
  split; [exact H1|].
  exact (proj1 (persist_collection_count_overflow LittleEndian 100%nat 0%nat w
                  lst 1 Sample.byte_field None Example.byte_cmp H1)).
Defined.

(** Three elements asked of an allocator that can serve two: the two
    elements built are cleaned up and freed. *)
Lemma restore_list_failure_leaves_nothing_witness :
  let w := Example.world_with_heap [0; 0; 0; 3; 0x11; 0x22; 0x33] 2 in
  let w' := World {[ 0%nat := Stream [0x33] 64 ]} ∅ 2 tt [[0x11]; [0x22]] in
  (0 <= 1
   /\ avs_persistence_list LittleEndian (Some Example.restore_ctx) [] 1
        Example.read_byte (Some Example.no_cleanup) w = ((-1, []), w')
   /\ -1 <> 0)
  /\ heap w' = heap w /\ heap_room w' = heap_room w.
Proof.
  intros w w'.
  assert (H1 : 0 <= 1) by lia.
  assert (H2 : avs_persistence_list LittleEndian (Some Example.restore_ctx) [] 1
                 Example.read_byte (Some Example.no_cleanup) w = ((-1, []), w'))
    by (vm_compute; reflexivity).
  assert (H3 : -1 <> 0) by lia.
  split; [repeat split; assumption|].
  exact (proj2 (restore_list_failure_leaves_nothing LittleEndian 101%nat 0%nat
                  w 1 Example.read_byte Example.no_cleanup (-1) [] w'
                  H1 H2 H3)).
Defined.

(** Three one-byte elements, restored in the order 30 10 20 of the stream. *)
Lemma restore_list_in_stream_order_witness :
  let w := Example.world_with [0; 0; 0; 3; 0x30; 0x10; 0x20] in
  (streams w !! 0%nat = Some (Stream [0; 0; 0; 3; 0x30; 0x10; 0x20] 64)
   /\ 0 <= 3 < 2 ^ 32 /\ 0 <= 1 /\ 3 * 1 <= heap_room w
   /\ handler_run Example.read_byte Example.restore_ctx 1 (Z.to_nat 3)
        (<[0%nat := Stream [0x30; 0x10; 0x20] 64]> (streams w), user w) =
        (0, [[0x30]; [0x10]; [0x20]], ({[ 0%nat := Stream [] 64 ]}, tt)))
  /\ exists lst' w',
       avs_persistence_list LittleEndian (Some Example.restore_ctx) [] 1
         Example.read_byte None w = ((0, lst'), w')
       /\ map (bytes_at (heap w')) lst' = [[0x30]; [0x10]; [0x20]]
       /\ Z.of_nat (length lst') = 3
       /\ NoDup lst'.
Proof.
  intros w.
  assert (H1 : streams w !! 0%nat =
               Some (Stream [0; 0; 0; 3; 0x30; 0x10; 0x20] 64)) by reflexivity.
  assert (H2 : 0 <= 3 < 2 ^ 32) by lia.
  assert (H3 : 0 <= 1) by lia.
  assert (H4 : 3 * 1 <= heap_room w) by (simpl; lia).
  assert (H5 : handler_run Example.read_byte Example.restore_ctx 1 (Z.to_nat 3)
                 (<[0%nat := Stream [0x30; 0x10; 0x20] 64]> (streams w), user w) =
               (0, [[0x30]; [0x10]; [0x20]], ({[ 0%nat := Stream [] 64 ]}, tt)))
    by (vm_compute; reflexivity).
  split; [repeat split; assumption || lia|].
  destruct (restore_list_in_stream_order LittleEndian 101%nat 0%nat w _ 3
              [0x30; 0x10; 0x20] 1 Example.read_byte None _ _
              H1 eq_refl H2 H3 H4 H5)
    as (lst' & w' & Hrun & Hmap & Hlen & Hnd & _).
  exists lst', w'. repeat split; assumption.
Defined.

(** Three one-byte elements with the distinct keys 30, 10 and 20. *)
Lemma restore_tree_distinct_keys_witness :
  let w := Example.world_with [0; 0; 0; 3; 0x30; 0x10; 0x20] in
  (streams w !! 0%nat = Some (Stream [0; 0; 0; 3; 0x30; 0x10; 0x20] 64)
   /\ 0 <= 3 < 2 ^ 32 /\ 0 <= 1 /\ 3 * 1 <= heap_room w
   /\ handler_run Example.read_byte Example.restore_ctx 1 (Z.to_nat 3)
        (<[0%nat := Stream [0x30; 0x10; 0x20] 64]> (streams w), user w) =
        (0, [[0x30]; [0x10]; [0x20]], ({[ 0%nat := Stream [] 64 ]}, tt))
   /\ distinct_keys Example.byte_cmp [] [[0x30]; [0x10]; [0x20]])
  /\ exists tree' w',
       avs_persistence_tree LittleEndian (Some Example.restore_ctx)
         (RBTree Example.byte_cmp []) 1 Example.read_byte
         (Some Example.no_cleanup) w = ((0, tree'), w')
       /\ AVS_RBTREE_SIZE tree' = 3
       /\ map (bytes_at (heap w')) (rb_elems tree') ≡ₚ
            [[0x30]; [0x10]; [0x20]]
       /\ cleaned w' = cleaned w.
Proof.
  intros w.
  assert (H1 : streams w !! 0%nat =
               Some (Stream [0; 0; 0; 3; 0x30; 0x10; 0x20] 64)) by reflexivity.
  assert (H2 : 0 <= 3 < 2 ^ 32) by lia.
  assert (H3 : 0 <= 1) by lia.
  assert (H4 : 3 * 1 <= heap_room w) by (simpl; lia).
  assert (H5 : handler_run Example.read_byte Example.restore_ctx 1 (Z.to_nat 3)
                 (<[0%nat := Stream [0x30; 0x10; 0x20] 64]> (streams w), user w) =
               (0, [[0x30]; [0x10]; [0x20]], ({[ 0%nat := Stream [] 64 ]}, tt)))
    by (vm_compute; reflexivity).
  assert (H6 : distinct_keys Example.byte_cmp [] [[0x30]; [0x10]; [0x20]]).
  { simpl. unfold Example.byte_cmp. simpl.
    repeat split; repeat (constructor; [simpl; lia|]); constructor. }
  split; [repeat split; assumption || lia || apply H6|].
  destruct (restore_tree_distinct_keys LittleEndian 101%nat 0%nat w _ 3
              [0x30; 0x10; 0x20] 1 Example.read_byte (Some Example.no_cleanup)
              Example.byte_cmp _ _ H1 eq_refl H2 H3 H4 H5 H6)
    as (tree' & w' & Hrun & Hsize & _ & Hperm & _ & _ & _ & _ & _ & _ & Hcl).
  exists tree', w'. repeat split; assumption.
Defined.

(** Three elements asked of an allocator that can serve two: the tree is
    cleared and the two elements built are freed. *)
Lemma restore_tree_failure_leaves_nothing_witness :
  let w := Example.world_with_heap [0; 0; 0; 3; 0x30; 0x10; 0x20] 2 in
  let w' := World {[ 0%nat := Stream [0x20] 64 ]} ∅ 2 tt [[0x10]; [0x30]] in
  (0 <= 1
   /\ avs_persistence_tree LittleEndian (Some Example.restore_ctx)
        (RBTree Example.byte_cmp []) 1 Example.read_byte
        (Some Example.no_cleanup) w = ((-1, RBTree Example.byte_cmp []), w')
   /\ -1 <> 0)
  /\ AVS_RBTREE_SIZE (RBTree Example.byte_cmp []) = 0
  /\ heap w' = heap w /\ heap_room w' = heap_room w.
Proof.
  intros w w'.
  assert (H1 : 0 <= 1) by lia.
  assert (H2 : avs_persistence_tree LittleEndian (Some Example.restore_ctx)
                 (RBTree Example.byte_cmp []) 1 Example.read_byte
                 (Some Example.no_cleanup) w =
               ((-1, RBTree Example.byte_cmp []), w'))
    by (vm_compute; reflexivity).
  assert (H3 : -1 <> 0) by lia.
  split; [repeat split; assumption|].
  destruct (restore_tree_failure_leaves_nothing LittleEndian 101%nat 0%nat
              w 1 Example.read_byte Example.no_cleanup Example.byte_cmp (-1)
              (RBTree Example.byte_cmp []) w' H1 H2 H3)
    as (Hsize & _ & Hheap & Hroom).
  repeat split; assumption.
Defined.

(** The one-byte handler encodes an element as its byte and decodes it
    back, and skips it in ignore mode as it reads it in restore mode. *)
Lemma byte_field_stores this s :
  stores_as Sample.byte_field (INIT_STORE_CONTEXT this s) 1 (fun e => e).
Proof.
  intros element ss u st Hlen Hs Hroom.
  destruct element as [|b [|? ?]]; try discriminate.
  unfold Sample.byte_field.
  cbn [fst snd INIT_STORE_CONTEXT stream_of handle_bytes] in Hs |- *.
  rewrite Hs. destruct st as [bytes rm]. cbn [length pending room] in *.
  destruct (decide (1 <= rm)); [reflexivity | lia].
Qed.

Lemma byte_field_restores this s :
  restores_as Sample.byte_field (INIT_RESTORE_CONTEXT this s) 1 (fun e => e).
Proof.
  intros element ss u st rest Hlen Hs Hp.
  destruct element as [|b [|? ?]]; try discriminate.
  unfold Sample.byte_field.
  cbn [fst snd INIT_RESTORE_CONTEXT stream_of handle_bytes] in Hs |- *.
  rewrite Hs. destruct st as [bytes rm]. cbn [pending room] in *. subst bytes.
  reflexivity.
Qed.

Lemma byte_field_skips_like_restore this this' s :
  skips_like_restore Sample.byte_field (INIT_IGNORE_CONTEXT this s)
    (INIT_RESTORE_CONTEXT this' s).
Proof.
  intros element [ss u]. unfold Sample.byte_field.
  cbn [fst snd INIT_IGNORE_CONTEXT INIT_RESTORE_CONTEXT stream_of handle_bytes].
  destruct (ss !! s) as [[[|b rest] rm]|]; split; reflexivity.
Qed.

(** The elements of the sample world are live one-byte blocks. *)
Lemma world_three_elements_live (lst : list loc) :
  lst ⊆ [0%nat; 1%nat; 2%nat] ->
  forall l, l ∈ lst ->
    exists b, heap Sample.world_three_elements !! l = Some b
              /\ length b = Z.to_nat 1.
Proof.
  intros Hsub l Hl. apply Hsub in Hl.
  repeat (apply elem_of_cons in Hl as [->|Hl]);
    [eexists; split; reflexivity ..|].
  inversion Hl.
Qed.

(** The list 30 10 20 of the sample world, stored and restored in that
    order. *)
Lemma list_round_trip_witness :
  let w := Sample.world_three_elements in
  let lst := [0%nat; 1%nat; 2%nat] in
  let stored := set_streams
                  <[0%nat := Stream [0; 0; 0; 3; 0x30; 0x10; 0x20] 57]> w in
  (stores_as Sample.byte_field Example.store_ctx 1 (fun e => e)
   /\ restores_as Sample.byte_field Example.restore_ctx 1 (fun e => e)
   /\ streams w !! 0%nat = Some (Stream [] 64)
   /\ Z.of_nat (length lst) < 2 ^ 32
   /\ Z.of_nat (length lst) * 1 <= heap_room w)
  /\ avs_persistence_list LittleEndian (Some Example.store_ctx) lst 1
       Sample.byte_field None w = ((0, lst), stored)
  /\ exists lst' w',
       avs_persistence_list LittleEndian (Some Example.restore_ctx) [] 1
         Sample.byte_field None stored = ((0, lst'), w')
       /\ map (bytes_at (heap w')) lst' = [[0x30]; [0x10]; [0x20]]
       /\ NoDup lst'
       /\ (forall l, l ∉ lst' -> heap w' !! l = heap w !! l).
Proof.
  intros w lst stored.
  assert (H1 : stores_as Sample.byte_field Example.store_ctx 1 (fun e => e))
    by apply byte_field_stores.
  assert (H2 : restores_as Sample.byte_field Example.restore_ctx 1 (fun e => e))
    by apply byte_field_restores.
  assert (H3 : streams w !! 0%nat = Some (Stream [] 64)) by reflexivity.
  assert (H4 : Z.of_nat (length lst) < 2 ^ 32) by (simpl; lia).
  assert (H5 : Z.of_nat (length lst) * 1 <= heap_room w) by (simpl; lia).
  assert (H6 : 0 <= 1) by lia.
  assert (H7 : Z.of_nat (length (be_bytes 4 (Z.of_nat (length lst)) ++
                                 concat (map (fun e => e)
                                           (map (bytes_at (heap w)) lst)))) <=
               room (Stream [] 64))
    by (apply Z.leb_le; vm_compute; reflexivity).
  split; [exact (conj H1 (conj H2 (conj H3 (conj H4 H5))))|].
  destruct (list_round_trip LittleEndian 100%nat 101%nat 0%nat w (Stream [] 64)
              lst 1 Sample.byte_field (fun e => e) None None H1 H2 H3
              (world_three_elements_live lst (fun _ H => H)) H4 H6 H7)
    as [Hstore Hrestore].
  split; [exact Hstore|].
  destruct (Hrestore eq_refl H5)
    as (lst' & w' & Hrun & Hmap & Hnd & _ & Hkept & _).
  exists lst', w'. repeat split; assumption.
Defined.

(** The tree 10 20 30 of the sample world, stored in tree order and
    restored. *)
Lemma tree_round_trip_witness :
  let w := Sample.world_three_elements in
  let elems := [1%nat; 2%nat; 0%nat] in
  let stored := set_streams
                  <[0%nat := Stream [0; 0; 0; 3; 0x10; 0x20; 0x30] 57]> w in
  (stores_as Sample.byte_field Example.store_ctx 1 (fun e => e)
   /\ restores_as Sample.byte_field Example.restore_ctx 1 (fun e => e)
   /\ streams w !! 0%nat = Some (Stream [] 64)
   /\ distinct_keys Example.byte_cmp [] (map (bytes_at (heap w)) elems)
   /\ Z.of_nat (length elems) < 2 ^ 32
   /\ Z.of_nat (length elems) * 1 <= heap_room w)
  /\ avs_persistence_tree LittleEndian (Some Example.store_ctx)
       (RBTree Example.byte_cmp elems) 1 Sample.byte_field None w =
       ((0, RBTree Example.byte_cmp elems), stored)
  /\ exists tree' w',
       avs_persistence_tree LittleEndian (Some Example.restore_ctx)
         (RBTree Example.byte_cmp []) 1 Sample.byte_field
         (Some Example.no_cleanup) stored = ((0, tree'), w')
       /\ AVS_RBTREE_SIZE tree' = 3
       /\ map (bytes_at (heap w')) (rb_elems tree') ≡ₚ
            [[0x10]; [0x20]; [0x30]].
Proof.
  intros w elems stored.
  assert (H1 : stores_as Sample.byte_field Example.store_ctx 1 (fun e => e))
    by apply byte_field_stores.
  assert (H2 : restores_as Sample.byte_field Example.restore_ctx 1 (fun e => e))
    by apply byte_field_restores.
  assert (H3 : streams w !! 0%nat = Some (Stream [] 64)) by reflexivity.
  assert (H4 : distinct_keys Example.byte_cmp []
                 (map (bytes_at (heap w)) elems)).
  { change (map (bytes_at (heap w)) elems) with [[0x10]; [0x20]; [0x30]].
    simpl. unfold Example.byte_cmp. simpl.
    repeat split; repeat (constructor; [simpl; lia|]); constructor. }
  assert (H5 : Z.of_nat (length elems) < 2 ^ 32) by (simpl; lia).
  assert (H6 : Z.of_nat (length elems) * 1 <= heap_room w) by (simpl; lia).
  assert (H7 : 0 <= 1) by lia.
  assert (H8 : Z.of_nat (length (be_bytes 4 (Z.of_nat (length elems)) ++
                                 concat (map (fun e => e)
                                           (map (bytes_at (heap w)) elems)))) <=
               room (Stream [] 64))
    by (apply Z.leb_le; vm_compute; reflexivity).
  assert (H9 : elems ⊆ [0%nat; 1%nat; 2%nat]).
  { intros x Hx. apply list_elem_of_In in Hx. apply list_elem_of_In.
    simpl in *. tauto. }
  split; [exact (conj H1 (conj H2 (conj H3 (conj H4 (conj H5 H6)))))|].
  destruct (tree_round_trip LittleEndian 100%nat 101%nat 0%nat w (Stream [] 64)
              elems Example.byte_cmp 1 Sample.byte_field (fun e => e) None
              (Some Example.no_cleanup) H1 H2 H3
              (world_three_elements_live elems H9) H4 H5 H7 H8)
    as [Hstore Hrestore].
  split; [exact Hstore|].
  destruct (Hrestore eq_refl H6) as (tree' & w' & Hrun & Hsize & Hperm & _).
  exists tree', w'. repeat split; assumption.
Defined.

(** 600 bytes, or a sized buffer of 5, asked of a stream that holds 6
    bytes. *)
Lemma ignore_short_stream_witness :
  let w := Example.world_with [0; 0; 0; 5; 0x48; 0x69] in
  (streams w !! 0%nat = Some (Stream [0; 0; 0; 5; 0x48; 0x69] 64)
   /\ Z.of_nat (length [0; 0; 0; 5; 0x48; 0x69]) < 600
   /\ Z.of_nat (length [0x48; 0x69]) < 5 < 2 ^ 32)
  /\ (avs_persistence_bytes (Some Example.ignore_ctx) [7; 7] 600 w).1 =
       (-1, [7; 7])
  /\ (avs_persistence_sized_buffer LittleEndian (Some Example.ignore_ctx)
        (Some 9%nat) 1 w).1 = (-1, Some 9%nat, 1)
  /\ (avs_persistence_string LittleEndian (Some Example.ignore_ctx)
        (Some 9%nat) w).1 = (-1, Some 9%nat).
Proof.
  intros w.
  assert (H1 : streams w !! 0%nat =
               Some (Stream [0; 0; 0; 5; 0x48; 0x69] 64)) by reflexivity.
  assert (H2 : Z.of_nat (length (pending (Stream [0; 0; 0; 5; 0x48; 0x69] 64)))
               < 600) by (simpl; lia).
  assert (H3 : Z.of_nat (length [0x48; 0x69]) < 5 < 2 ^ 32) by (simpl; lia).
  split; [repeat split; assumption || exact H2 || apply H3|].
  destruct (ignore_short_stream LittleEndian 102%nat 0%nat w _ [7; 7] 600 5
              [0x48; 0x69] (Some 9%nat) 1 (Some 9%nat) H1)
    as [Hbytes Hsized].
  split; [exact (Hbytes H2)|].
  exact (Hsized eq_refl H3).
Defined.

(** Three one-byte elements of which the second is not valid. *)
Lemma ignore_collection_handler_failure_witness :
  let w := Example.world_with [0; 0; 0; 3; 0x11; 0xFF; 0x33] in
  let stopped := World {[ 0%nat := Stream [0x33] 64 ]} ∅ 4096 tt [] in
  (skips_like_restore Example.read_byte Example.ignore_ctx Example.restore_ctx
   /\ streams w !! 0%nat = Some (Stream [0; 0; 0; 3; 0x11; 0xFF; 0x33] 64)
   /\ 0 <= 3 < 2 ^ 32
   /\ handler_run Example.read_byte Example.restore_ctx 1 (Z.to_nat 3)
        (<[0%nat := Stream [0x11; 0xFF; 0x33] 64]> (streams w), user w) =
        (-1, [[0x11]; [0]], ({[ 0%nat := Stream [0x33] 64 ]}, tt))
   /\ -1 <> 0)
  /\ avs_persistence_list LittleEndian (Some Example.ignore_ctx) [] 1
       Example.read_byte None w = ((-1, []), stopped)
  /\ avs_persistence_tree LittleEndian (Some Example.ignore_ctx)
       (RBTree Example.byte_cmp []) 1 Example.read_byte None w =
       ((-1, RBTree Example.byte_cmp []), stopped).
Proof.
  intros w stopped.
  assert (H1 : skips_like_restore Example.read_byte Example.ignore_ctx
                 Example.restore_ctx) by apply read_byte_skips_like_restore.
  assert (H2 : streams w !! 0%nat =
               Some (Stream [0; 0; 0; 3; 0x11; 0xFF; 0x33] 64)) by reflexivity.
  assert (H3 : 0 <= 3 < 2 ^ 32) by lia.
  assert (H4 : handler_run Example.read_byte Example.restore_ctx 1 (Z.to_nat 3)
                 (<[0%nat := Stream [0x11; 0xFF; 0x33] 64]> (streams w), user w) =
               (-1, [[0x11]; [0]], ({[ 0%nat := Stream [0x33] 64 ]}, tt)))
    by (vm_compute; reflexivity).
  assert (H5 : -1 <> 0) by lia.
  split; [exact (conj H1 (conj H2 (conj H3 (conj H4 H5))))|].
  exact (ignore_collection_handler_failure LittleEndian 102%nat 101%nat 0%nat w
           _ 3 [0x11; 0xFF; 0x33] 1 Example.read_byte None []
           (RBTree Example.byte_cmp []) (-1) _ _ H1 H2 eq_refl H3 H4 H5).
Defined.

(** A string skipped on a world that holds a block. *)
Lemma ignore_leaves_memory_alone_witness :
  let w := Sample.world_with_block in
  let r := avs_persistence_string LittleEndian (Some Example.ignore_ctx)
             (Some 7%nat) w in
  scalar_value T_i16 (-2)
  /\ r.1.2 = Some 7%nat
  /\ heap r.2 = heap w /\ heap_room r.2 = heap_room w
  /\ cleaned r.2 = cleaned w.
Proof.
  intros w r.
  assert (H1 : scalar_value T_i16 (-2)) by (unfold scalar_value; simpl; lia).
  split; [exact H1|].
  destruct (ignore_leaves_memory_alone LittleEndian 102%nat 0%nat w T_i16 (-2)
              [] 0 None 0 (Some 7%nat) [] (RBTree Example.byte_cmp []) 1
              Example.read_byte None H1)
    as (_ & _ & _ & Hstring & _).
  exact Hstring.
Defined.

(** A string stored on a world that holds its block. *)
Lemma store_leaves_memory_alone_witness :
  let w := Sample.world_with_block in
  let r := avs_persistence_string LittleEndian (Some Example.store_ctx)
             (Some 7%nat) w in
  (streams w !! 0%nat = Some (Stream [] 64) /\ scalar_value T_i16 (-2))
  /\ r.1.2 = Some 7%nat
  /\ (exists st' tail,
        streams r.2 !! 0%nat = Some st' /\ pending st' = [] ++ tail)
  /\ heap r.2 = heap w /\ heap_room r.2 = heap_room w.
Proof.
  intros w r.
  assert (H1 : streams w !! 0%nat = Some (Stream [] 64)) by reflexivity.
  assert (H2 : scalar_value T_i16 (-2)) by (unfold scalar_value; simpl; lia).
  split; [split; assumption|].
  destruct (store_leaves_memory_alone LittleEndian 100%nat 0%nat w
              (Stream [] 64) T_i16 (-2) [] 0 None 0 (Some 7%nat) H1 H2)
    as (_ & _ & _ & Harg & Happend & Hheap & Hroom & _).
  repeat split; assumption.
Defined.

(** Three elements for a stream with room for three bytes. *)
Lemma persist_collection_no_room_witness :
  let w := Sample.world_with_room 3 in
  let lst := [7%nat; 7%nat; 7%nat] in
  (streams w !! 0%nat = Some (Stream [] 3) /\ 3 < 4
   /\ Z.of_nat (length lst) < 2 ^ 32)
  /\ avs_persistence_list LittleEndian (Some Example.store_ctx) lst 1
       Sample.byte_field None w = ((-1, lst), w)
  /\ avs_persistence_tree LittleEndian (Some Example.store_ctx)
       (RBTree Example.byte_cmp lst) 1 Sample.byte_field None w =
       ((-1, RBTree Example.byte_cmp lst), w).
Proof.
  intros w lst.
  assert (H1 : streams w !! 0%nat = Some (Stream [] 3)) by reflexivity.
  assert (H2 : room (Stream [] 3) < 4) by (simpl; lia).
  assert (H3 : Z.of_nat (length lst) < 2 ^ 32) by (simpl; lia).
  split; [repeat split; assumption || lia|].
  exact (persist_collection_no_room LittleEndian 100%nat 0%nat w (Stream [] 3)
           lst 1 Sample.byte_field None Example.byte_cmp H1 H2 H3).
Defined.
